(** * Telemetry metrics encoder of librdkafka (src/rdkafka_telemetry_encode.c)

    A shallow embedding of the metric value calculators, the historic
    snapshot reset, the resource attribute builder and the metric tree
    builder with its two encoder passes, followed by the properties of the
    specification that were checked against them.

    Modelling conventions.
    - [int32_t], [int64_t] and [size_t] values are integers of [Z]; the
      arithmetic the C code performs on them is written with its
      wrap-around ([wrap32], [wrap64], [wrap_size]).
    - A [double] is the rational number it stands for ([Q]); the rounding of
      binary64 arithmetic and of the [int64_t] to [double] conversion is not
      modelled, and the conversion of the elapsed seconds to [int] is taken
      in range.
    - A TAILQ of brokers is the list of its elements in link order.
    - A pointer that may be NULL is an [option]; an array is a list.
    - Undefined behaviour (integer division by zero, a NULL dereference, an
      access outside an allocation, the read of an uninitialised object) is
      the result [Fault].
    - [rd_uclock()] is the [n]-th reading of a clock, [n] counting the calls
      made so far.
    - nanopb's passes ([pb_get_encoded_size], [pb_encode]) and the buffer
      allocation are not part of the file: whether each of them fails is
      given by the environment, and the buffer they fill is identified with
      the message tree it serialises. *)

From Stdlib Require Import ZArith QArith List String Bool Lia.
Import ListNotations.
Open Scope Z_scope.

(** ** Machine integers *)

Definition wrap (w z : Z) : Z := (z + 2 ^ (w - 1)) mod 2 ^ w - 2 ^ (w - 1).
Definition wrap32 : Z -> Z := wrap 32.
Definition wrap64 : Z -> Z := wrap 64.
Definition wrap_size (z : Z) : Z := z mod 2 ^ 64.

Definition in_int64 (z : Z) : Prop := - 2 ^ 63 <= z < 2 ^ 63.

(** ** Results of a computation that may be undefined *)

Inductive fault : Type :=
| DivisionFault      (* integer division by zero, or INT64_MIN / -1 *)
| NullDeref          (* member access through a NULL pointer *)
| OutOfBounds        (* access outside the object a pointer points to *)
| UninitRead.        (* read of an object that was never written *)

Inductive result (A : Type) : Type :=
| Ok (a : A)
| Fault (f : fault).
Arguments Ok {A} a.
Arguments Fault {A} f.

Definition rbind {A B} (r : result A) (k : A -> result B) : result B :=
  match r with
  | Ok a => k a
  | Fault f => Fault f
  end.

(** The state threaded through the calls: the number of clock readings taken
    and (ghost) the number of calls of [reset_historical_metrics]. *)
Record mstate : Type := MState { clock_ticks : nat; reset_calls : nat }.

(** The environment of one call. *)
Record env : Type := Env {
  uclock : nat -> Z;          (* n-th value returned by rd_uclock(), in us *)
  size_pass_ok : bool;        (* pb_get_encoded_size returns true *)
  buffer_alloc_ok : bool;     (* rd_malloc(message_size) is not NULL *)
  write_pass_ok : bool        (* pb_encode returns true *)
}.

Definition M (A : Type) : Type := env -> mstate -> result (A * mstate).

Definition ret {A} (a : A) : M A := fun _ s => Ok (a, s).
Definition bind {A B} (m : M A) (k : A -> M B) : M B :=
  fun e s => match m e s with
             | Ok (a, s') => k a e s'
             | Fault f => Fault f
             end.
Definition lift {A} (r : result A) : M A :=
  fun _ s => match r with Ok a => Ok (a, s) | Fault f => Fault f end.
Definition rd_uclock : M Z :=
  fun e s => Ok (uclock e (clock_ticks s),
                 MState (S (clock_ticks s)) (reset_calls s)).
Definition note_reset : M unit :=
  fun _ s => Ok (tt, MState (clock_ticks s) (S (reset_calls s))).

Declare Scope monad_scope.
Delimit Scope monad_scope with monad.
Notation "x <- m ;; k" := (bind m (fun x => k))
  (at level 61, m at next level, right associativity) : monad_scope.
Notation "x <-- r ;; k" := (rbind r (fun x => k))
  (at level 61, r at next level, right associativity) : monad_scope.
Open Scope monad_scope.

(** Signed 64-bit division as the hardware performs it. *)
Definition div64 (a b : Z) : result Z :=
  if b =? 0 then Fault DivisionFault
  else if (a =? - 2 ^ 63) && (b =? -1) then Fault DivisionFault
  else Ok (Z.quot a b).

(** ** Data model *)

Definition RDKAFKA_TELEMETRY_NS_TO_MS_FACTOR : Z := 1000000.

(** The members of [rd_avg_t.ra_v] this file reads or writes. *)
Record ra_v_t : Type := RaV {
  cnt : Z;
  sum : Z;
  maxv_interval : Z;
  maxv_reset : Z
}.

Record rd_avg_t : Type := RdAvg { ra_v : ra_v_t }.

(** [rkb_c_historic]: the baseline of one broker. *)
Record rkb_c_historic_t : Type := Historic {
  h_connects : Z;
  h_assigned_partitions : Z;
  h_ts_last : Z;
  h_ts_start : Z;
  h_rkb_avg_rtt : rd_avg_t;
  h_rkb_avg_throttle : rd_avg_t;
  h_rkb_avg_outbuf_latency : rd_avg_t
}.

Record rd_kafka_broker_t : Type := Broker {
  rkb_nodeid : Z;
  rkb_c_connects : Z;                (* rkb_c.connects.val *)
  rkb_toppar_cnt : Z;
  rkb_avg_rtt : rd_avg_t;
  rkb_avg_throttle : rd_avg_t;
  rkb_avg_outbuf_latency : rd_avg_t;
  rkb_c_historic : rkb_c_historic_t
}.

Inductive rd_kafka_type_t : Type :=
| RD_KAFKA_PRODUCER
| RD_KAFKA_CONSUMER
| RD_KAFKA_TYPE_OTHER.   (* any other value of the C enum *)

Definition rd_kafka_type_eqb (a b : rd_kafka_type_t) : bool :=
  match a, b with
  | RD_KAFKA_PRODUCER, RD_KAFKA_PRODUCER => true
  | RD_KAFKA_CONSUMER, RD_KAFKA_CONSUMER => true
  | RD_KAFKA_TYPE_OTHER, RD_KAFKA_TYPE_OTHER => true
  | _, _ => false
  end.

(** A Kafka protocol string: a length (-1 for the null string) and bytes. *)
Record rd_kafkap_str_t : Type := KStr { kstr_len : Z; kstr_str : string }.

(** Modelled from the spec: the macro [RD_KAFKAP_STR_LEN] is declared in a
    header that is not among the sources; an accessor "returns a non-empty
    value", so the length of the null string (-1) counts as 0. *)
Definition RD_KAFKAP_STR_LEN (k : rd_kafkap_str_t) : Z :=
  if kstr_len k =? -1 then 0 else kstr_len k.

Record rd_kafka_conf_t : Type := Conf {
  client_rack : option rd_kafkap_str_t;
  group_id_str : option string;
  group_instance_id : option string;
  eos_transactional_id : option string
}.

Record rd_kafka_cgrp_t : Type := Cgrp {
  rkcg_member_id : option rd_kafkap_str_t
}.

Record rd_kafka_t : Type := Rk {
  rk_type : rd_kafka_type_t;
  rk_name : string;
  rk_conf : rd_kafka_conf_t;
  rk_cgrp : option rd_kafka_cgrp_t;
  rk_brokers : list rd_kafka_broker_t;
  rk_broker_cnt : Z;                           (* rk_broker_cnt.val *)
  delta_temporality : bool;                    (* rk_telemetry member *)
  matched_metrics : list Z                     (* with matched_metrics_cnt *)
}.

(** The union [rd_kafka_telemetry_metric_value_t], tagged with the member
    that was written. *)
Inductive rd_kafka_telemetry_metric_value_t : Type :=
| intValue (z : Z)
| doubleValue (q : Q).

(** ** Metric value calculators *)

Definition connects_delta (rkb : rd_kafka_broker_t) : Z :=
  wrap32 (rkb_c_connects rkb - h_connects (rkb_c_historic rkb)).

Definition calculate_connection_creation_total
    (rk : rd_kafka_t) (broker : option rd_kafka_broker_t)
  : result rd_kafka_telemetry_metric_value_t :=
  Ok (intValue
        (fold_left
           (fun total rkb =>
              if negb (delta_temporality rk)
              then wrap64 (total + rkb_c_connects rkb)
              else wrap64 (total + connects_delta rkb))
           (rk_brokers rk) 0)).

(** [(int)((now_ns - ts_last) / 1e9)]: the whole seconds elapsed. *)
Definition elapsed_seconds (now_ns ts_last : Z) : Z :=
  Z.quot (wrap64 (now_ns - ts_last)) (10 ^ 9).

Definition calculate_connection_creation_rate
    (rk : rd_kafka_t) (broker : option rd_kafka_broker_t)
  : M rd_kafka_telemetry_metric_value_t :=
  let '(ts_last, total) :=
    fold_left
      (fun (acc : Z * Q) rkb =>
         (h_ts_last (rkb_c_historic rkb),
          (snd acc + inject_Z (connects_delta rkb))%Q))
      (rk_brokers rk) (0, 0%Q) in
  now_us <- rd_uclock ;;
  let seconds := elapsed_seconds (wrap64 (now_us * 1000)) ts_last in
  if 0 <? seconds
  then ret (doubleValue (total / inject_Z seconds)%Q)
  else ret (doubleValue total).

(** The new observations of one running statistic, as an integer number of
    milliseconds: [sum_diff / (cnt_diff * FACTOR)] when
    [current_cnt > historic_cnt]. *)
Definition avg_since_baseline (cur hist : rd_avg_t) : result (option Z) :=
  let current_cnt := cnt (ra_v cur) in
  let historic_cnt := cnt (ra_v hist) in
  if historic_cnt <? current_cnt then
    let current_sum := sum (ra_v cur) in
    let historic_sum := sum (ra_v hist) in
    let cnt_diff := wrap64 (current_cnt - historic_cnt) in
    let sum_diff := wrap64 (current_sum - historic_sum) in
    q <-- div64 sum_diff
            (wrap64 (cnt_diff * RDKAFKA_TELEMETRY_NS_TO_MS_FACTOR)) ;;
    Ok (Some q)
  else Ok None.

Definition calculate_broker_avg_rtt
    (rk : rd_kafka_t) (broker : option rd_kafka_broker_t)
  : result rd_kafka_telemetry_metric_value_t :=
  match broker with
  | None => Fault NullDeref
  | Some broker =>
      o <-- avg_since_baseline (rkb_avg_rtt broker)
              (h_rkb_avg_rtt (rkb_c_historic broker)) ;;
      match o with
      | Some q => Ok (doubleValue (inject_Z q))   (* avg_value = int64 *)
      | None => Ok (doubleValue 0)
      end
  end.

Definition calculate_broker_max_rtt
    (rk : rd_kafka_t) (broker : option rd_kafka_broker_t)
  : result rd_kafka_telemetry_metric_value_t :=
  match broker with
  | None => Fault NullDeref
  | Some broker =>
      Ok (intValue (Z.quot (maxv_interval (ra_v (rkb_avg_rtt broker)))
                      RDKAFKA_TELEMETRY_NS_TO_MS_FACTOR))
  end.

(** The loop shared by [calculate_throttle_avg] and
    [calculate_queue_time_avg]: [sum_value] after the TAILQ_FOREACH. *)
Fixpoint sum_of_averages (cur hist : rd_kafka_broker_t -> rd_avg_t)
    (brokers : list rd_kafka_broker_t) (sum_value : Z) : result Z :=
  match brokers with
  | [] => Ok sum_value
  | rkb :: rest =>
      o <-- avg_since_baseline (cur rkb) (hist rkb) ;;
      match o with
      | Some q => sum_of_averages cur hist rest (wrap64 (sum_value + q))
      | None => sum_of_averages cur hist rest sum_value
      end
  end.

Definition calculate_throttle_avg
    (rk : rd_kafka_t) (broker : option rd_kafka_broker_t)
  : result rd_kafka_telemetry_metric_value_t :=
  let broker_count := rk_broker_cnt rk in
  sum_value <-- sum_of_averages rkb_avg_throttle
                  (fun rkb => h_rkb_avg_throttle (rkb_c_historic rkb))
                  (rk_brokers rk) 0 ;;
  q <-- div64 sum_value broker_count ;;
  Ok (intValue q).

Definition calculate_throttle_max
    (rk : rd_kafka_t) (broker : option rd_kafka_broker_t)
  : result rd_kafka_telemetry_metric_value_t :=
  Ok (intValue
        (Z.quot
           (fold_left
              (fun m rkb =>
                 Z.max m (maxv_interval (ra_v (rkb_avg_throttle rkb))))
              (rk_brokers rk) 0)
           RDKAFKA_TELEMETRY_NS_TO_MS_FACTOR)).

Definition calculate_queue_time_avg
    (rk : rd_kafka_t) (broker : option rd_kafka_broker_t)
  : result rd_kafka_telemetry_metric_value_t :=
  let broker_count := rk_broker_cnt rk in
  sum_value <-- sum_of_averages rkb_avg_outbuf_latency
                  (fun rkb => h_rkb_avg_outbuf_latency (rkb_c_historic rkb))
                  (rk_brokers rk) 0 ;;
  q <-- div64 sum_value broker_count ;;
  Ok (intValue q).

Definition calculate_queue_time_max
    (rk : rd_kafka_t) (broker : option rd_kafka_broker_t)
  : result rd_kafka_telemetry_metric_value_t :=
  Ok (intValue
        (Z.quot
           (fold_left
              (fun m rkb =>
                 Z.max m (maxv_interval (ra_v (rkb_avg_outbuf_latency rkb))))
              (rk_brokers rk) 0)
           RDKAFKA_TELEMETRY_NS_TO_MS_FACTOR)).

Definition calculate_consumer_assigned_partitions
    (rk : rd_kafka_t) (broker : option rd_kafka_broker_t)
  : result rd_kafka_telemetry_metric_value_t :=
  Ok (intValue
        (fold_left
           (fun total rkb =>
              wrap32 (wrap32 (total + rkb_toppar_cnt rkb)
                      - h_assigned_partitions (rkb_c_historic rkb)))
           (rk_brokers rk) 0)).

(** ** Historic snapshot reset *)

(** The body of the TAILQ_FOREACH of [reset_historical_metrics] for one
    broker, [now_ns] being [rd_uclock() * 1000]. *)
Definition reset_broker (now_ns : Z) (rkb : rd_kafka_broker_t)
  : rd_kafka_broker_t :=
  let raise_maxv_reset (a : rd_avg_t) :=
    RdAvg (RaV (cnt (ra_v a)) (sum (ra_v a)) (maxv_interval (ra_v a)) 1) in
  {| rkb_nodeid := rkb_nodeid rkb;
     rkb_c_connects := rkb_c_connects rkb;
     rkb_toppar_cnt := rkb_toppar_cnt rkb;
     rkb_avg_rtt := raise_maxv_reset (rkb_avg_rtt rkb);
     rkb_avg_throttle := raise_maxv_reset (rkb_avg_throttle rkb);
     rkb_avg_outbuf_latency := raise_maxv_reset (rkb_avg_outbuf_latency rkb);
     rkb_c_historic :=
       {| h_assigned_partitions := rkb_toppar_cnt rkb;
          h_connects := rkb_c_connects rkb;
          h_ts_last := now_ns;
          h_ts_start := h_ts_start (rkb_c_historic rkb);
          (* Only ra_v is being used to keep track of the metrics *)
          h_rkb_avg_rtt := RdAvg (ra_v (rkb_avg_rtt rkb));
          h_rkb_avg_throttle := RdAvg (ra_v (rkb_avg_throttle rkb));
          h_rkb_avg_outbuf_latency :=
            RdAvg (ra_v (rkb_avg_outbuf_latency rkb)) |} |}.

Fixpoint reset_brokers (brokers : list rd_kafka_broker_t)
  : M (list rd_kafka_broker_t) :=
  match brokers with
  | [] => ret []
  | rkb :: rest =>
      now_us <- rd_uclock ;;
      rest' <- reset_brokers rest ;;
      ret (reset_broker (wrap64 (now_us * 1000)) rkb :: rest')
  end.

Definition set_rk_brokers (rk : rd_kafka_t) (bs : list rd_kafka_broker_t)
  : rd_kafka_t :=
  {| rk_type := rk_type rk; rk_name := rk_name rk; rk_conf := rk_conf rk;
     rk_cgrp := rk_cgrp rk; rk_brokers := bs;
     rk_broker_cnt := rk_broker_cnt rk;
     delta_temporality := delta_temporality rk;
     matched_metrics := matched_metrics rk |}.

Definition reset_historical_metrics (rk : rd_kafka_t) : M rd_kafka_t :=
  _ <- note_reset ;;
  bs <- reset_brokers (rk_brokers rk) ;;
  ret (set_rk_brokers rk bs).

(** ** Resource attribute builder *)

Definition get_client_rack (rk : rd_kafka_t) : result (option string) :=
  match client_rack (rk_conf rk) with
  | Some k => if negb (RD_KAFKAP_STR_LEN k =? 0) then Ok (Some (kstr_str k))
              else Ok None
  | None => Ok None
  end.

Definition get_group_id (rk : rd_kafka_t) : result (option string) :=
  Ok (group_id_str (rk_conf rk)).

Definition get_group_instance_id (rk : rd_kafka_t) : result (option string) :=
  Ok (group_instance_id (rk_conf rk)).

Definition get_member_id (rk : rd_kafka_t) : result (option string) :=
  match rk_cgrp rk with
  | None => Fault NullDeref
  | Some cg =>
      match rkcg_member_id cg with
      | Some k => if 0 <? kstr_len k then Ok (Some (kstr_str k)) else Ok None
      | None => Ok None
      end
  end.

Definition get_transactional_id (rk : rd_kafka_t) : result (option string) :=
  Ok (eos_transactional_id (rk_conf rk)).

Record rd_kafka_telemetry_attribute_config_t : Type := AttrConfig {
  cfg_name : string;
  getValue : rd_kafka_t -> result (option string)
}.

Definition producer_attributes : list rd_kafka_telemetry_attribute_config_t :=
  [ AttrConfig "client_rack" get_client_rack;
    AttrConfig "transactional_id" get_transactional_id ].

Definition consumer_attributes : list rd_kafka_telemetry_attribute_config_t :=
  [ AttrConfig "client_rack" get_client_rack;
    AttrConfig "group_id" get_group_id;
    AttrConfig "group_instance_id" get_group_instance_id;
    AttrConfig "member_id" get_member_id ].

Fixpoint count_attributes (rk : rd_kafka_t)
    (configs : list rd_kafka_telemetry_attribute_config_t) (count : Z)
  : result Z :=
  match configs with
  | [] => Ok count
  | c :: rest =>
      v <-- getValue c rk ;;
      match v with
      | Some _ => count_attributes rk rest (wrap32 (count + 1))
      | None => count_attributes rk rest count
      end
  end.

Record rd_kafka_telemetry_resource_attribute_t : Type := Attr {
  attr_name : string;
  attr_value : string
}.

(** An array of structures, each written or not yet. *)
Definition attr_array : Type :=
  list (option rd_kafka_telemetry_resource_attribute_t).

Fixpoint list_set {A} (l : list A) (n : nat) (a : A) : list A :=
  match l, n with
  | [], _ => []
  | _ :: tl, O => a :: tl
  | x :: tl, S n' => x :: list_set tl n' a
  end.

(** [attributes] is the [rd_kafka_telemetry_resource_attribute_t **] the
    caller passes: the pointers it points to, each with the array it points
    to.  [attributes[attr_idx]->name = ...] selects the [attr_idx]-th
    pointer and writes the first structure of its array. *)
Fixpoint set_attributes (rk : rd_kafka_t) (attributes : list attr_array)
    (configs : list rd_kafka_telemetry_attribute_config_t) (attr_idx : nat)
  : result (list attr_array) :=
  match configs with
  | [] => Ok attributes
  | c :: rest =>
      value <-- getValue c rk ;;
      match value with
      | Some v =>
          match nth_error attributes attr_idx with
          | Some (_ :: tl) =>
              set_attributes rk
                (list_set attributes attr_idx
                   (Some (Attr (cfg_name c) v) :: tl))
                rest (S attr_idx)
          | _ => Fault OutOfBounds
          end
      | None => set_attributes rk attributes rest attr_idx
      end
  end.

(** Returns the count and the array left in [*attributes] (empty for
    NULL). *)
Definition resource_attributes (rk : rd_kafka_t) : result (Z * attr_array) :=
  let build configs :=
    count <-- count_attributes rk configs 0 ;;
    if count =? 0 then Ok (0, [])
    else
      (* *attributes = rd_malloc(sizeof(...) * count) *)
      let attributes := [repeat None (Z.to_nat count)] in
      attributes' <-- set_attributes rk attributes configs 0 ;;
      Ok (count, hd [] attributes') in
  match rk_type rk with
  | RD_KAFKA_PRODUCER => build producer_attributes
  | RD_KAFKA_CONSUMER => build consumer_attributes
  | RD_KAFKA_TYPE_OTHER => Ok (0, [])
  end.

(** ** Metric catalog *)

Inductive rd_kafka_telemetry_metric_type_t : Type :=
| RD_KAFKA_TELEMETRY_METRIC_TYPE_SUM
| RD_KAFKA_TELEMETRY_METRIC_TYPE_GAUGE.

Record rd_kafka_telemetry_metric_info_t : Type := Info {
  mi_name : string;
  mi_description : string;
  mi_is_int : bool;
  mi_type : rd_kafka_telemetry_metric_type_t
}.

(** The declarations of rdkafka_telemetry_encode.h the encoder uses and
    that are not among the sources: the two tables behind
    [RD_KAFKA_TELEMETRY_METRIC_INFO], the name prefix, the key of the
    per-broker attribute, and [rd_kafka_version_str()]. *)
Record catalog_t : Type := Catalog {
  PRODUCER_METRICS_INFO : list rd_kafka_telemetry_metric_info_t;
  CONSUMER_METRICS_INFO : list rd_kafka_telemetry_metric_info_t;
  RD_KAFKA_TELEMETRY_METRIC_PREFIX : string;
  RD_KAFKA_TELEMETRY_METRIC_NODE_ID_ATTRIBUTE : string;
  rd_kafka_version_str : string
}.

(** Modelled from the spec: the metric enumerators are declared in
    rdkafka_telemetry_encode.h, which is not among the sources; the catalog
    is "indexed by a small enum", numbered here in the order in which the
    calculator tables list the enumerators. *)
Definition RD_KAFKA_TELEMETRY_METRIC_PRODUCER_CONNECTION_CREATION_RATE : Z := 0.
Definition RD_KAFKA_TELEMETRY_METRIC_PRODUCER_CONNECTION_CREATION_TOTAL : Z := 1.
Definition RD_KAFKA_TELEMETRY_METRIC_PRODUCER_NODE_REQUEST_LATENCY_AVG : Z := 2.
Definition RD_KAFKA_TELEMETRY_METRIC_PRODUCER_NODE_REQUEST_LATENCY_MAX : Z := 3.
Definition RD_KAFKA_TELEMETRY_METRIC_PRODUCER_PRODUCE_THROTTLE_TIME_AVG : Z := 4.
Definition RD_KAFKA_TELEMETRY_METRIC_PRODUCER_PRODUCE_THROTTLE_TIME_MAX : Z := 5.
Definition RD_KAFKA_TELEMETRY_METRIC_PRODUCER_RECORD_QUEUE_TIME_AVG : Z := 6.
Definition RD_KAFKA_TELEMETRY_METRIC_PRODUCER_RECORD_QUEUE_TIME_MAX : Z := 7.
Definition RD_KAFKA_TELEMETRY_METRIC_CONSUMER_CONNECTION_CREATION_RATE : Z := 0.
Definition RD_KAFKA_TELEMETRY_METRIC_CONSUMER_CONNECTION_CREATION_TOTAL : Z := 1.
Definition RD_KAFKA_TELEMETRY_METRIC_CONSUMER_NODE_REQUEST_LATENCY_AVG : Z := 2.
Definition RD_KAFKA_TELEMETRY_METRIC_CONSUMER_NODE_REQUEST_LATENCY_MAX : Z := 3.
Definition RD_KAFKA_TELEMETRY_METRIC_CONSUMER_COORDINATOR_ASSIGNED_PARTITIONS
  : Z := 4.

Definition rd_kafka_telemetry_metric_value_calculator_t : Type :=
  rd_kafka_t -> option rd_kafka_broker_t ->
  M rd_kafka_telemetry_metric_value_t.

Definition pure_calculator
    (f : rd_kafka_t -> option rd_kafka_broker_t ->
         result rd_kafka_telemetry_metric_value_t)
  : rd_kafka_telemetry_metric_value_calculator_t :=
  fun rk broker => lift (f rk broker).

Definition PRODUCER_METRIC_VALUE_CALCULATORS
  : list rd_kafka_telemetry_metric_value_calculator_t :=
  [ calculate_connection_creation_rate;
    pure_calculator calculate_connection_creation_total;
    pure_calculator calculate_broker_avg_rtt;
    pure_calculator calculate_broker_max_rtt;
    pure_calculator calculate_throttle_avg;
    pure_calculator calculate_throttle_max;
    pure_calculator calculate_queue_time_avg;
    pure_calculator calculate_queue_time_max ].

Definition CONSUMER_METRIC_VALUE_CALCULATORS
  : list rd_kafka_telemetry_metric_value_calculator_t :=
  [ calculate_connection_creation_rate;
    pure_calculator calculate_connection_creation_total;
    pure_calculator calculate_broker_avg_rtt;
    pure_calculator calculate_broker_max_rtt;
    pure_calculator calculate_consumer_assigned_partitions ].

(** [table[idx]] for an [int] index. *)
Definition table_get {A} (table : list A) (idx : Z) : result A :=
  if idx <? 0 then Fault OutOfBounds
  else match nth_error table (Z.to_nat idx) with
       | Some a => Ok a
       | None => Fault OutOfBounds
       end.

Definition is_per_broker_metric (rk : rd_kafka_t) (metric_idx : Z) : bool :=
  if rd_kafka_type_eqb (rk_type rk) RD_KAFKA_PRODUCER &&
     ((metric_idx =?
         RD_KAFKA_TELEMETRY_METRIC_PRODUCER_NODE_REQUEST_LATENCY_AVG) ||
      (metric_idx =?
         RD_KAFKA_TELEMETRY_METRIC_PRODUCER_NODE_REQUEST_LATENCY_MAX))
  then true
  else if rd_kafka_type_eqb (rk_type rk) RD_KAFKA_CONSUMER &&
     ((metric_idx =?
         RD_KAFKA_TELEMETRY_METRIC_CONSUMER_NODE_REQUEST_LATENCY_AVG) ||
      (metric_idx =?
         RD_KAFKA_TELEMETRY_METRIC_CONSUMER_NODE_REQUEST_LATENCY_MAX))
  then true
  else false.

(** ** The message tree *)

Inductive AnyValue : Type :=
| string_value (s : string)
| int_value (z : Z).

Record KeyValue : Type := KV { kv_key : string; kv_value : AnyValue }.

Inductive which_value_t : Type := as_int_tag | as_double_tag.

Record NumberDataPoint : Type := DataPoint {
  which_value : which_value_t;
  dp_value : rd_kafka_telemetry_metric_value_t;   (* what the calculator left
                                                     in the union *)
  time_unix_nano : Z;
  start_time_unix_nano : Z;
  dp_attributes : option KeyValue
}.

Inductive AggregationTemporality : Type :=
| AGGREGATION_TEMPORALITY_DELTA
| AGGREGATION_TEMPORALITY_CUMULATIVE.

Inductive Metric_data : Type :=
| Metric_sum (data_point : NumberDataPoint)
             (aggregation_temporality : AggregationTemporality)
             (is_monotonic : bool)
| Metric_gauge (data_point : NumberDataPoint).

Record Metric : Type := MkMetric {
  metric_name : string;
  metric_description : string;
  metric_data : Metric_data
}.

Record ScopeMetrics : Type := MkScopeMetrics {
  scope_name : string;
  scope_version : string;
  sm_metrics : list Metric
}.

Record ResourceMetrics : Type := MkResourceMetrics {
  rm_resource : option (list KeyValue);     (* has_resource, attributes *)
  rm_scope_metrics : list ScopeMetrics
}.

Record MetricsData : Type := MkMetricsData {
  md_resource_metrics : list ResourceMetrics
}.

Definition data_point_of (m : Metric) : NumberDataPoint :=
  match metric_data m with
  | Metric_sum dp _ _ => dp
  | Metric_gauge dp => dp
  end.

(** The aggregation kind a metric entry was encoded with. *)
Definition kind_of (m : Metric) : rd_kafka_telemetry_metric_type_t :=
  match metric_data m with
  | Metric_sum _ _ _ => RD_KAFKA_TELEMETRY_METRIC_TYPE_SUM
  | Metric_gauge _ => RD_KAFKA_TELEMETRY_METRIC_TYPE_GAUGE
  end.

(** The metric entries of a message, in order. *)
Definition metric_entries (md : MetricsData) : list Metric :=
  flat_map (fun rm => flat_map sm_metrics (rm_scope_metrics rm))
           (md_resource_metrics md).

(** ** Metric tree builder *)

Definition ask : M env := fun e s => Ok (e, s).

Definition read_initialised {A} (o : option A) : result A :=
  match o with
  | Some a => Ok a
  | None => Fault UninitRead
  end.

(** One metric entry with its data point.  [info] is [&info[id]], read when
    it is first dereferenced.  After the TAILQ_FOREACH that stops at its
    first iteration, [rkb] is the first linked broker (NULL without
    brokers) and [ts_last], [ts_start] are written only if there is one. *)
Definition serializeMetricData (cat : catalog_t) (rk : rd_kafka_t)
    (rkb : option rd_kafka_broker_t)
    (info : result rd_kafka_telemetry_metric_info_t)
    (metricValueCalculator : rd_kafka_telemetry_metric_value_calculator_t)
    (is_per_broker : bool) (now_ns : Z) : M Metric :=
  info <- lift info ;;
  value <- metricValueCalculator rk rkb ;;
  let which := if mi_is_int info then as_int_tag else as_double_tag in
  let rkb := hd_error (rk_brokers rk) in
  let ts_last := option_map (fun b => h_ts_last (rkb_c_historic b)) rkb in
  let ts_start := option_map (fun b => h_ts_start (rkb_c_historic b)) rkb in
  start <- lift (read_initialised
                   match mi_type info with
                   | RD_KAFKA_TELEMETRY_METRIC_TYPE_GAUGE => ts_last
                   | RD_KAFKA_TELEMETRY_METRIC_TYPE_SUM => ts_start
                   end) ;;
  attributes <- lift (if is_per_broker then
                        match rkb with
                        | Some b =>
                            Ok (Some
                                  (KV (RD_KAFKA_TELEMETRY_METRIC_NODE_ID_ATTRIBUTE cat)
                                      (int_value (rkb_nodeid b))))
                        | None => Fault NullDeref
                        end
                      else Ok None) ;;
  let data_point := DataPoint which value now_ns start attributes in
  ret (MkMetric
         (String.append (RD_KAFKA_TELEMETRY_METRIC_PREFIX cat) (mi_name info))
         (mi_description info)
         match mi_type info with
         | RD_KAFKA_TELEMETRY_METRIC_TYPE_SUM =>
             Metric_sum data_point
               (if delta_temporality rk then AGGREGATION_TEMPORALITY_DELTA
                else AGGREGATION_TEMPORALITY_CUMULATIVE)
               true
         | RD_KAFKA_TELEMETRY_METRIC_TYPE_GAUGE => Metric_gauge data_point
         end).

(** [total_metrics_count] after the first loop of the encoder; the loop
    tests [is_per_broker_metric(rk, (int)i)] on the position [i]. *)
Definition total_metrics_count (rk : rd_kafka_t) : Z :=
  let metrics_to_encode_count := List.length (matched_metrics rk) in
  fold_left
    (fun total i =>
       if is_per_broker_metric rk (Z.of_nat i)
       then wrap_size (total + wrap32 (rk_broker_cnt rk - 1))
       else total)
    (seq 0 metrics_to_encode_count)
    (Z.of_nat metrics_to_encode_count).

(** The arrays [metrics], [data_points], [metric_names] and
    [datapoint_attributes_key_values] have [total_metrics_count] elements;
    [nodes] are the elements written so far, so [metric_idx] is their
    number. *)
Definition check_slot (total_metrics_count : Z) (nodes : list Metric)
  : result unit :=
  if Z.of_nat (List.length nodes) <? total_metrics_count then Ok tt
  else Fault OutOfBounds.

Fixpoint per_broker_nodes (cat : catalog_t) (rk : rd_kafka_t)
    (info : result rd_kafka_telemetry_metric_info_t)
    (calc : rd_kafka_telemetry_metric_value_calculator_t)
    (now_ns total : Z) (brokers : list rd_kafka_broker_t)
    (nodes : list Metric) : M (list Metric) :=
  match brokers with
  | [] => ret nodes
  | rkb :: rest =>
      _ <- lift (check_slot total nodes) ;;
      m <- serializeMetricData cat rk (Some rkb) info calc true now_ns ;;
      per_broker_nodes cat rk info calc now_ns total rest (nodes ++ [m])
  end.

Definition RD_KAFKA_TELEMETRY_METRIC_INFO (cat : catalog_t) (rk : rd_kafka_t)
  : list rd_kafka_telemetry_metric_info_t :=
  if rd_kafka_type_eqb (rk_type rk) RD_KAFKA_PRODUCER
  then PRODUCER_METRICS_INFO cat else CONSUMER_METRICS_INFO cat.

(** The second loop of the encoder, over [metrics_to_encode]. *)
Fixpoint metric_nodes (cat : catalog_t) (rk : rd_kafka_t) (now_ns total : Z)
    (metrics_to_encode : list Z) (nodes : list Metric) : M (list Metric) :=
  match metrics_to_encode with
  | [] => ret nodes
  | id :: rest =>
      metricValueCalculator <-
        lift (table_get
                (if rd_kafka_type_eqb (rk_type rk) RD_KAFKA_PRODUCER
                 then PRODUCER_METRIC_VALUE_CALCULATORS
                 else CONSUMER_METRIC_VALUE_CALCULATORS) id) ;;
      let info := table_get (RD_KAFKA_TELEMETRY_METRIC_INFO cat rk) id in
      if is_per_broker_metric rk id then
        nodes' <- per_broker_nodes cat rk info metricValueCalculator
                    now_ns total (rk_brokers rk) nodes ;;
        metric_nodes cat rk now_ns total rest nodes'
      else
        _ <- lift (check_slot total nodes) ;;
        m <- serializeMetricData cat rk None info metricValueCalculator
               false now_ns ;;
        metric_nodes cat rk now_ns total rest (nodes ++ [m])
  end.

(** [resource_attributes_struct[ind]] for [ind] below the count. *)
Fixpoint resource_key_values (attrs : attr_array) (ind count : nat)
  : result (list KeyValue) :=
  match count with
  | O => Ok []
  | S count' =>
      match nth_error attrs ind with
      | None => Fault OutOfBounds
      | Some None => Fault UninitRead
      | Some (Some a) =>
          rest <-- resource_key_values attrs (S ind) count' ;;
          Ok (KV (attr_name a) (string_value (attr_value a)) :: rest)
      end
  end.

(** The [count] first elements of [metrics], as [encode_metric] and
    [free_metrics] read them. *)
Definition metrics_repeated (total_metrics_count : Z) (nodes : list Metric)
  : result (list Metric) :=
  if Z.of_nat (List.length nodes) =? total_metrics_count then Ok nodes
  else Fault UninitRead.

(** The tree handed to the encoder passes. *)
Definition build_tree (cat : catalog_t) (rk : rd_kafka_t) : M MetricsData :=
  let total := total_metrics_count rk in
  now_us <- rd_uclock ;;
  let now_ns := wrap64 (now_us * 1000) in
  ra <- lift (resource_attributes rk) ;;
  let resource_attributes_count := fst ra in
  key_values <- lift (if 0 <? resource_attributes_count
                      then resource_key_values (snd ra) 0
                             (Z.to_nat resource_attributes_count)
                      else Ok []) ;;
  nodes <- metric_nodes cat rk now_ns total (matched_metrics rk) [] ;;
  metrics <- lift (metrics_repeated total nodes) ;;
  (* Send empty metrics blob if no metrics are matched *)
  if 0 <? total then
    ret (MkMetricsData
           [ MkResourceMetrics
               (if 0 <? resource_attributes_count then Some key_values
                else None)
               [ MkScopeMetrics (rk_name rk) (rd_kafka_version_str cat)
                   metrics ] ])
  else ret (MkMetricsData []).

(** ** Encoder *)

(** Returns the buffer (NULL is [None]) and the client as the call leaves
    it. *)
Definition rd_kafka_telemetry_encode_metrics (cat : catalog_t)
    (rk : rd_kafka_t) : M (option MetricsData * rd_kafka_t) :=
  metrics_data <- build_tree cat rk ;;
  e <- ask ;;
  if negb (size_pass_ok e) then ret (None, rk)          (* size pass *)
  else if negb (buffer_alloc_ok e) then ret (None, rk)  (* rd_malloc *)
  else if negb (write_pass_ok e) then ret (None, rk)    (* write pass *)
  else
    rk' <- reset_historical_metrics rk ;;
    ret (Some metrics_data, rk').

(** * Vocabulary of the statements *)

(** The sum over the brokers of the connects since the baseline. *)
Definition delta_sum (brokers : list rd_kafka_broker_t) : Z :=
  fold_right Z.add 0 (map connects_delta brokers).

(** The [ts_last] the rate calculator is left with after its loop. *)
Definition rate_ts_last (brokers : list rd_kafka_broker_t) : Z :=
  last (map (fun rkb => h_ts_last (rkb_c_historic rkb)) brokers) 0.

(** The accessors of a table that yield a value, in table order. *)
Fixpoint yielded (rk : rd_kafka_t)
    (configs : list rd_kafka_telemetry_attribute_config_t)
  : result (list rd_kafka_telemetry_resource_attribute_t) :=
  match configs with
  | [] => Ok []
  | c :: rest =>
      v <-- getValue c rk ;;
      l <-- yielded rk rest ;;
      Ok match v with
         | Some value => Attr (cfg_name c) value :: l
         | None => l
         end
  end.

(** The table [resource_attributes] selects for a producer or a
    consumer. *)
Definition role_attributes (rk : rd_kafka_t)
  : list rd_kafka_telemetry_attribute_config_t :=
  match rk_type rk with
  | RD_KAFKA_PRODUCER => producer_attributes
  | _ => consumer_attributes
  end.

(** The brokers after a reset that starts at clock reading [t]. *)
Fixpoint reset_from (e : env) (t : nat) (brokers : list rd_kafka_broker_t)
  : list rd_kafka_broker_t :=
  match brokers with
  | [] => []
  | rkb :: rest =>
      reset_broker (wrap64 (uclock e t * 1000)) rkb :: reset_from e (S t) rest
  end.

(** The statement of the specification, read as a frame: after the reset a
    broker is what it was, but for its baseline connect count, its baseline
    assigned-partition count, its [ts_last] and the count and the sum of
    its three baseline statistics. *)
Definition only_listed_fields_overwritten (b b' : rd_kafka_broker_t) : Prop :=
  let keep_max (old new : rd_avg_t) :=
    RdAvg (RaV (cnt (ra_v new)) (sum (ra_v new))
               (maxv_interval (ra_v old)) (maxv_reset (ra_v old))) in
  let h := rkb_c_historic b in
  let h' := rkb_c_historic b' in
  b' = {| rkb_nodeid := rkb_nodeid b;
          rkb_c_connects := rkb_c_connects b;
          rkb_toppar_cnt := rkb_toppar_cnt b;
          rkb_avg_rtt := rkb_avg_rtt b;
          rkb_avg_throttle := rkb_avg_throttle b;
          rkb_avg_outbuf_latency := rkb_avg_outbuf_latency b;
          rkb_c_historic :=
            {| h_connects := h_connects h';
               h_assigned_partitions := h_assigned_partitions h';
               h_ts_last := h_ts_last h';
               h_ts_start := h_ts_start h;
               h_rkb_avg_rtt := keep_max (h_rkb_avg_rtt h) (h_rkb_avg_rtt h');
               h_rkb_avg_throttle :=
                 keep_max (h_rkb_avg_throttle h) (h_rkb_avg_throttle h');
               h_rkb_avg_outbuf_latency :=
                 keep_max (h_rkb_avg_outbuf_latency h)
                          (h_rkb_avg_outbuf_latency h') |} |}.

(** A computation that never calls the reset. *)
Definition no_reset {A} (m : M A) : Prop :=
  forall e s a s', m e s = Ok (a, s') -> reset_calls s' = reset_calls s.

(** What [serializeMetricData] leaves in a node built for the catalog entry
    [info], [b] being the first linked broker. *)
Definition node_built_from (cat : catalog_t)
    (info : rd_kafka_telemetry_metric_info_t)
    (b : rd_kafka_broker_t) (is_per_broker : bool) (now_ns : Z) (m : Metric)
  : Prop :=
  kind_of m = mi_type info /\
  time_unix_nano (data_point_of m) = now_ns /\
  start_time_unix_nano (data_point_of m) =
    match mi_type info with
    | RD_KAFKA_TELEMETRY_METRIC_TYPE_GAUGE => h_ts_last (rkb_c_historic b)
    | RD_KAFKA_TELEMETRY_METRIC_TYPE_SUM => h_ts_start (rkb_c_historic b)
    end /\
  dp_attributes (data_point_of m) =
    if is_per_broker
    then Some (KV (RD_KAFKA_TELEMETRY_METRIC_NODE_ID_ATTRIBUTE cat)
                  (int_value (rkb_nodeid b)))
    else None.

(** The nodes a metric id expands to. *)
Definition nodes_of_metric (rk : rd_kafka_t) (id : Z) : nat :=
  if is_per_broker_metric rk id then List.length (rk_brokers rk) else 1%nat.

(** The nodes an enabled list expands to. *)
Definition expected_nodes (rk : rd_kafka_t) (ids : list Z) : nat :=
  fold_right Nat.add 0%nat (map (nodes_of_metric rk) ids).

(** A node of the call whose capture time is [now_ns]: built from the
    catalog entry of an enabled metric, with the timestamps of the baseline
    of the first linked broker. *)
Definition node_of_call (cat : catalog_t) (rk : rd_kafka_t) (ids : list Z)
    (now_ns : Z) (m : Metric) : Prop :=
  exists id info b,
    In id ids /\
    table_get (RD_KAFKA_TELEMETRY_METRIC_INFO cat rk) id = Ok info /\
    hd_error (rk_brokers rk) = Some b /\
    node_built_from cat info b (is_per_broker_metric rk id) now_ns m.

(** No pass and no allocation fails. *)
Definition all_passes_ok (e : env) : bool :=
  size_pass_ok e && buffer_alloc_ok e && write_pass_ok e.

(** * Sample clients *)

Definition avg_of (c s : Z) : rd_avg_t := RdAvg (RaV c s 0 0).

Definition no_baseline : rkb_c_historic_t :=
  Historic 0 0 0 0 (avg_of 0 0) (avg_of 0 0) (avg_of 0 0).

Definition idle_broker (nodeid : Z) : rd_kafka_broker_t :=
  Broker nodeid 0 0 (avg_of 0 0) (avg_of 0 0) (avg_of 0 0) no_baseline.

Definition no_conf : rd_kafka_conf_t := Conf None None None None.

Definition producer_with (brokers : list rd_kafka_broker_t) (broker_cnt : Z)
    (metrics : list Z) : rd_kafka_t :=
  Rk RD_KAFKA_PRODUCER "rdkafka#producer-1" no_conf None brokers broker_cnt
     true metrics.

Definition gauge_info (name : string) (is_int : bool)
  : rd_kafka_telemetry_metric_info_t :=
  Info name "" is_int RD_KAFKA_TELEMETRY_METRIC_TYPE_GAUGE.

Definition sum_info (name : string) (is_int : bool)
  : rd_kafka_telemetry_metric_info_t :=
  Info name "" is_int RD_KAFKA_TELEMETRY_METRIC_TYPE_SUM.

(** A catalog with one entry per enumerator. *)
Definition sample_catalog : catalog_t :=
  Catalog
    [ gauge_info "producer.connection.creation.rate" false;
      sum_info "producer.connection.creation.total" true;
      gauge_info "producer.node.request.latency.avg" false;
      gauge_info "producer.node.request.latency.max" true;
      gauge_info "producer.produce.throttle.time.avg" false;
      gauge_info "producer.produce.throttle.time.max" true;
      gauge_info "producer.record.queue.time.avg" false;
      gauge_info "producer.record.queue.time.max" true ]
    [ gauge_info "consumer.connection.creation.rate" false;
      sum_info "consumer.connection.creation.total" true;
      gauge_info "consumer.node.request.latency.avg" false;
      gauge_info "consumer.node.request.latency.max" true;
      gauge_info "consumer.coordinator.assigned.partitions" true ]
    "org.apache.kafka." "node.id" "2.4.0".

(** A clock that advances by one microsecond per reading, and passes that
    all succeed. *)
Definition sample_env : env :=
  Env (fun n => 5000000 + Z.of_nat n) true true true.

Definition initial_state : mstate := MState 0 0.

(** A broker with [connects] new connects since a baseline taken at
    [ts_last]. *)
Definition connecting_broker (nodeid connects ts_last : Z)
  : rd_kafka_broker_t :=
  Broker nodeid connects 0 (avg_of 0 0) (avg_of 0 0) (avg_of 0 0)
    (Historic 0 0 ts_last 0 (avg_of 0 0) (avg_of 0 0) (avg_of 0 0)).

(** Seen at 5 s, the last baseline is 3 s old. *)
Definition two_connecting_brokers : rd_kafka_t :=
  producer_with
    [connecting_broker 1 3 0; connecting_broker 2 7 2000000000] 2 [].


(** Five round trips of 10 ns each since an empty baseline. *)
Definition five_short_round_trips : rd_kafka_broker_t :=
  Broker 1 0 0 (avg_of 5 50) (avg_of 0 0) (avg_of 0 0) no_baseline.

(** A consumer in a group, with a group id, no rack and no group instance
    id, and the member id given. *)
Definition consumer_in_group (member_id : option rd_kafkap_str_t)
  : rd_kafka_t :=
  Rk RD_KAFKA_CONSUMER "rdkafka#consumer-1"
     (Conf None (Some "g"%string) None None) (Some (Cgrp member_id)) [] 0
     true [].

(** A broker that has seen five round trips, the longest of 7 ns, and has
    no baseline yet. *)
Definition measured_broker : rd_kafka_broker_t :=
  Broker 1 2 3 (RdAvg (RaV 5 50 7 0)) (avg_of 0 0) (avg_of 0 0) no_baseline.

(** That broker after a reset at clock reading 5 s. *)
Definition measured_broker_after_reset : rd_kafka_broker_t :=
  Broker 1 2 3 (RdAvg (RaV 5 50 7 1)) (RdAvg (RaV 0 0 0 1))
    (RdAvg (RaV 0 0 0 1))
    (Historic 2 3 5000000000 0 (RdAvg (RaV 5 50 7 0)) (avg_of 0 0)
       (avg_of 0 0)).

(** A producer with one linked broker. *)
Definition one_idle_broker (metrics : list Z) : rd_kafka_t :=
  producer_with [idle_broker 1] 1 metrics.

(** The environment in which [pb_encode] fails. *)
Definition write_pass_fails : env :=
  Env (fun n => 5000000 + Z.of_nat n) true true false.


(** A producer with three linked brokers. *)
Definition three_idle_brokers (metrics : list Z) : rd_kafka_t :=
  producer_with [idle_broker 1; idle_broker 2; idle_broker 3] 3 metrics.

(** A producer with a rack and a transactional id, no metric enabled. *)
Definition producer_with_rack_and_transactional_id : rd_kafka_t :=
  Rk RD_KAFKA_PRODUCER "rdkafka#producer-1"
     (Conf (Some (KStr 1 "r")) None None (Some "t"%string)) None
     [idle_broker 1] 1 true [].

(** * Further vocabulary and samples *)

Definition in_int32 (z : Z) : Prop := - 2 ^ 31 <= z < 2 ^ 31.

(** The sum over the brokers of the connect counts. *)
Definition connects_sum (brokers : list rd_kafka_broker_t) : Z :=
  fold_right Z.add 0 (map rkb_c_connects brokers).

(** The sum over the brokers of the partitions assigned since the
    baseline. *)
Definition partitions_delta_sum (brokers : list rd_kafka_broker_t) : Z :=
  fold_right Z.add 0
    (map (fun rkb => rkb_toppar_cnt rkb
                     - h_assigned_partitions (rkb_c_historic rkb)) brokers).

(** The test both average loops make on a broker. *)
Definition has_new_observations (cur hist : rd_kafka_broker_t -> rd_avg_t)
    (rkb : rd_kafka_broker_t) : bool :=
  cnt (ra_v (hist rkb)) <? cnt (ra_v (cur rkb)).

(** The largest [maxv_interval] of a statistic over the brokers, 0 at
    least. *)
Definition max_interval (stat : rd_kafka_broker_t -> rd_avg_t)
    (brokers : list rd_kafka_broker_t) : Z :=
  fold_right Z.max 0 (map (fun rkb => maxv_interval (ra_v (stat rkb))) brokers).

(** [v] is the millisecond maximum of [stat] over the brokers, 0 at
    least. *)
Definition max_over_brokers (stat : rd_kafka_broker_t -> rd_avg_t)
    (brokers : list rd_kafka_broker_t) (v : Z) : Prop :=
  let ms rkb := Z.quot (maxv_interval (ra_v (stat rkb))) 1000000 in
  0 <= v /\
  (forall rkb, In rkb brokers -> ms rkb <= v) /\
  (v = 0 \/ exists rkb, In rkb brokers /\ v = ms rkb).

(** A broker with traffic on every counter and no baseline. *)
Definition busy_broker (nodeid : Z) : rd_kafka_broker_t :=
  Broker nodeid 4 6 (RdAvg (RaV 10 500000000 90000000 0))
    (RdAvg (RaV 3 60000000 40000000 0)) (RdAvg (RaV 2 8000000 5000000 0))
    no_baseline.

(** A consumer in a group with two busy brokers. *)
Definition busy_consumer : rd_kafka_t :=
  Rk RD_KAFKA_CONSUMER "rdkafka#consumer-1"
     (Conf None (Some "g"%string) None None) (Some (Cgrp None))
     [busy_broker 1; busy_broker 2] 2 true [].

(** A producer with two busy brokers. *)
Definition busy_producer : rd_kafka_t :=
  producer_with [busy_broker 1; busy_broker 2] 2 [].

(** A consumer created without a group: no [rk_cgrp]. *)
Definition consumer_without_group : rd_kafka_t :=
  Rk RD_KAFKA_CONSUMER "rdkafka#consumer-1" no_conf None [] 0 true [].

(** The calculator table the encoder indexes for a client. *)
Definition calculators_of (rk : rd_kafka_t)
  : list rd_kafka_telemetry_metric_value_calculator_t :=
  if rd_kafka_type_eqb (rk_type rk) RD_KAFKA_PRODUCER
  then PRODUCER_METRIC_VALUE_CALCULATORS
  else CONSUMER_METRIC_VALUE_CALCULATORS.

(** The (metric, broker) pairs the second loop of the encoder visits, in
    order: every linked broker for a broker-scoped metric, no broker for
    the others. *)
Definition node_sources (rk : rd_kafka_t) (ids : list Z)
  : list (Z * option rd_kafka_broker_t) :=
  flat_map
    (fun id =>
       if is_per_broker_metric rk id
       then map (fun rkb => (id, Some rkb)) (rk_brokers rk)
       else [(id, None)])
    ids.

(** [m] is the entry of the metric and broker [src]: named, described and
    typed by the catalog entry of the metric, holding what the calculator
    of the metric returned for that broker, and, when a sum, monotonic with
    the temporality of the client. *)
Definition entry_of (cat : catalog_t) (rk : rd_kafka_t)
    (src : Z * option rd_kafka_broker_t) (m : Metric) : Prop :=
  exists info calc e0 s0 s1 value,
    table_get (RD_KAFKA_TELEMETRY_METRIC_INFO cat rk) (fst src) = Ok info /\
    table_get (calculators_of rk) (fst src) = Ok calc /\
    calc rk (snd src) e0 s0 = Ok (value, s1) /\
    metric_name m =
      String.append (RD_KAFKA_TELEMETRY_METRIC_PREFIX cat) (mi_name info) /\
    metric_description m = mi_description info /\
    kind_of m = mi_type info /\
    dp_value (data_point_of m) = value /\
    which_value (data_point_of m) =
      (if mi_is_int info then as_int_tag else as_double_tag) /\
    match metric_data m with
    | Metric_sum _ temporality is_monotonic =>
        temporality = (if delta_temporality rk
                       then AGGREGATION_TEMPORALITY_DELTA
                       else AGGREGATION_TEMPORALITY_CUMULATIVE) /\
        is_monotonic = true
    | Metric_gauge _ => True
    end.

(** A broker that has seen [c] round trips taking [s] ns in all. *)
Definition broker_with_rtt (nodeid c s : Z) : rd_kafka_broker_t :=
  Broker nodeid 0 0 (avg_of c s) (avg_of 0 0) (avg_of 0 0) no_baseline.

(** A producer with two brokers of average latency 10 ms and 30 ms; the
    connection rate, the connection total and the latency average are
    enabled, in enumerator order. *)
Definition two_latencies : rd_kafka_t :=
  producer_with
    [broker_with_rtt 11 2 20000000; broker_with_rtt 22 2 60000000] 2
    [RD_KAFKA_TELEMETRY_METRIC_PRODUCER_CONNECTION_CREATION_RATE;
     RD_KAFKA_TELEMETRY_METRIC_PRODUCER_CONNECTION_CREATION_TOTAL;
     RD_KAFKA_TELEMETRY_METRIC_PRODUCER_NODE_REQUEST_LATENCY_AVG].

(** Every position of the enabled list holds a metric that is
    broker-scoped exactly when the enumerator equal to the position is. *)
Definition position_consistent (rk : rd_kafka_t) : Prop :=
  forall (i : nat) (id : Z),
    nth_error (matched_metrics rk) i = Some id ->
    is_per_broker_metric rk (Z.of_nat i) = is_per_broker_metric rk id.

(** The positions of a list that the first loop takes for broker-scoped. *)
Definition per_broker_positions (rk : rd_kafka_t) (positions : list nat)
  : nat :=
  List.length (filter (fun i => is_per_broker_metric rk (Z.of_nat i))
                 positions).

(** The broker-scoped metrics of a list. *)
Definition per_broker_ids (rk : rd_kafka_t) (ids : list Z) : nat :=
  List.length (filter (is_per_broker_metric rk) ids).

(** * The allocations of one call

    The blocks the encoder obtains from [rd_malloc] and [rd_calloc], named
    after the variable or array element that holds them, and the heap as
    the list of the blocks that are live.  [rd_free] of a block that is not
    live is an access outside any live object. *)

Inductive block : Type :=
| resource_attributes_struct_block
| resource_attributes_key_values_block
| resource_attributes_key_value_block (ind : nat)
| metrics_block
| data_points_block
| datapoint_attributes_key_values_block
| metric_names_block
| metric_block (i : nat)
| data_point_block (i : nat)
| metric_name_block (i : nat)
| buffer_block.

Definition block_eq_dec (a b : block) : {a = b} + {a <> b}.
Proof. decide equality; apply Nat.eq_dec. Defined.

Definition heap : Type := list block.

Definition rd_malloc (b : block) (h : heap) : heap := b :: h.

Definition rd_free (b : block) (h : heap) : result heap :=
  if in_dec block_eq_dec b h then Ok (remove block_eq_dec b h)
  else Fault OutOfBounds.

(** [metrics[i]], [data_points[i]] and [metric_names[i]] hold a block for
    the [built] first elements only; the others were never written. *)
Fixpoint free_metrics_loop (built i count : nat) (h : heap) : result heap :=
  match count with
  | O => Ok h
  | S count' =>
      if (i <? built)%nat then
        h <-- rd_free (data_point_block i) h ;;
        h <-- rd_free (metric_name_block i) h ;;
        h <-- rd_free (metric_block i) h ;;
        free_metrics_loop built (S i) count' h
      else Fault UninitRead
  end.

Definition free_metrics (built : nat) (count : Z) (h : heap) : result heap :=
  h <-- free_metrics_loop built 0 (Z.to_nat count) h ;;
  h <-- rd_free data_points_block h ;;
  h <-- rd_free metric_names_block h ;;
  h <-- rd_free metrics_block h ;;
  rd_free datapoint_attributes_key_values_block h.

Fixpoint free_key_values_loop (i count : nat) (h : heap) : result heap :=
  match count with
  | O => Ok h
  | S count' =>
      h <-- rd_free (resource_attributes_key_value_block i) h ;;
      free_key_values_loop (S i) count' h
  end.

Definition free_resource_attributes (count : Z) (h : heap) : result heap :=
  if count =? 0 then Ok h
  else
    h <-- free_key_values_loop 0 (Z.to_nat count) h ;;
    h <-- rd_free resource_attributes_struct_block h ;;
    rd_free resource_attributes_key_values_block h.

(** The [rd_calloc] of the key values, for [ind] from [i]. *)
Fixpoint alloc_key_values (i count : nat) (h : heap) : heap :=
  match count with
  | O => h
  | S count' =>
      alloc_key_values (S i) count'
        (rd_malloc (resource_attributes_key_value_block i) h)
  end.

(** The three [rd_calloc] made for each node, for [metric_idx] from [i]. *)
Fixpoint alloc_nodes (i built : nat) (h : heap) : heap :=
  match built with
  | O => h
  | S built' =>
      alloc_nodes (S i) built'
        (rd_malloc (metric_name_block i)
           (rd_malloc (data_point_block i)
              (rd_malloc (metric_block i) h)))
  end.

(** The heap along [rd_kafka_telemetry_encode_metrics], from an empty heap
    to the return, for a call that finds [resource_attributes_count]
    attributes, counts [total_metrics_count] nodes and builds [built]. *)
Definition encode_metrics_heap (resource_attributes_count : Z)
    (built : nat) (total_metrics_count : Z) (e : env) : result heap :=
  let h : heap := [] in
  (* resource_attributes *)
  let h := if 0 <? resource_attributes_count
           then rd_malloc resource_attributes_struct_block h else h in
  let h := if 0 <? resource_attributes_count
           then alloc_key_values 0 (Z.to_nat resource_attributes_count)
                  (rd_malloc resource_attributes_key_values_block h)
           else h in
  let h := rd_malloc metrics_block h in
  let h := rd_malloc data_points_block h in
  let h := rd_malloc datapoint_attributes_key_values_block h in
  let h := rd_malloc metric_names_block h in
  let h := alloc_nodes 0 built h in
  let release h :=
    h <-- free_metrics built total_metrics_count h ;;
    free_resource_attributes resource_attributes_count h in
  if negb (size_pass_ok e) then release h
  else if negb (buffer_alloc_ok e) then release h
  else
    let h := rd_malloc buffer_block h in
    if negb (write_pass_ok e) then
      h <-- rd_free buffer_block h ;;
      release h
    else release h.

(** [h] holds exactly the blocks of [live], once each. *)
Definition holds (h : heap) (live : block -> Prop) : Prop :=
  NoDup h /\ forall b, In b h <-> live b.

(** The blocks of the node [j]. *)
Definition node_block (j : nat) (b : block) : Prop :=
  b = metric_block j \/ b = data_point_block j \/ b = metric_name_block j.

(** The blocks a call has allocated once its tree is built. *)
Definition allocated (resource_attributes_count : Z) (built : nat)
    (b : block) : Prop :=
  match b with
  | resource_attributes_struct_block
  | resource_attributes_key_values_block => 0 < resource_attributes_count
  | resource_attributes_key_value_block ind =>
      Z.of_nat ind < resource_attributes_count
  | metrics_block | data_points_block
  | datapoint_attributes_key_values_block | metric_names_block => True
  | metric_block i | data_point_block i | metric_name_block i =>
      (i < built)%nat
  | buffer_block => False
  end.

(** A computation that never turns the clock back. *)
Definition ticks_grow {A} (m : M A) : Prop :=
  forall e s a s', m e s = Ok (a, s') ->
                   (clock_ticks s <= clock_ticks s')%nat.

(** Up to tick [n] the readings of the clock never decrease and fit 63
    bits once scaled to nanoseconds. *)
Definition monotone_clock (e : env) (n : nat) : Prop :=
  (forall i j, (i <= j)%nat -> (j <= n)%nat -> uclock e i <= uclock e j) /\
  (forall i, (i <= n)%nat -> 0 <= uclock e i /\ uclock e i * 1000 < 2 ^ 63).

(** [value] reports nothing new for the metric [id]: a zero rate, in delta
    mode a zero total, a zero average latency, a zero average throttle
    time or assigned-partition count (the enumerators are equal), a zero
    average queue time.  The maxima are not constrained. *)
Definition nothing_new (rk : rd_kafka_t) (id : Z)
    (value : rd_kafka_telemetry_metric_value_t) : Prop :=
  (id = RD_KAFKA_TELEMETRY_METRIC_PRODUCER_CONNECTION_CREATION_RATE ->
   exists q, value = doubleValue q /\ (q == 0)%Q) /\
  (id = RD_KAFKA_TELEMETRY_METRIC_PRODUCER_CONNECTION_CREATION_TOTAL ->
   delta_temporality rk = true -> value = intValue 0) /\
  (id = RD_KAFKA_TELEMETRY_METRIC_PRODUCER_NODE_REQUEST_LATENCY_AVG ->
   value = doubleValue 0) /\
  (id = RD_KAFKA_TELEMETRY_METRIC_PRODUCER_PRODUCE_THROTTLE_TIME_AVG ->
   value = intValue 0) /\
  (id = RD_KAFKA_TELEMETRY_METRIC_PRODUCER_RECORD_QUEUE_TIME_AVG ->
   value = intValue 0).

(** * Properties *)

(** ** Machine integers *)

Lemma wrap64_id z : in_int64 z -> wrap64 z = z.
Proof.
  unfold in_int64, wrap64, wrap. intros H.
  change (2 ^ (64 - 1)) with (2 ^ 63). change (2 ^ 64) with (2 * 2 ^ 63).
  rewrite Z.mod_small; lia.
Qed.

Lemma wrap64_range z : in_int64 (wrap64 z).
Proof.
  unfold in_int64, wrap64, wrap.
  change (2 ^ (64 - 1)) with (2 ^ 63). change (2 ^ 64) with (2 * 2 ^ 63).
  pose proof (Z.mod_pos_bound (z + 2 ^ 63) (2 * 2 ^ 63)). lia.
Qed.

(** ** Calculators *)

Lemma last_cons {A} (a d : A) (l : list A) : last (a :: l) d = last l a.
Proof.
  revert a d. induction l as [|x l IH]; intros a d; [reflexivity|].
  change (last (a :: x :: l) d) with (last (x :: l) d).
  rewrite !IH. reflexivity.
Qed.

Lemma inject_Z_plus_eq (a b : Z) :
  (inject_Z a + inject_Z b)%Q = inject_Z (a + b).
Proof.
  unfold Qplus, inject_Z. simpl. rewrite !Z.mul_1_r. reflexivity.
Qed.

(** The TAILQ_FOREACH of the rate calculator. *)
Lemma rate_loop (brokers : list rd_kafka_broker_t) (ts z : Z) :
  fold_left
    (fun (acc : Z * Q) rkb =>
       (h_ts_last (rkb_c_historic rkb),
        (snd acc + inject_Z (connects_delta rkb))%Q))
    brokers (ts, inject_Z z)
  = (last (map (fun rkb => h_ts_last (rkb_c_historic rkb)) brokers) ts,
     inject_Z (z + delta_sum brokers)).
Proof.
  revert ts z. induction brokers as [|b bs IH]; intros ts z.
  - simpl. unfold delta_sum. simpl. rewrite Z.add_0_r. reflexivity.
  - cbn [fold_left snd map]. rewrite last_cons, inject_Z_plus_eq, IH.
    unfold delta_sum. cbn [map fold_right]. f_equal. f_equal. lia.
Qed.

(** The rate calculator in closed form. *)
Lemma rate_value (rk : rd_kafka_t) (broker : option rd_kafka_broker_t)
    (e : env) (s : mstate) :
  calculate_connection_creation_rate rk broker e s =
  let total := inject_Z (delta_sum (rk_brokers rk)) in
  let seconds :=
    elapsed_seconds (wrap64 (uclock e (clock_ticks s) * 1000))
      (rate_ts_last (rk_brokers rk)) in
  Ok (doubleValue (if 0 <? seconds then (total / inject_Z seconds)%Q
                   else total),
      MState (S (clock_ticks s)) (reset_calls s)).
Proof.
  unfold calculate_connection_creation_rate.
  change (0, 0%Q) with (0, inject_Z 0). rewrite rate_loop.
  rewrite Z.add_0_l. unfold bind, rd_uclock, ret, rate_ts_last. cbv zeta.
  destruct (0 <? _); reflexivity.
Qed.






Lemma div64_by_zero (a : Z) : div64 a 0 = Fault DivisionFault.
Proof. reflexivity. Qed.

(** Whatever the brokers, a client-wide broker count of 0 makes the
    average over the brokers undefined. *)
Lemma throttle_avg_without_count (rk : rd_kafka_t)
    (broker : option rd_kafka_broker_t) :
  rk_broker_cnt rk = 0 ->
  exists f, calculate_throttle_avg rk broker = Fault f.
Proof.
  intros H. unfold calculate_throttle_avg. rewrite H.
  destruct (sum_of_averages _ _ _ _) as [v|f]; cbn [rbind].
  - exists DivisionFault. reflexivity.
  - exists f. reflexivity.
Qed.

Lemma queue_time_avg_without_count (rk : rd_kafka_t)
    (broker : option rd_kafka_broker_t) :
  rk_broker_cnt rk = 0 ->
  exists f, calculate_queue_time_avg rk broker = Fault f.
Proof.
  intros H. unfold calculate_queue_time_avg. rewrite H.
  destruct (sum_of_averages _ _ _ _) as [v|f]; cbn [rbind].
  - exists DivisionFault. reflexivity.
  - exists f. reflexivity.
Qed.

(** C1. With a client-wide broker count of 0 and no broker linked, the
    average throttle time and the average queue time divide the sum of the
    averages by zero: neither calculator returns 0, both fault. *)
Theorem avg_calculators_divide_by_zero_broker_count :
  calculate_throttle_avg (producer_with [] 0 []) None = Fault DivisionFault /\
  calculate_queue_time_avg (producer_with [] 0 []) None = Fault DivisionFault.
Proof. split; reflexivity. Qed.

(** The value of the average round-trip time when nothing wraps: the
    quotient is taken on integers, truncated towards zero, and then
    stored in the double. *)
Lemma broker_avg_rtt_quotient (rk : rd_kafka_t) (rkb : rd_kafka_broker_t) :
  let current_cnt := cnt (ra_v (rkb_avg_rtt rkb)) in
  let historic_cnt := cnt (ra_v (h_rkb_avg_rtt (rkb_c_historic rkb))) in
  let current_sum := sum (ra_v (rkb_avg_rtt rkb)) in
  let historic_sum := sum (ra_v (h_rkb_avg_rtt (rkb_c_historic rkb))) in
  historic_cnt < current_cnt ->
  (current_cnt - historic_cnt) * 1000000 < 2 ^ 63 ->
  - 2 ^ 63 < current_sum - historic_sum < 2 ^ 63 ->
  calculate_broker_avg_rtt rk (Some rkb) =
  Ok (doubleValue
        (inject_Z (Z.quot (current_sum - historic_sum)
                     ((current_cnt - historic_cnt) * 1000000)))).
Proof.
  intros cc hc cs hs Hc Hm Hs.
  unfold calculate_broker_avg_rtt, avg_since_baseline.
  fold cc hc cs hs. apply Z.ltb_lt in Hc as Hc'. rewrite Hc'.
  unfold RDKAFKA_TELEMETRY_NS_TO_MS_FACTOR.
  rewrite (wrap64_id (cc - hc)) by (unfold in_int64; lia).
  rewrite (wrap64_id (cs - hs)) by (unfold in_int64; lia).
  rewrite (wrap64_id ((cc - hc) * 1000000)) by (unfold in_int64; lia).
  unfold div64.
  replace ((cc - hc) * 1000000 =? 0) with false by (symmetry; lia).
  replace ((cc - hc) * 1000000 =? -1) with false by (symmetry; lia).
  rewrite andb_false_r. reflexivity.
Qed.

Lemma broker_avg_rtt_no_new_observation (rk : rd_kafka_t)
    (rkb : rd_kafka_broker_t) :
  cnt (ra_v (rkb_avg_rtt rkb)) <=
  cnt (ra_v (h_rkb_avg_rtt (rkb_c_historic rkb))) ->
  calculate_broker_avg_rtt rk (Some rkb) = Ok (doubleValue 0).
Proof.
  intros H. unfold calculate_broker_avg_rtt, avg_since_baseline.
  apply Z.ltb_ge in H. rewrite H. reflexivity.
Qed.

(** C5. With a count difference of 5 and a sum difference of 50 the
    average round-trip time reported is 0, which is not
    50 / (5 * 1,000,000): the division is made on 64-bit integers before
    the result is stored in the double. *)
Theorem broker_avg_rtt_integer_division :
  calculate_broker_avg_rtt (producer_with [five_short_round_trips] 1 [])
    (Some five_short_round_trips) = Ok (doubleValue 0) /\
  ~ (0 == inject_Z 50 / (inject_Z 5 * inject_Z 1000000))%Q.
Proof.
  split; [reflexivity|]. intros H. vm_compute in H. discriminate H.
Qed.

(** ** Resource attributes *)

Lemma count_attributes_yielded (rk : rd_kafka_t)
    (configs : list rd_kafka_telemetry_attribute_config_t)
    (l : list rd_kafka_telemetry_resource_attribute_t) (count : Z) :
  yielded rk configs = Ok l ->
  0 <= count -> count + Z.of_nat (List.length l) < 2 ^ 31 ->
  count_attributes rk configs count = Ok (count + Z.of_nat (List.length l)).
Proof.
  revert l count. induction configs as [|c rest IH]; intros l count Hy H0 Hb.
  - injection Hy as <-. cbn. f_equal. lia.
  - cbn [yielded count_attributes] in *.
    destruct (getValue c rk) as [v|f]; cbn [rbind] in *; [|discriminate].
    destruct (yielded rk rest) as [l'|f]; cbn [rbind] in *; [|discriminate].
    injection Hy as <-. destruct v as [value|].
    + cbn [List.length] in *.
      assert (Hw : wrap32 (count + 1) = count + 1).
      { unfold wrap32, wrap. change (2 ^ (32 - 1)) with (2 ^ 31).
        change (2 ^ 32) with (2 * 2 ^ 31). rewrite Z.mod_small; lia. }
      rewrite Hw, (IH l' (count + 1) eq_refl) by lia. f_equal. lia.
    + apply (IH l' count eq_refl); assumption.
Qed.

(** A client that is neither producer nor consumer has no attribute. *)
Lemma resource_attributes_other_role (rk : rd_kafka_t) :
  rk_type rk = RD_KAFKA_TYPE_OTHER -> resource_attributes rk = Ok (0, []).
Proof. intros H. unfold resource_attributes. rewrite H. reflexivity. Qed.

(** When no accessor yields a value the set is empty. *)
Lemma resource_attributes_none_yielded (rk : rd_kafka_t) :
  yielded rk (role_attributes rk) = Ok [] ->
  resource_attributes rk = Ok (0, []).
Proof.
  unfold role_attributes. intros H. unfold resource_attributes.
  destruct (rk_type rk); [| |reflexivity];
    rewrite (count_attributes_yielded rk _ [] 0 H) by (cbn; lia);
    reflexivity.
Qed.

(** A consumer whose group id is the only value yielded: the set holds
    [group_id] and not [group_instance_id]. *)
Example resource_attributes_group_id_only :
  resource_attributes (consumer_in_group None)
  = Ok (1, [Some (Attr "group_id" "g")]).
Proof. reflexivity. Qed.

(** C6. For a consumer with a group id, no group instance id and the
    member id the group gave it, two accessors yield a value;
    [set_attributes] stores the second one through [attributes[1]], past
    the single pointer [attributes] points to, and no attribute set
    holding [group_id] is produced. *)
Theorem resource_attributes_second_attribute_out_of_bounds :
  yielded (consumer_in_group (Some (KStr 1 "m"))) consumer_attributes
  = Ok [Attr "group_id" "g"; Attr "member_id" "m"] /\
  resource_attributes (consumer_in_group (Some (KStr 1 "m")))
  = Fault OutOfBounds.
Proof. split; reflexivity. Qed.

(** Once [attr_idx] is past 0 no further value can be stored. *)
Lemma set_attributes_past_first (rk : rd_kafka_t) (arr : attr_array)
    (configs : list rd_kafka_telemetry_attribute_config_t) (n : nat)
    (out : list attr_array) :
  set_attributes rk [arr] configs (S n) = Ok out ->
  out = [arr] /\ yielded rk configs = Ok [].
Proof.
  revert out. induction configs as [|c rest IH]; intros out H.
  - injection H as <-. split; reflexivity.
  - cbn [set_attributes yielded] in *.
    destruct (getValue c rk) as [[v|]|f]; cbn [rbind] in *.
    + destruct n; discriminate H.
    + destruct (IH _ H) as [-> ->]. split; reflexivity.
    + discriminate H.
Qed.

Lemma set_attributes_single_slot (rk : rd_kafka_t) (arr : attr_array)
    (configs : list rd_kafka_telemetry_attribute_config_t)
    (out : list attr_array) :
  set_attributes rk [arr] configs 0 = Ok out ->
  (out = [arr] /\ yielded rk configs = Ok []) \/
  (exists a tl w, arr = a :: tl /\ out = [Some w :: tl] /\
                  yielded rk configs = Ok [w]).
Proof.
  revert out. induction configs as [|c rest IH]; intros out H.
  - injection H as <-. left. split; reflexivity.
  - cbn [set_attributes yielded] in *.
    destruct (getValue c rk) as [[v|]|f]; cbn [rbind] in *.
    + cbn [nth_error] in H. destruct arr as [|a tl]; [discriminate H|].
      cbn [list_set] in H.
      destruct (set_attributes_past_first _ _ _ _ _ H) as [-> Hy].
      right. exists a, tl, (Attr (cfg_name c) v). rewrite Hy.
      repeat split; reflexivity.
    + destruct (IH _ H) as [[-> Hy]|(a & tl & w & -> & -> & Hy)].
      * left. rewrite Hy. split; reflexivity.
      * right. exists a, tl, w. rewrite Hy. repeat split; reflexivity.
    + discriminate H.
Qed.

(** What the builder returns when it returns: nothing, or one attribute. *)
Lemma resource_attributes_shape (rk : rd_kafka_t) (count : Z)
    (arr : attr_array) :
  resource_attributes rk = Ok (count, arr) ->
  (count = 0 /\ arr = []) \/ (count = 1 /\ exists w, arr = [Some w]).
Proof.
  unfold resource_attributes.
  assert (G : forall configs,
    rbind (count_attributes rk configs 0)
      (fun c => if c =? 0 then Ok (0, [])
                else rbind (set_attributes rk [repeat None (Z.to_nat c)]
                              configs 0)
                       (fun attributes' => Ok (c, hd [] attributes')))
    = Ok (count, arr) ->
    (count = 0 /\ arr = []) \/ (count = 1 /\ exists w, arr = [Some w])).
  { intros configs H.
    destruct (count_attributes rk configs 0) as [c|f] eqn:Hc;
      cbn [rbind] in H; [|discriminate H].
    destruct (c =? 0) eqn:Hz.
    - injection H as <- <-. left. split; reflexivity.
    - destruct (set_attributes rk _ configs 0) as [out|f] eqn:Hs;
        cbn [rbind] in H; [|discriminate H].
      injection H as -> <-.
      destruct (set_attributes_single_slot _ _ _ _ Hs)
        as [[_ Hy]|(a & tl & w & Ha & -> & Hy)].
      + rewrite (count_attributes_yielded rk configs [] 0 Hy) in Hc
          by (cbn; lia).
        injection Hc as <-. discriminate Hz.
      + rewrite (count_attributes_yielded rk configs [w] 0 Hy) in Hc
          by (cbn; lia).
        injection Hc as <-. cbn in Ha. injection Ha as <- <-.
        right. split; [reflexivity|]. exists w. reflexivity. }
  destruct (rk_type rk); intros H.
  - exact (G _ H).
  - exact (G _ H).
  - injection H as <- <-. left. split; reflexivity.
Qed.

Lemma yielded_length (rk : rd_kafka_t)
    (configs : list rd_kafka_telemetry_attribute_config_t)
    (l : list rd_kafka_telemetry_resource_attribute_t) :
  yielded rk configs = Ok l -> (List.length l <= List.length configs)%nat.
Proof.
  revert l. induction configs as [|c rest IH]; intros l H.
  - injection H as <-. apply Nat.le_refl.
  - cbn [yielded] in H.
    destruct (getValue c rk) as [v|f]; cbn [rbind] in H; [|discriminate H].
    destruct (yielded rk rest) as [l'|f]; cbn [rbind] in H; [|discriminate H].
    injection H as <-. specialize (IH l' eq_refl).
    destruct v; cbn [List.length]; lia.
Qed.

Lemma set_attributes_none_yielded (rk : rd_kafka_t)
    (attributes : list attr_array)
    (configs : list rd_kafka_telemetry_attribute_config_t) (n : nat) :
  yielded rk configs = Ok [] ->
  set_attributes rk attributes configs n = Ok attributes.
Proof.
  induction configs as [|c rest IH]; intros H; [reflexivity|].
  cbn [yielded set_attributes] in *.
  destruct (getValue c rk) as [v|f]; cbn [rbind] in *; [|discriminate H].
  destruct (yielded rk rest) as [l|f]; cbn [rbind] in *; [|discriminate H].
  destruct v; [discriminate H|]. injection H as ->. apply IH. reflexivity.
Qed.

Lemma set_attributes_second_slot (rk : rd_kafka_t) (arr : attr_array)
    (configs : list rd_kafka_telemetry_attribute_config_t) (n : nat)
    (w : rd_kafka_telemetry_resource_attribute_t)
    (l : list rd_kafka_telemetry_resource_attribute_t) :
  yielded rk configs = Ok (w :: l) ->
  set_attributes rk [arr] configs (S n) = Fault OutOfBounds.
Proof.
  induction configs as [|c rest IH]; intros H; [discriminate H|].
  cbn [yielded set_attributes] in *.
  destruct (getValue c rk) as [v|f]; cbn [rbind] in *; [|discriminate H].
  destruct (yielded rk rest) as [l'|f]; cbn [rbind] in *; [|discriminate H].
  destruct v as [value|].
  - destruct n; reflexivity.
  - apply IH. exact H.
Qed.

Lemma set_attributes_first_slot (rk : rd_kafka_t) (tl : attr_array)
    (configs : list rd_kafka_telemetry_attribute_config_t)
    (w : rd_kafka_telemetry_resource_attribute_t)
    (l : list rd_kafka_telemetry_resource_attribute_t) :
  yielded rk configs = Ok (w :: l) ->
  set_attributes rk [None :: tl] configs 0 =
  match l with
  | [] => Ok [Some w :: tl]
  | _ :: _ => Fault OutOfBounds
  end.
Proof.
  induction configs as [|c rest IH]; intros H; [discriminate H|].
  cbn [yielded set_attributes] in *.
  destruct (getValue c rk) as [v|f]; cbn [rbind] in *; [|discriminate H].
  destruct (yielded rk rest) as [l'|f] eqn:Hy; cbn [rbind] in *;
    [|discriminate H].
  destruct v as [value|].
  - injection H as <- <-. cbn [nth_error list_set].
    destruct l' as [|w' l'].
    + apply set_attributes_none_yielded. exact Hy.
    + apply (set_attributes_second_slot _ _ _ _ _ _ Hy).
  - apply IH. exact H.
Qed.

(** The builder, by the number of accessors that yield a value: the one
    attribute when there is one, an access out of bounds when there are
    more. *)
Lemma resource_attributes_by_yield (rk : rd_kafka_t)
    (w : rd_kafka_telemetry_resource_attribute_t)
    (l : list rd_kafka_telemetry_resource_attribute_t) :
  rk_type rk <> RD_KAFKA_TYPE_OTHER ->
  yielded rk (role_attributes rk) = Ok (w :: l) ->
  resource_attributes rk =
  match l with
  | [] => Ok (1, [Some w])
  | _ :: _ => Fault OutOfBounds
  end.
Proof.
  intros Hty Hy. pose proof (yielded_length _ _ _ Hy) as Hlen.
  assert (Hc : (List.length (role_attributes rk) <= 4)%nat).
  { unfold role_attributes. destruct (rk_type rk); cbn; lia. }
  assert (G : resource_attributes rk =
              rbind (count_attributes rk (role_attributes rk) 0)
                (fun count =>
                   if count =? 0 then Ok (0, [])
                   else rbind (set_attributes rk
                                 [repeat None (Z.to_nat count)]
                                 (role_attributes rk) 0)
                          (fun attributes' => Ok (count, hd [] attributes')))).
  { unfold resource_attributes, role_attributes.
    destruct (rk_type rk); [reflexivity|reflexivity|contradiction]. }
  rewrite G.
  rewrite (count_attributes_yielded rk _ (w :: l) 0 Hy)
    by (cbn [List.length] in *; lia).
  cbn [rbind Z.add]. cbn [List.length] in *.
  assert (Hnz : (Z.of_nat (S (List.length l)) =? 0) = false)
    by (apply Z.eqb_neq; lia).
  rewrite Hnz, Nat2Z.id. cbn [repeat].
  rewrite (set_attributes_first_slot _ _ _ _ _ Hy).
  destruct l; reflexivity.
Qed.

(** ** Reset *)

(** The reset in closed form. *)
Lemma reset_brokers_eq (brokers : list rd_kafka_broker_t) (e : env)
    (s : mstate) :
  reset_brokers brokers e s =
  Ok (reset_from e (clock_ticks s) brokers,
      MState (clock_ticks s + List.length brokers) (reset_calls s)).
Proof.
  revert s. induction brokers as [|b bs IH]; intros [t r].
  - cbn. rewrite Nat.add_0_r. reflexivity.
  - cbn [reset_brokers]. unfold bind at 1. unfold rd_uclock at 1.
    cbn [clock_ticks reset_calls]. unfold bind at 1. rewrite IH.
    cbn [clock_ticks reset_calls reset_from List.length ret].
    unfold ret. rewrite Nat.add_succ_r. reflexivity.
Qed.

Lemma reset_from_nth (e : env) (brokers : list rd_kafka_broker_t) :
  forall (t i : nat) (rkb : rd_kafka_broker_t),
    nth_error brokers i = Some rkb ->
    nth_error (reset_from e t brokers) i =
    Some (reset_broker (wrap64 (uclock e (t + i) * 1000)) rkb).
Proof.
  induction brokers as [|b bs IH]; intros t i rkb H.
  - destruct i; discriminate H.
  - destruct i as [|i]; cbn in *.
    + injection H as <-. rewrite Nat.add_0_r. reflexivity.
    + rewrite (IH (S t) i rkb H). rewrite Nat.add_succ_r. reflexivity.
Qed.

Lemma reset_from_length (e : env) (brokers : list rd_kafka_broker_t) :
  forall t, List.length (reset_from e t brokers) = List.length brokers.
Proof.
  induction brokers as [|b bs IH]; intros t; cbn; [|rewrite IH]; reflexivity.
Qed.

Lemma reset_historical_metrics_eq (rk : rd_kafka_t) (e : env) (s : mstate) :
  reset_historical_metrics rk e s =
  Ok (set_rk_brokers rk (reset_from e (clock_ticks s) (rk_brokers rk)),
      MState (clock_ticks s + List.length (rk_brokers rk))
             (S (reset_calls s))).
Proof.
  unfold reset_historical_metrics, bind, note_reset.
  rewrite reset_brokers_eq. reflexivity.
Qed.

(** C9, as stated, fails: the reset writes more than the listed fields.  The
    maximum of the round-trip baseline goes from 0 to 7 and the
    [maxv_reset] flags of the three live statistics go from 0 to 1. *)
Lemma reset_overwrites_more_than_listed :
  reset_historical_metrics (producer_with [measured_broker] 1 [])
    sample_env initial_state
  = Ok (producer_with [measured_broker_after_reset] 1 [], MState 1 1) /\
  ~ only_listed_fields_overwritten measured_broker
      measured_broker_after_reset.
Proof.
  split; [reflexivity|].
  unfold only_listed_fields_overwritten. cbn. intros H. discriminate H.
Qed.

(** C9 (amended). The reset returns, and for every broker it overwrites the
    baseline connect count, the baseline assigned-partition count,
    [ts_last] (with the clock reading taken for that broker) and the three
    baseline statistics, each with the whole [ra_v] of the live statistic
    (its count and sum, and its maximum fields with them); it sets the
    [maxv_reset] flag of the three live statistics; it leaves [ts_start],
    the node id, the live counters and the count, sum and maximum of the
    live statistics as they were, and changes nothing of the client outside
    its brokers. *)
Theorem reset_historical_metrics_effect (rk : rd_kafka_t) (e : env)
    (s : mstate) :
  exists rk',
    reset_historical_metrics rk e s =
    Ok (rk', MState (clock_ticks s + List.length (rk_brokers rk))
                    (S (reset_calls s))) /\
    rk' = set_rk_brokers rk (rk_brokers rk') /\
    List.length (rk_brokers rk') = List.length (rk_brokers rk) /\
    forall (i : nat) (b : rd_kafka_broker_t),
      nth_error (rk_brokers rk) i = Some b ->
      exists b',
        nth_error (rk_brokers rk') i = Some b' /\
        let h := rkb_c_historic b in
        let h' := rkb_c_historic b' in
        h_connects h' = rkb_c_connects b /\
        h_assigned_partitions h' = rkb_toppar_cnt b /\
        h_ts_last h' = wrap64 (uclock e (clock_ticks s + i) * 1000) /\
        ra_v (h_rkb_avg_rtt h') = ra_v (rkb_avg_rtt b) /\
        ra_v (h_rkb_avg_throttle h') = ra_v (rkb_avg_throttle b) /\
        ra_v (h_rkb_avg_outbuf_latency h') = ra_v (rkb_avg_outbuf_latency b) /\
        h_ts_start h' = h_ts_start h /\
        rkb_nodeid b' = rkb_nodeid b /\
        rkb_c_connects b' = rkb_c_connects b /\
        rkb_toppar_cnt b' = rkb_toppar_cnt b /\
        (forall stat,
            In stat [rkb_avg_rtt; rkb_avg_throttle; rkb_avg_outbuf_latency] ->
            cnt (ra_v (stat b')) = cnt (ra_v (stat b)) /\
            sum (ra_v (stat b')) = sum (ra_v (stat b)) /\
            maxv_interval (ra_v (stat b')) = maxv_interval (ra_v (stat b)) /\
            maxv_reset (ra_v (stat b')) = 1).
Proof.
  eexists. rewrite reset_historical_metrics_eq.
  split; [reflexivity|]. cbn [rk_brokers set_rk_brokers].
  split; [reflexivity|]. split; [apply reset_from_length|].
  intros i b Hb. eexists. split; [apply (reset_from_nth _ _ _ _ _ Hb)|].
  cbn. repeat split; try reflexivity;
    destruct H as [<-|[<-|[<-|[]]]]; reflexivity.
Qed.

(** The reset of [measured_broker] at clock reading 5 s. *)
Lemma reset_historical_metrics_effect_witness :
  exists rk' b',
    reset_historical_metrics (producer_with [measured_broker] 1 [])
      sample_env initial_state = Ok (rk', MState 1 1) /\
    nth_error (rk_brokers rk') 0 = Some b' /\
    h_ts_start (rkb_c_historic b') = 0 /\
    h_ts_last (rkb_c_historic b') = 5000000000 /\
    cnt (ra_v (h_rkb_avg_rtt (rkb_c_historic b'))) = 5 /\
    sum (ra_v (h_rkb_avg_rtt (rkb_c_historic b'))) = 50.
Proof.
  destruct (reset_historical_metrics_effect
              (producer_with [measured_broker] 1 []) sample_env initial_state)
    as (rk' & Hr & _ & _ & Hb).
  destruct (Hb 0%nat measured_broker eq_refl)
    as (b' & Hn & Hc & Ha & Hl & Hrtt & _ & _ & Hs & _).
  exists rk', b'. split; [exact Hr|]. split; [exact Hn|].
  split; [exact Hs|]. split; [exact Hl|]. rewrite Hrtt.
  split; reflexivity.
Defined.

(** ** Inversion of monadic steps *)

Lemma bind_ok {A B} (m : M A) (k : A -> M B) (e : env) (s s' : mstate)
    (b : B) :
  bind m k e s = Ok (b, s') ->
  exists a s1, m e s = Ok (a, s1) /\ k a e s1 = Ok (b, s').
Proof.
  unfold bind. destruct (m e s) as [[a s1]|f]; [|discriminate].
  intros H. exists a, s1. split; [reflexivity|exact H].
Qed.

Lemma lift_ok {A} (r : result A) (e : env) (s s' : mstate) (a : A) :
  lift r e s = Ok (a, s') -> r = Ok a /\ s' = s.
Proof.
  unfold lift. destruct r as [x|f]; [|discriminate].
  intros H. injection H as <- <-. split; reflexivity.
Qed.

Lemma ret_ok {A} (x a : A) (e : env) (s s' : mstate) :
  ret x e s = Ok (a, s') -> a = x /\ s' = s.
Proof. unfold ret. intros H. injection H as <- <-. split; reflexivity. Qed.

Ltac inv_step H :=
  let a := fresh "a" in
  let s1 := fresh "s" in
  let H1 := fresh "Hm" in
  first
    [ apply bind_ok in H; destruct H as (a & s1 & H1 & H)
    | apply lift_ok in H; destruct H as [H ->]
    | apply ret_ok in H; destruct H as [-> ->] ].

(** Nothing the tree builder runs calls the reset. *)
Lemma no_reset_ret {A} (a : A) : no_reset (ret a).
Proof. intros e s x s' H. inv_step H. reflexivity. Qed.

Lemma no_reset_lift {A} (r : result A) : no_reset (lift r).
Proof. intros e s x s' H. inv_step H. reflexivity. Qed.

Lemma no_reset_uclock : no_reset rd_uclock.
Proof. intros e s x s' H. injection H as <- <-. reflexivity. Qed.

Lemma no_reset_bind {A B} (m : M A) (k : A -> M B) :
  no_reset m -> (forall a, no_reset (k a)) -> no_reset (bind m k).
Proof.
  intros Hm Hk e s b s' H. inv_step H.
  rewrite (Hk _ _ _ _ _ H). exact (Hm _ _ _ _ Hm0).
Qed.

Lemma no_reset_rate (rk : rd_kafka_t) (broker : option rd_kafka_broker_t) :
  no_reset (calculate_connection_creation_rate rk broker).
Proof.
  intros e s a s' H. rewrite rate_value in H. cbv zeta in H.
  injection H as _ <-. reflexivity.
Qed.

Lemma table_get_In {A} (table : list A) (idx : Z) (a : A) :
  table_get table idx = Ok a -> In a table.
Proof.
  unfold table_get. destruct (idx <? 0); [discriminate|].
  destruct (nth_error table (Z.to_nat idx)) as [x|] eqn:E; [|discriminate].
  intros H. injection H as <-. exact (nth_error_In _ _ E).
Qed.

Lemma no_reset_calculators (rk : rd_kafka_t) (idx : Z)
    (calc : rd_kafka_telemetry_metric_value_calculator_t) :
  table_get (if rd_kafka_type_eqb (rk_type rk) RD_KAFKA_PRODUCER
             then PRODUCER_METRIC_VALUE_CALCULATORS
             else CONSUMER_METRIC_VALUE_CALCULATORS) idx = Ok calc ->
  forall rk' broker, no_reset (calc rk' broker).
Proof.
  intros H rk' broker. apply table_get_In in H.
  destruct (rd_kafka_type_eqb _ _); cbn in H;
    repeat (destruct H as [<-|H];
            [first [apply no_reset_rate | apply no_reset_lift]|]);
    contradiction.
Qed.

Section Encoder.

Variable cat : catalog_t.
Variable rk : rd_kafka_t.

Lemma no_reset_serialize (rkb : option rd_kafka_broker_t)
    (info : result rd_kafka_telemetry_metric_info_t)
    (calc : rd_kafka_telemetry_metric_value_calculator_t)
    (is_per_broker : bool) (now_ns : Z) :
  (forall rk' broker, no_reset (calc rk' broker)) ->
  no_reset (serializeMetricData cat rk rkb info calc is_per_broker now_ns).
Proof.
  intros Hc. unfold serializeMetricData.
  apply no_reset_bind; [apply no_reset_lift|]. intros i.
  apply no_reset_bind; [apply Hc|]. intros v.
  apply no_reset_bind; [apply no_reset_lift|]. intros st.
  apply no_reset_bind; [apply no_reset_lift|]. intros attrs.
  apply no_reset_ret.
Qed.

Lemma no_reset_per_broker (info : result rd_kafka_telemetry_metric_info_t)
    (calc : rd_kafka_telemetry_metric_value_calculator_t)
    (now_ns total : Z) (brokers : list rd_kafka_broker_t) :
  (forall rk' broker, no_reset (calc rk' broker)) ->
  forall nodes,
    no_reset (per_broker_nodes cat rk info calc now_ns total brokers nodes).
Proof.
  intros Hc. induction brokers as [|b bs IH]; intros nodes; cbn.
  - apply no_reset_ret.
  - apply no_reset_bind; [apply no_reset_lift|]. intros _.
    apply no_reset_bind; [apply no_reset_serialize; exact Hc|]. intros m.
    apply IH.
Qed.

Lemma no_reset_metric_nodes (now_ns total : Z) (ids : list Z) :
  forall nodes, no_reset (metric_nodes cat rk now_ns total ids nodes).
Proof.
  induction ids as [|id rest IH]; intros nodes; cbn.
  - apply no_reset_ret.
  - intros e s a s' H. inv_step H. inv_step Hm.
    pose proof (no_reset_calculators _ _ _ Hm) as Hc.
    destruct (is_per_broker_metric rk id).
    + inv_step H. rewrite (IH _ _ _ _ _ H).
      exact (no_reset_per_broker _ _ _ _ _ Hc _ _ _ _ _ Hm0).
    + inv_step H. inv_step Hm0. inv_step H.
      rewrite (IH _ _ _ _ _ H).
      exact (no_reset_serialize _ _ _ _ _ Hc _ _ _ _ Hm1).
Qed.

Lemma no_reset_build_tree : no_reset (build_tree cat rk).
Proof.
  unfold build_tree.
  apply no_reset_bind; [apply no_reset_uclock|]. intros now_us.
  apply no_reset_bind; [apply no_reset_lift|]. intros ra.
  apply no_reset_bind; [apply no_reset_lift|]. intros kvs.
  apply no_reset_bind; [apply no_reset_metric_nodes|]. intros nodes.
  apply no_reset_bind; [apply no_reset_lift|]. intros metrics.
  destruct (0 <? _); apply no_reset_ret.
Qed.

(** *** The nodes of one call *)

Lemma serializeMetricData_ok (rkb : option rd_kafka_broker_t)
    (info : result rd_kafka_telemetry_metric_info_t)
    (calc : rd_kafka_telemetry_metric_value_calculator_t)
    (is_per_broker : bool) (now_ns : Z) (e : env) (s s' : mstate)
    (m : Metric) :
  serializeMetricData cat rk rkb info calc is_per_broker now_ns e s
  = Ok (m, s') ->
  exists i b,
    info = Ok i /\ hd_error (rk_brokers rk) = Some b /\
    node_built_from cat i b is_per_broker now_ns m.
Proof.
  unfold serializeMetricData. intros H.
  inv_step H. inv_step Hm. inv_step H. inv_step H. inv_step Hm1.
  inv_step H. inv_step Hm2. inv_step H.
  destruct (hd_error (rk_brokers rk)) as [b|] eqn:Hhd.
  - exists a, b. split; [exact Hm|]. split; [reflexivity|].
    unfold node_built_from, kind_of, data_point_of. cbn in *.
    destruct is_per_broker; injection Hm2 as <-;
      destruct (mi_type a); cbn in *; injection Hm1 as <-;
      repeat split; reflexivity.
  - cbn in Hm1. destruct (mi_type a); discriminate Hm1.
Qed.

Lemma per_broker_nodes_ok (id : Z)
    (calc : rd_kafka_telemetry_metric_value_calculator_t)
    (now_ns total : Z) (brokers : list rd_kafka_broker_t) :
  is_per_broker_metric rk id = true ->
  forall nodes e s out s',
    per_broker_nodes cat rk
      (table_get (RD_KAFKA_TELEMETRY_METRIC_INFO cat rk) id)
      calc now_ns total brokers nodes e s = Ok (out, s') ->
    exists new,
      out = nodes ++ new /\ List.length new = List.length brokers /\
      Forall (node_of_call cat rk [id] now_ns) new.
Proof.
  intros Hpb. induction brokers as [|b bs IH]; intros nodes e s out s' H.
  - cbn in H. inv_step H. exists []. rewrite app_nil_r.
    repeat split. constructor.
  - cbn [per_broker_nodes] in H. inv_step H. inv_step Hm. inv_step H.
    destruct (serializeMetricData_ok _ _ _ _ _ _ _ _ _ Hm0)
      as (i & b0 & Hi & Hhd & Hn).
    destruct (IH _ _ _ _ _ H) as (new & -> & Hlen & Hall).
    exists (a0 :: new). rewrite <- app_assoc. cbn.
    split; [reflexivity|]. split; [rewrite Hlen; reflexivity|].
    constructor; [|exact Hall].
    exists id, i, b0. rewrite Hpb.
    repeat split; [left; reflexivity|exact Hi|exact Hhd|apply Hn..].
Qed.

Lemma node_of_call_incl (ids ids' : list Z) (now_ns : Z) (l : list Metric) :
  incl ids ids' ->
  Forall (node_of_call cat rk ids now_ns) l -> Forall (node_of_call cat rk ids' now_ns) l.
Proof.
  intros Hi. apply Forall_impl. intros m (id & info & b & Hin & H).
  exists id, info, b. split; [apply Hi; exact Hin|exact H].
Qed.

Lemma metric_nodes_ok (now_ns total : Z) (ids : list Z) :
  forall nodes e s out s',
    metric_nodes cat rk now_ns total ids nodes e s = Ok (out, s') ->
    exists new,
      out = nodes ++ new /\ List.length new = expected_nodes rk ids /\
      Forall (node_of_call cat rk ids now_ns) new.
Proof.
  induction ids as [|id rest IH]; intros nodes e s out s' H.
  - cbn in H. inv_step H. exists []. rewrite app_nil_r.
    repeat split. constructor.
  - cbn [metric_nodes] in H. inv_step H. inv_step Hm.
    unfold expected_nodes. cbn [map fold_right]. unfold nodes_of_metric at 1.
    destruct (is_per_broker_metric rk id) eqn:Hpb.
    + inv_step H.
      destruct (per_broker_nodes_ok id _ _ _ _ Hpb _ _ _ _ _ Hm0)
        as (new1 & -> & Hl1 & Ha1).
      destruct (IH _ _ _ _ _ H) as (new2 & -> & Hl2 & Ha2).
      exists (new1 ++ new2). rewrite app_assoc. split; [reflexivity|].
      split; [rewrite length_app, Hl1, Hl2; reflexivity|].
      apply Forall_app. split.
      * apply (node_of_call_incl [id]); [|exact Ha1].
        intros x [<-|[]]. left. reflexivity.
      * apply (node_of_call_incl rest); [|exact Ha2].
        intros x Hx. right. exact Hx.
    + inv_step H. inv_step Hm0. inv_step H.
      destruct (serializeMetricData_ok _ _ _ _ _ _ _ _ _ Hm1)
        as (i & b0 & Hi & Hhd & Hn).
      destruct (IH _ _ _ _ _ H) as (new2 & -> & Hl2 & Ha2).
      exists (a1 :: new2). rewrite <- app_assoc. cbn.
      split; [reflexivity|]. split; [rewrite Hl2; reflexivity|].
      constructor.
      * exists id, i, b0. rewrite Hpb.
        repeat split; [left; reflexivity|exact Hi|exact Hhd|apply Hn..].
      * apply (node_of_call_incl rest); [|exact Ha2].
        intros x Hx. right. exact Hx.
Qed.

(** Whenever the tree is built, its metric entries are the nodes of the
    second loop, as many as the enabled list expands to. *)
Lemma build_tree_entries (e : env) (s s' : mstate) (md : MetricsData) :
  build_tree cat rk e s = Ok (md, s') ->
  List.length (metric_entries md) = expected_nodes rk (matched_metrics rk) /\
  Forall (node_of_call cat rk (matched_metrics rk)
            (wrap64 (uclock e (clock_ticks s) * 1000)))
         (metric_entries md).
Proof.
  unfold build_tree. intros H.
  inv_step H. injection Hm as <- <-.
  inv_step H. inv_step Hm. inv_step H. inv_step Hm0.
  inv_step H. inv_step H. inv_step Hm2.
  destruct (metric_nodes_ok _ _ _ _ _ _ _ _ Hm1) as (new & Hn & Hlen & Hall).
  cbn [app] in Hn. subst.
  unfold metrics_repeated in Hm2.
  destruct (Z.of_nat (List.length new) =? total_metrics_count rk) eqn:Ht;
    [|discriminate Hm2].
  injection Hm2 as <-. apply Z.eqb_eq in Ht.
  destruct (0 <? total_metrics_count rk) eqn:Hpos; inv_step H.
  - unfold metric_entries. cbn. rewrite !app_nil_r.
    split; [exact Hlen|exact Hall].
  - apply Z.ltb_ge in Hpos.
    assert (new = []) by (destruct new; [reflexivity|cbn in Ht; lia]).
    subst new. unfold metric_entries. cbn.
    split; [exact Hlen|constructor].
Qed.


(** Without enabled metric and with a resource attribute set that is
    built, the tree is the empty message. *)
Lemma build_tree_empty_list (ra : Z * attr_array) (e : env) (s : mstate) :
  matched_metrics rk = [] ->
  resource_attributes rk = Ok ra ->
  build_tree cat rk e s =
  Ok (MkMetricsData [], MState (S (clock_ticks s)) (reset_calls s)).
Proof.
  intros Hm Hra. unfold build_tree, total_metrics_count. rewrite Hm, Hra.
  cbn [List.length seq fold_left Z.of_nat].
  unfold bind at 1, rd_uclock at 1. unfold bind at 1, lift at 1.
  destruct ra as [count arr].
  destruct (resource_attributes_shape _ _ _ Hra)
    as [[-> ->]|[-> [w ->]]]; reflexivity.
Qed.

(** The call once the tree is built. *)
Lemma encode_after_build (e : env) (s s1 : mstate)
    (metrics_data : MetricsData) :
  build_tree cat rk e s = Ok (metrics_data, s1) ->
  rd_kafka_telemetry_encode_metrics cat rk e s =
  if all_passes_ok e
  then Ok ((Some metrics_data,
            set_rk_brokers rk (reset_from e (clock_ticks s1) (rk_brokers rk))),
           MState (clock_ticks s1 + List.length (rk_brokers rk))
                  (S (reset_calls s1)))
  else Ok ((None, rk), s1).
Proof.
  intros Hb. unfold rd_kafka_telemetry_encode_metrics, all_passes_ok.
  unfold bind at 1. rewrite Hb. unfold bind at 1, ask. cbv beta iota.
  destruct (size_pass_ok e); [|reflexivity].
  destruct (buffer_alloc_ok e); [|reflexivity].
  destruct (write_pass_ok e); [|reflexivity].
  cbn [andb negb]. unfold bind. rewrite reset_historical_metrics_eq.
  reflexivity.
Qed.

(** C2. Once the tree is built and handed to the passes: if the size pass,
    the allocation of the buffer or the write pass fails, the call returns
    NULL, the client (its historic snapshot with it) is exactly what it
    was, and the reset has not been called; if they all succeed the call
    returns the buffer and has called the reset once, on the client it
    then returns. *)
Theorem encode_resets_only_on_success (e : env) (s s1 : mstate)
    (metrics_data : MetricsData) :
  build_tree cat rk e s = Ok (metrics_data, s1) ->
  (all_passes_ok e = false ->
   rd_kafka_telemetry_encode_metrics cat rk e s = Ok ((None, rk), s1) /\
   reset_calls s1 = reset_calls s) /\
  (all_passes_ok e = true ->
   exists rk' s',
     rd_kafka_telemetry_encode_metrics cat rk e s
     = Ok ((Some metrics_data, rk'), s') /\
     reset_historical_metrics rk e s1 = Ok (rk', s') /\
     reset_calls s' = S (reset_calls s)).
Proof.
  intros Hb. pose proof (no_reset_build_tree _ _ _ _ Hb) as Hr.
  rewrite (encode_after_build _ _ _ _ Hb). split.
  - intros ->. split; [reflexivity|exact Hr].
  - intros ->. rewrite reset_historical_metrics_eq.
    eexists _, _. split; [reflexivity|]. split; [reflexivity|].
    cbn. rewrite Hr. reflexivity.
Qed.

(** With an empty enabled list, a resource attribute set that is built and
    passes that succeed, the call returns the buffer of the empty message:
    no metric entry. *)
Lemma encode_empty_list (ra : Z * attr_array) (e : env) (s : mstate) :
  matched_metrics rk = [] ->
  resource_attributes rk = Ok ra ->
  all_passes_ok e = true ->
  exists rk' s',
    rd_kafka_telemetry_encode_metrics cat rk e s
    = Ok ((Some (MkMetricsData []), rk'), s') /\
    metric_entries (MkMetricsData []) = [].
Proof.
  intros Hm Hra Hok.
  rewrite (encode_after_build _ _ _ _ (build_tree_empty_list ra e s Hm Hra)).
  rewrite Hok. eexists _, _. split; reflexivity.
Qed.

End Encoder.

(** One broker and the connection total enabled: with a failing write pass
    the call returns NULL and the client untouched; with passes that
    succeed it returns a buffer after one reset. *)
Lemma encode_resets_only_on_success_witness :
  rd_kafka_telemetry_encode_metrics sample_catalog
    (one_idle_broker [RD_KAFKA_TELEMETRY_METRIC_PRODUCER_CONNECTION_CREATION_TOTAL])
    write_pass_fails initial_state
  = Ok ((None,
         one_idle_broker
           [RD_KAFKA_TELEMETRY_METRIC_PRODUCER_CONNECTION_CREATION_TOTAL]),
        MState 1 0) /\
  exists md rk' s',
    rd_kafka_telemetry_encode_metrics sample_catalog
      (one_idle_broker
         [RD_KAFKA_TELEMETRY_METRIC_PRODUCER_CONNECTION_CREATION_TOTAL])
      sample_env initial_state
    = Ok ((Some md, rk'), s') /\ reset_calls s' = 1%nat.
Proof.
  split.
  - refine (proj1 (proj1 (encode_resets_only_on_success sample_catalog
                            (one_idle_broker
                               [RD_KAFKA_TELEMETRY_METRIC_PRODUCER_CONNECTION_CREATION_TOTAL])
                            write_pass_fails initial_state _ _ eq_refl)
                     eq_refl)).
  - destruct (proj2 (encode_resets_only_on_success sample_catalog
                       (one_idle_broker
                          [RD_KAFKA_TELEMETRY_METRIC_PRODUCER_CONNECTION_CREATION_TOTAL])
                       sample_env initial_state _ _ eq_refl) eq_refl)
      as (rk' & s' & He & _ & Hr).
    eexists _, rk', s'. split; [exact He|exact Hr].
Defined.


(** ** Counting the nodes *)

(** C3. With three linked brokers and the broker-scoped request latency
    average as the only enabled metric, the first loop looks at the
    position 0 instead of the metric id, so it counts one node; the second
    loop builds three and writes the second one past the arrays.  With the
    rate, the total and the throttle average enabled it counts five nodes
    (position 2 is the id of a broker-scoped metric), builds three and the
    encoder reads two entries that were never written. *)
Theorem node_count_looks_at_position :
  let latency :=
    three_idle_brokers
      [RD_KAFKA_TELEMETRY_METRIC_PRODUCER_NODE_REQUEST_LATENCY_AVG] in
  let client_scoped :=
    three_idle_brokers
      [RD_KAFKA_TELEMETRY_METRIC_PRODUCER_CONNECTION_CREATION_RATE;
       RD_KAFKA_TELEMETRY_METRIC_PRODUCER_CONNECTION_CREATION_TOTAL;
       RD_KAFKA_TELEMETRY_METRIC_PRODUCER_PRODUCE_THROTTLE_TIME_AVG] in
  (total_metrics_count latency = 1 /\
   expected_nodes latency (matched_metrics latency) = 3%nat /\
   rd_kafka_telemetry_encode_metrics sample_catalog latency sample_env
     initial_state = Fault OutOfBounds) /\
  (total_metrics_count client_scoped = 5 /\
   expected_nodes client_scoped (matched_metrics client_scoped) = 3%nat /\
   rd_kafka_telemetry_encode_metrics sample_catalog client_scoped sample_env
     initial_state = Fault UninitRead).
Proof. cbv zeta. repeat split; vm_compute; reflexivity. Qed.

(** ** The empty enabled list *)

(** C7. For a producer with a rack and a transactional id and no enabled
    metric, the call does not return the empty message: the resource
    attribute builder, which runs first, stores its second attribute out of
    bounds. *)
Theorem encode_empty_list_second_attribute :
  matched_metrics producer_with_rack_and_transactional_id = [] /\
  resource_attributes producer_with_rack_and_transactional_id
  = Fault OutOfBounds /\
  rd_kafka_telemetry_encode_metrics sample_catalog
    producer_with_rack_and_transactional_id sample_env initial_state
  = Fault OutOfBounds.
Proof. repeat split; vm_compute; reflexivity. Qed.

(** * Further properties of the code *)

(** ** Wrap-around *)

Lemma wrap_mod (w z : Z) : 0 < w -> (wrap w z) mod 2 ^ w = z mod 2 ^ w.
Proof.
  intros Hw. unfold wrap.
  assert (Hp : 0 < 2 ^ (w - 1)) by (apply Z.pow_pos_nonneg; lia).
  assert (H2 : 2 ^ w = 2 * 2 ^ (w - 1)).
  { replace w with (Z.succ (w - 1)) at 1 by lia.
    rewrite Z.pow_succ_r by lia. reflexivity. }
  rewrite <- (Zminus_mod_idemp_l ((z + 2 ^ (w - 1)) mod 2 ^ w)).
  rewrite Z.mod_mod by lia. rewrite Zminus_mod_idemp_l.
  f_equal. lia.
Qed.

Lemma wrap_congr (w a b : Z) :
  0 < w -> a mod 2 ^ w = b mod 2 ^ w -> wrap w a = wrap w b.
Proof.
  intros Hw H. unfold wrap.
  rewrite <- (Zplus_mod_idemp_l a), <- (Zplus_mod_idemp_l b), H.
  reflexivity.
Qed.

Lemma wrap_add_l (w a b : Z) :
  0 < w -> wrap w (wrap w a + b) = wrap w (a + b).
Proof.
  intros Hw. apply wrap_congr; [exact Hw|].
  rewrite <- Zplus_mod_idemp_l, wrap_mod by exact Hw.
  apply Zplus_mod_idemp_l.
Qed.

Lemma wrap32_id (z : Z) : in_int32 z -> wrap32 z = z.
Proof.
  unfold in_int32, wrap32, wrap. intros H.
  change (2 ^ (32 - 1)) with (2 ^ 31). change (2 ^ 32) with (2 * 2 ^ 31).
  rewrite Z.mod_small; lia.
Qed.

Lemma wrap32_range (z : Z) : in_int32 (wrap32 z).
Proof.
  unfold in_int32, wrap32, wrap.
  change (2 ^ (32 - 1)) with (2 ^ 31). change (2 ^ 32) with (2 * 2 ^ 31).
  pose proof (Z.mod_pos_bound (z + 2 ^ 31) (2 * 2 ^ 31)). lia.
Qed.

(** ** Connection total *)

Lemma total_loop_delta (brokers : list rd_kafka_broker_t) (total : Z) :
  fold_left (fun total rkb => wrap64 (total + connects_delta rkb)) brokers
    (wrap64 total)
  = wrap64 (total + delta_sum brokers).
Proof.
  revert total. induction brokers as [|b bs IH]; intros total.
  - cbn. unfold delta_sum. cbn. rewrite Z.add_0_r. reflexivity.
  - cbn [fold_left]. unfold wrap64 at 2. rewrite wrap_add_l by lia.
    fold wrap64. rewrite IH. unfold delta_sum. cbn [map fold_right].
    f_equal. lia.
Qed.

Lemma total_loop_cumulative (brokers : list rd_kafka_broker_t) (total : Z) :
  fold_left (fun total rkb => wrap64 (total + rkb_c_connects rkb)) brokers
    (wrap64 total)
  = wrap64 (total + connects_sum brokers).
Proof.
  revert total. induction brokers as [|b bs IH]; intros total.
  - cbn. unfold connects_sum. cbn. rewrite Z.add_0_r. reflexivity.
  - cbn [fold_left]. unfold wrap64 at 2. rewrite wrap_add_l by lia.
    fold wrap64. rewrite IH. unfold connects_sum. cbn [map fold_right].
    f_equal. lia.
Qed.

Lemma delta_sum_bound (brokers : list rd_kafka_broker_t) :
  Z.abs (delta_sum brokers) <= Z.of_nat (List.length brokers) * 2 ^ 31.
Proof.
  induction brokers as [|b bs IH]; [cbn; lia|].
  unfold delta_sum in *. cbn [map fold_right List.length].
  pose proof (wrap32_range (rkb_c_connects b - h_connects (rkb_c_historic b)))
    as Hr.
  unfold in_int32 in Hr. unfold connects_delta at 1. lia.
Qed.

(** X1. The connection total is, on 64 bits, the sum of the connect counts
    in cumulative mode and the sum of the connects since the baseline in
    delta mode; with fewer than 2^31 brokers the delta sum does not
    wrap. *)
Theorem connection_creation_total_value (rk : rd_kafka_t)
    (broker : option rd_kafka_broker_t) :
  (delta_temporality rk = false ->
   calculate_connection_creation_total rk broker =
   Ok (intValue (wrap64 (connects_sum (rk_brokers rk))))) /\
  (delta_temporality rk = true ->
   calculate_connection_creation_total rk broker =
   Ok (intValue (wrap64 (delta_sum (rk_brokers rk))))) /\
  (delta_temporality rk = true ->
   Z.of_nat (List.length (rk_brokers rk)) < 2 ^ 31 ->
   calculate_connection_creation_total rk broker =
   Ok (intValue (delta_sum (rk_brokers rk)))).
Proof.
  unfold calculate_connection_creation_total.
  assert (Hc : delta_temporality rk = false ->
               fold_left
                 (fun total rkb =>
                    if negb (delta_temporality rk)
                    then wrap64 (total + rkb_c_connects rkb)
                    else wrap64 (total + connects_delta rkb))
                 (rk_brokers rk) 0
               = wrap64 (connects_sum (rk_brokers rk))).
  { intros ->. cbn [negb]. change 0 with (wrap64 0) at 1.
    rewrite total_loop_cumulative. reflexivity. }
  assert (Hd : delta_temporality rk = true ->
               fold_left
                 (fun total rkb =>
                    if negb (delta_temporality rk)
                    then wrap64 (total + rkb_c_connects rkb)
                    else wrap64 (total + connects_delta rkb))
                 (rk_brokers rk) 0
               = wrap64 (delta_sum (rk_brokers rk))).
  { intros ->. cbn [negb]. change 0 with (wrap64 0) at 1.
    rewrite total_loop_delta. reflexivity. }
  repeat split.
  - intros H. rewrite (Hc H). reflexivity.
  - intros H. rewrite (Hd H). reflexivity.
  - intros H Hn. rewrite (Hd H). rewrite wrap64_id; [reflexivity|].
    pose proof (delta_sum_bound (rk_brokers rk)) as Hb.
    unfold in_int64. nia.
Qed.

Lemma connection_creation_total_value_witness :
  calculate_connection_creation_total two_connecting_brokers None
  = Ok (intValue 10).
Proof.
  refine (proj2 (proj2 (connection_creation_total_value
                          two_connecting_brokers None)) eq_refl _).
  vm_compute. reflexivity.
Defined.

(** ** The calculators after a reset *)

Lemma reset_from_In (e : env) (brokers : list rd_kafka_broker_t) :
  forall (t : nat) (b' : rd_kafka_broker_t),
    In b' (reset_from e t brokers) ->
    exists now_ns b, In b brokers /\ b' = reset_broker now_ns b.
Proof.
  induction brokers as [|b bs IH]; intros t b' H; [contradiction|].
  cbn in H. destruct H as [<-|H].
  - eexists _, b. split; [left; reflexivity|reflexivity].
  - destruct (IH _ _ H) as (n & b0 & Hin & ->).
    exists n, b0. split; [right; exact Hin|reflexivity].
Qed.

Lemma reset_brokers_of (rk rk' : rd_kafka_t) (e : env) (s s' : mstate) :
  reset_historical_metrics rk e s = Ok (rk', s') ->
  rk' = set_rk_brokers rk (reset_from e (clock_ticks s) (rk_brokers rk)).
Proof.
  rewrite reset_historical_metrics_eq. intros H. injection H as <- _.
  reflexivity.
Qed.

Lemma connects_delta_reset (now_ns : Z) (b : rd_kafka_broker_t) :
  connects_delta (reset_broker now_ns b) = 0.
Proof. unfold connects_delta. cbn. rewrite Z.sub_diag. reflexivity. Qed.

Lemma delta_sum_reset (e : env) (brokers : list rd_kafka_broker_t) :
  forall t, delta_sum (reset_from e t brokers) = 0.
Proof.
  induction brokers as [|b bs IH]; intros t; [reflexivity|].
  unfold delta_sum in *. cbn [reset_from map fold_right].
  rewrite connects_delta_reset, IH. reflexivity.
Qed.

(** X2. Right after a reset the connection total of a client in delta mode
    is 0, whatever the counters were. *)
Theorem connection_creation_total_after_reset (rk rk' : rd_kafka_t)
    (e : env) (s s' : mstate) (broker : option rd_kafka_broker_t) :
  reset_historical_metrics rk e s = Ok (rk', s') ->
  delta_temporality rk = true ->
  calculate_connection_creation_total rk' broker = Ok (intValue 0).
Proof.
  intros Hr Hd. rewrite (reset_brokers_of _ _ _ _ _ Hr).
  unfold calculate_connection_creation_total.
  cbn [delta_temporality rk_brokers set_rk_brokers]. rewrite Hd. cbn [negb].
  change 0 with (wrap64 0) at 1. rewrite total_loop_delta, delta_sum_reset.
  reflexivity.
Qed.

Lemma connection_creation_total_after_reset_witness :
  calculate_connection_creation_total two_connecting_brokers None
  = Ok (intValue 10) /\
  exists rk' s',
    reset_historical_metrics two_connecting_brokers sample_env initial_state
    = Ok (rk', s') /\
    calculate_connection_creation_total rk' None = Ok (intValue 0).
Proof.
  split; [reflexivity|]. eexists _, _. split; [reflexivity|].
  exact (connection_creation_total_after_reset two_connecting_brokers _
           sample_env initial_state _ None eq_refl eq_refl).
Defined.

(** X3. Right after a reset the connection creation rate is zero at every
    later clock reading. *)
Theorem connection_creation_rate_after_reset (rk rk' : rd_kafka_t)
    (e e' : env) (s s' s'' : mstate) (broker : option rd_kafka_broker_t) :
  reset_historical_metrics rk e s = Ok (rk', s') ->
  exists q s3,
    calculate_connection_creation_rate rk' broker e' s''
    = Ok (doubleValue q, s3) /\ (q == 0)%Q.
Proof.
  intros Hr. rewrite (reset_brokers_of _ _ _ _ _ Hr), rate_value.
  cbv zeta. cbn [rk_brokers set_rk_brokers]. rewrite delta_sum_reset.
  eexists _, _. split; [reflexivity|].
  destruct (0 <? _); [|reflexivity].
  unfold Qdiv. apply Qmult_0_l.
Qed.

Lemma connection_creation_rate_after_reset_witness :
  exists rk' s' q s3,
    reset_historical_metrics two_connecting_brokers sample_env initial_state
    = Ok (rk', s') /\
    calculate_connection_creation_rate rk' None
      (Env (fun n => 9000000 + Z.of_nat n) true true true) s'
    = Ok (doubleValue q, s3) /\ (q == 0)%Q.
Proof.
  eexists _, _.
  destruct (connection_creation_rate_after_reset two_connecting_brokers _
              sample_env (Env (fun n => 9000000 + Z.of_nat n) true true true)
              initial_state _ (MState 2 1) None eq_refl)
    as (q & s3 & Hq & Hz).
  exists q, s3. split; [reflexivity|]. split; [exact Hq|exact Hz].
Defined.

Lemma avg_since_baseline_no_new (cur hist : rd_avg_t) :
  cnt (ra_v cur) <= cnt (ra_v hist) -> avg_since_baseline cur hist = Ok None.
Proof.
  intros H. unfold avg_since_baseline. apply Z.ltb_ge in H. rewrite H.
  reflexivity.
Qed.

(** X4. Right after a reset the average round-trip time of every linked
    broker is 0. *)
Theorem broker_avg_rtt_after_reset (rk rk' : rd_kafka_t) (e : env)
    (s s' : mstate) (rkb : rd_kafka_broker_t) :
  reset_historical_metrics rk e s = Ok (rk', s') ->
  In rkb (rk_brokers rk') ->
  calculate_broker_avg_rtt rk' (Some rkb) = Ok (doubleValue 0).
Proof.
  intros Hr Hin. rewrite (reset_brokers_of _ _ _ _ _ Hr) in Hin.
  cbn [rk_brokers set_rk_brokers] in Hin.
  destruct (reset_from_In _ _ _ _ Hin) as (n & b & _ & ->).
  apply broker_avg_rtt_no_new_observation. cbn. lia.
Qed.

Lemma broker_avg_rtt_after_reset_witness :
  calculate_broker_avg_rtt busy_consumer (Some (busy_broker 1))
  = Ok (doubleValue (inject_Z 50)) /\
  exists rk' s' rkb,
    reset_historical_metrics busy_consumer sample_env initial_state
    = Ok (rk', s') /\
    hd_error (rk_brokers rk') = Some rkb /\
    calculate_broker_avg_rtt rk' (Some rkb) = Ok (doubleValue 0).
Proof.
  split; [reflexivity|]. eexists _, _, _. split; [reflexivity|].
  split; [reflexivity|].
  refine (broker_avg_rtt_after_reset busy_consumer _ sample_env
            initial_state _ _ eq_refl _).
  left. reflexivity.
Defined.

Lemma sum_of_averages_no_new (cur hist : rd_kafka_broker_t -> rd_avg_t)
    (brokers : list rd_kafka_broker_t) (sum_value : Z) :
  Forall (fun rkb => cnt (ra_v (cur rkb)) <= cnt (ra_v (hist rkb))) brokers ->
  sum_of_averages cur hist brokers sum_value = Ok sum_value.
Proof.
  induction 1 as [|b bs Hb _ IH]; [reflexivity|].
  cbn [sum_of_averages]. rewrite (avg_since_baseline_no_new _ _ Hb).
  exact IH.
Qed.

Lemma reset_from_no_new (e : env) (cur hist : rd_kafka_broker_t -> rd_avg_t)
    (brokers : list rd_kafka_broker_t) (t : nat) :
  (forall now_ns b,
      cnt (ra_v (cur (reset_broker now_ns b)))
      <= cnt (ra_v (hist (reset_broker now_ns b)))) ->
  Forall (fun rkb => cnt (ra_v (cur rkb)) <= cnt (ra_v (hist rkb)))
         (reset_from e t brokers).
Proof.
  intros H. apply Forall_forall. intros b' Hin.
  destruct (reset_from_In _ _ _ _ Hin) as (n & b & _ & ->). apply H.
Qed.

(** X5. Right after a reset the average throttle time and the average
    queue time are 0 for every client whose broker count is not 0. *)
Theorem avg_calculators_after_reset (rk rk' : rd_kafka_t) (e : env)
    (s s' : mstate) (broker : option rd_kafka_broker_t) :
  reset_historical_metrics rk e s = Ok (rk', s') ->
  rk_broker_cnt rk <> 0 ->
  calculate_throttle_avg rk' broker = Ok (intValue 0) /\
  calculate_queue_time_avg rk' broker = Ok (intValue 0).
Proof.
  intros Hr Hc. rewrite (reset_brokers_of _ _ _ _ _ Hr).
  unfold calculate_throttle_avg, calculate_queue_time_avg.
  cbn [rk_brokers rk_broker_cnt set_rk_brokers].
  rewrite !sum_of_averages_no_new
    by (apply reset_from_no_new; intros; cbn; lia).
  cbn [rbind]. unfold div64.
  apply Z.eqb_neq in Hc. rewrite Hc. cbn [andb Z.eqb]. cbn.
  split; reflexivity.
Qed.

Lemma avg_calculators_after_reset_witness :
  calculate_throttle_avg busy_consumer None = Ok (intValue 20) /\
  exists rk' s',
    reset_historical_metrics busy_consumer sample_env initial_state
    = Ok (rk', s') /\
    calculate_throttle_avg rk' None = Ok (intValue 0) /\
    calculate_queue_time_avg rk' None = Ok (intValue 0).
Proof.
  split; [reflexivity|]. eexists _, _. split; [reflexivity|].
  refine (avg_calculators_after_reset busy_consumer _ sample_env
            initial_state _ None eq_refl _).
  discriminate.
Defined.

(** ** Assigned partitions *)

Lemma wrap_sub_l (w a b : Z) :
  0 < w -> wrap w (wrap w a - b) = wrap w (a - b).
Proof.
  intros Hw. apply wrap_congr; [exact Hw|].
  rewrite <- Zminus_mod_idemp_l, wrap_mod by exact Hw.
  apply Zminus_mod_idemp_l.
Qed.

Lemma assigned_partitions_loop (brokers : list rd_kafka_broker_t)
    (total : Z) :
  fold_left
    (fun total rkb =>
       wrap32 (wrap32 (total + rkb_toppar_cnt rkb)
               - h_assigned_partitions (rkb_c_historic rkb)))
    brokers (wrap32 total)
  = wrap32 (total + partitions_delta_sum brokers).
Proof.
  revert total. induction brokers as [|b bs IH]; intros total.
  - cbn. unfold partitions_delta_sum. cbn. rewrite Z.add_0_r. reflexivity.
  - cbn [fold_left].
    assert (E : wrap32 (wrap32 (wrap32 total + rkb_toppar_cnt b)
                        - h_assigned_partitions (rkb_c_historic b))
                = wrap32 (total + (rkb_toppar_cnt b
                                   - h_assigned_partitions
                                       (rkb_c_historic b)))).
    { unfold wrap32. rewrite wrap_sub_l by lia.
      replace (wrap 32 total + rkb_toppar_cnt b
               - h_assigned_partitions (rkb_c_historic b))
        with (wrap 32 total
              + (rkb_toppar_cnt b
                 - h_assigned_partitions (rkb_c_historic b))) by lia.
      apply wrap_add_l. lia. }
    rewrite E, IH. unfold partitions_delta_sum. cbn [map fold_right].
    f_equal. lia.
Qed.

(** X6. The assigned-partitions value is, on 32 bits, the sum over the
    brokers of the partition count minus its baseline: the exact sum when
    it fits 32 bits, and 0 right after a reset. *)
Theorem consumer_assigned_partitions_value (rk : rd_kafka_t)
    (broker : option rd_kafka_broker_t) :
  calculate_consumer_assigned_partitions rk broker =
  Ok (intValue (wrap32 (partitions_delta_sum (rk_brokers rk)))) /\
  (in_int32 (partitions_delta_sum (rk_brokers rk)) ->
   calculate_consumer_assigned_partitions rk broker =
   Ok (intValue (partitions_delta_sum (rk_brokers rk)))) /\
  (forall e s rk' s',
      reset_historical_metrics rk e s = Ok (rk', s') ->
      calculate_consumer_assigned_partitions rk' broker = Ok (intValue 0)).
Proof.
  assert (H : forall r,
             calculate_consumer_assigned_partitions r broker =
             Ok (intValue (wrap32 (partitions_delta_sum (rk_brokers r))))).
  { intros r. unfold calculate_consumer_assigned_partitions.
    change 0 with (wrap32 0) at 1. rewrite assigned_partitions_loop.
    reflexivity. }
  split; [apply H|]. split.
  - intros Hr. rewrite H, wrap32_id by exact Hr. reflexivity.
  - intros e s rk' s' Hr. rewrite H, (reset_brokers_of _ _ _ _ _ Hr).
    cbn [rk_brokers set_rk_brokers].
    assert (Hz : forall t bs, partitions_delta_sum (reset_from e t bs) = 0).
    { intros t bs. revert t. induction bs as [|b bs IH]; intros t;
        [reflexivity|].
      unfold partitions_delta_sum in *. cbn [reset_from map fold_right].
      rewrite IH. cbn. lia. }
    rewrite Hz. reflexivity.
Qed.

Lemma consumer_assigned_partitions_value_witness :
  calculate_consumer_assigned_partitions busy_consumer None
  = Ok (intValue 12) /\
  exists rk' s',
    reset_historical_metrics busy_consumer sample_env initial_state
    = Ok (rk', s') /\
    calculate_consumer_assigned_partitions rk' None = Ok (intValue 0).
Proof.
  split.
  - refine (proj1 (proj2 (consumer_assigned_partitions_value busy_consumer
                            None)) _).
    vm_compute. split; [discriminate|reflexivity].
  - eexists _, _. split; [reflexivity|].
    exact (proj2 (proj2 (consumer_assigned_partitions_value busy_consumer
                           None))
             sample_env initial_state _ _ eq_refl).
Defined.

(** ** Maxima *)

Lemma max_interval_nonneg (stat : rd_kafka_broker_t -> rd_avg_t)
    (brokers : list rd_kafka_broker_t) : 0 <= max_interval stat brokers.
Proof. unfold max_interval. induction brokers as [|b bs IH]; cbn; lia. Qed.

Lemma max_loop (stat : rd_kafka_broker_t -> rd_avg_t)
    (brokers : list rd_kafka_broker_t) (m : Z) :
  0 <= m ->
  fold_left (fun m rkb => Z.max m (maxv_interval (ra_v (stat rkb))))
    brokers m
  = Z.max m (max_interval stat brokers).
Proof.
  revert m. induction brokers as [|b bs IH]; intros m Hm.
  - cbn. unfold max_interval. cbn. lia.
  - cbn [fold_left]. rewrite IH by lia.
    pose proof (max_interval_nonneg stat bs) as Hn.
    unfold max_interval in *. cbn [map fold_right]. lia.
Qed.

Lemma max_interval_ge (stat : rd_kafka_broker_t -> rd_avg_t)
    (brokers : list rd_kafka_broker_t) (rkb : rd_kafka_broker_t) :
  In rkb brokers ->
  maxv_interval (ra_v (stat rkb)) <= max_interval stat brokers.
Proof.
  unfold max_interval. induction brokers as [|b bs IH]; [contradiction|].
  intros [<-|H]; cbn [map fold_right]; [lia|].
  specialize (IH H). lia.
Qed.

Lemma max_interval_attained (stat : rd_kafka_broker_t -> rd_avg_t)
    (brokers : list rd_kafka_broker_t) :
  max_interval stat brokers = 0 \/
  exists rkb, In rkb brokers /\
              max_interval stat brokers = maxv_interval (ra_v (stat rkb)).
Proof.
  unfold max_interval. induction brokers as [|b bs IH]; [left; reflexivity|].
  cbn [map fold_right].
  destruct (Z.max_spec (maxv_interval (ra_v (stat b)))
              (fold_right Z.max 0
                 (map (fun rkb => maxv_interval (ra_v (stat rkb))) bs)))
    as [[_ ->]|[_ ->]].
  - destruct IH as [IH|(r & Hin & IH)]; [left; exact IH|].
    right. exists r. split; [right; exact Hin|exact IH].
  - right. exists b. split; [left; reflexivity|reflexivity].
Qed.

(** X7. The maximum throttle time and the maximum queue time are never
    negative, are at least the millisecond maximum of every linked broker,
    and are 0 or the millisecond maximum of one of them. *)
Theorem max_calculators_value (rk : rd_kafka_t)
    (broker : option rd_kafka_broker_t) :
  exists v w,
    calculate_throttle_max rk broker = Ok (intValue v) /\
    max_over_brokers rkb_avg_throttle (rk_brokers rk) v /\
    calculate_queue_time_max rk broker = Ok (intValue w) /\
    max_over_brokers rkb_avg_outbuf_latency (rk_brokers rk) w.
Proof.
  assert (G : forall stat,
             max_over_brokers stat (rk_brokers rk)
               (Z.quot (max_interval stat (rk_brokers rk)) 1000000)).
  { intros stat.
    pose proof (max_interval_nonneg stat (rk_brokers rk)) as Hn.
    split; [apply Z.quot_pos; lia|]. split.
    - intros rkb Hin. apply Z.quot_le_mono; [lia|].
      apply max_interval_ge. exact Hin.
    - destruct (max_interval_attained stat (rk_brokers rk))
        as [->|(r & Hin & ->)].
      + left. reflexivity.
      + right. exists r. split; [exact Hin|reflexivity]. }
  eexists _, _.
  unfold calculate_throttle_max, calculate_queue_time_max.
  rewrite !max_loop by lia.
  rewrite !Z.max_r by apply max_interval_nonneg.
  split; [reflexivity|]. split; [apply G|]. split; [reflexivity|apply G].
Qed.

Lemma max_interval_reset (stat : rd_kafka_broker_t -> rd_avg_t) (e : env)
    (brokers : list rd_kafka_broker_t) :
  (forall now_ns b,
      maxv_interval (ra_v (stat (reset_broker now_ns b)))
      = maxv_interval (ra_v (stat b))) ->
  forall t, max_interval stat (reset_from e t brokers)
            = max_interval stat brokers.
Proof.
  intros H. unfold max_interval.
  induction brokers as [|b bs IH]; intros t; [reflexivity|].
  cbn [reset_from map fold_right]. rewrite H, IH. reflexivity.
Qed.

(** X8. A reset does not change what the three maximum calculators report:
    it raises the [maxv_reset] flags and leaves the maxima in place. *)
Theorem max_calculators_unchanged_by_reset (rk rk' : rd_kafka_t) (e : env)
    (s s' : mstate) (broker : option rd_kafka_broker_t) :
  reset_historical_metrics rk e s = Ok (rk', s') ->
  calculate_throttle_max rk' broker = calculate_throttle_max rk broker /\
  calculate_queue_time_max rk' broker = calculate_queue_time_max rk broker /\
  forall i b b',
    nth_error (rk_brokers rk) i = Some b ->
    nth_error (rk_brokers rk') i = Some b' ->
    calculate_broker_max_rtt rk' (Some b') =
    calculate_broker_max_rtt rk (Some b).
Proof.
  intros Hr. rewrite (reset_brokers_of _ _ _ _ _ Hr).
  unfold calculate_throttle_max, calculate_queue_time_max.
  cbn [rk_brokers set_rk_brokers]. rewrite !max_loop by lia.
  rewrite !max_interval_reset by reflexivity.
  split; [reflexivity|]. split; [reflexivity|].
  intros i b b' Hb Hb'. rewrite (reset_from_nth _ _ _ _ _ Hb) in Hb'.
  injection Hb' as <-. reflexivity.
Qed.

Lemma max_calculators_unchanged_by_reset_witness :
  exists rk' s',
    reset_historical_metrics busy_consumer sample_env initial_state
    = Ok (rk', s') /\
    calculate_throttle_max rk' None = Ok (intValue 40).
Proof.
  eexists _, _. split; [reflexivity|].
  rewrite (proj1 (max_calculators_unchanged_by_reset busy_consumer _
                    sample_env initial_state _ None eq_refl)).
  reflexivity.
Defined.

(** ** Brokers without new observations *)

Lemma sum_of_averages_filter (cur hist : rd_kafka_broker_t -> rd_avg_t)
    (brokers : list rd_kafka_broker_t) :
  forall sum_value,
    sum_of_averages cur hist
      (filter (has_new_observations cur hist) brokers) sum_value
    = sum_of_averages cur hist brokers sum_value.
Proof.
  induction brokers as [|b bs IH]; intros sum_value; [reflexivity|].
  cbn [filter]. unfold has_new_observations at 1.
  destruct (cnt (ra_v (hist b)) <? cnt (ra_v (cur b))) eqn:Hn.
  - cbn [sum_of_averages].
    destruct (avg_since_baseline (cur b) (hist b)) as [[q|]|f];
      cbn [rbind]; [apply IH|apply IH|reflexivity].
  - cbn [sum_of_averages]. unfold avg_since_baseline. rewrite Hn.
    cbn [rbind]. apply IH.
Qed.

(** X9. The brokers whose count has not passed its baseline play no part in
    the sum of the two average calculators, but they still count in the
    divisor, which is the broker count of the client: unlinking them
    changes neither value. *)
Theorem avg_calculators_ignore_stale_brokers (rk : rd_kafka_t)
    (broker : option rd_kafka_broker_t) :
  calculate_throttle_avg
    (set_rk_brokers rk
       (filter (has_new_observations rkb_avg_throttle
                  (fun rkb => h_rkb_avg_throttle (rkb_c_historic rkb)))
               (rk_brokers rk))) broker
  = calculate_throttle_avg rk broker /\
  calculate_queue_time_avg
    (set_rk_brokers rk
       (filter (has_new_observations rkb_avg_outbuf_latency
                  (fun rkb => h_rkb_avg_outbuf_latency (rkb_c_historic rkb)))
               (rk_brokers rk))) broker
  = calculate_queue_time_avg rk broker.
Proof.
  unfold calculate_throttle_avg, calculate_queue_time_avg.
  cbn [rk_brokers rk_broker_cnt set_rk_brokers].
  rewrite !sum_of_averages_filter. split; reflexivity.
Qed.

(** ** Calculators and the broker argument *)

Lemma table_get_nth {A} (table : list A) (idx : Z) (a : A) :
  table_get table idx = Ok a ->
  exists n, idx = Z.of_nat n /\ nth_error table n = Some a.
Proof.
  unfold table_get. destruct (idx <? 0) eqn:Hneg; [discriminate|].
  destruct (nth_error table (Z.to_nat idx)) as [x|] eqn:E; [|discriminate].
  intros H. injection H as <-. exists (Z.to_nat idx).
  apply Z.ltb_ge in Hneg. split; [lia|exact E].
Qed.

Lemma avg_since_baseline_fault (cur hist : rd_avg_t) (f : fault) :
  avg_since_baseline cur hist = Fault f -> f = DivisionFault.
Proof.
  unfold avg_since_baseline, div64.
  destruct (_ <? _); [|discriminate].
  destruct (_ =? 0); cbn [rbind]; [intros H; injection H as <-; reflexivity|].
  destruct (_ && _); cbn [rbind]; [|discriminate].
  intros H; injection H as <-; reflexivity.
Qed.

Lemma sum_of_averages_fault (cur hist : rd_kafka_broker_t -> rd_avg_t)
    (brokers : list rd_kafka_broker_t) :
  forall sum_value f,
    sum_of_averages cur hist brokers sum_value = Fault f ->
    f = DivisionFault.
Proof.
  induction brokers as [|b bs IH]; intros sum_value f H; [discriminate H|].
  cbn [sum_of_averages] in H.
  destruct (avg_since_baseline (cur b) (hist b)) as [[q|]|f0] eqn:E;
    cbn [rbind] in H.
  - exact (IH _ _ H).
  - exact (IH _ _ H).
  - injection H as <-. exact (avg_since_baseline_fault _ _ _ E).
Qed.

Lemma avg_over_brokers_fault (cur hist : rd_kafka_broker_t -> rd_avg_t)
    (brokers : list rd_kafka_broker_t) (broker_count : Z) (f : fault) :
  rbind (sum_of_averages cur hist brokers 0)
    (fun sum_value =>
       rbind (div64 sum_value broker_count) (fun q => Ok (intValue q)))
  = Fault f -> f = DivisionFault.
Proof.
  destruct (sum_of_averages cur hist brokers 0) as [v|f0] eqn:E;
    cbn [rbind].
  - unfold div64. destruct (_ =? 0); cbn [rbind];
      [intros H; injection H as <-; reflexivity|].
    destruct (_ && _); cbn [rbind]; [|discriminate].
    intros H; injection H as <-; reflexivity.
  - intros H. injection H as <-. exact (sum_of_averages_fault _ _ _ _ _ E).
Qed.

(** X10. For a producer or a consumer, [is_per_broker_metric] holds of
    exactly the metrics whose calculator reads its broker argument: the
    calculator of any other metric never dereferences the NULL broker it
    is given, and the calculator of a broker-scoped metric does. *)
Theorem calculators_and_null_broker (rk : rd_kafka_t) (id : Z)
    (calc : rd_kafka_telemetry_metric_value_calculator_t)
    (e : env) (s : mstate) :
  rk_type rk <> RD_KAFKA_TYPE_OTHER ->
  table_get (if rd_kafka_type_eqb (rk_type rk) RD_KAFKA_PRODUCER
             then PRODUCER_METRIC_VALUE_CALCULATORS
             else CONSUMER_METRIC_VALUE_CALCULATORS) id = Ok calc ->
  (is_per_broker_metric rk id = false ->
   calc rk None e s <> Fault NullDeref) /\
  (is_per_broker_metric rk id = true ->
   calc rk None e s = Fault NullDeref).
Proof.
  intros Hty Hget. apply table_get_nth in Hget as (n & -> & Hn).
  assert (Hthr : calculate_throttle_avg rk None <> Fault NullDeref).
  { intros H. apply avg_over_brokers_fault in H. discriminate H. }
  assert (Hq : calculate_queue_time_avg rk None <> Fault NullDeref).
  { intros H. apply avg_over_brokers_fault in H. discriminate H. }
  assert (Hl : forall f r,
             f rk None = r -> r <> Fault NullDeref ->
             pure_calculator f rk None e s <> Fault NullDeref).
  { intros f r <- Hr. unfold pure_calculator, lift.
    destruct (f rk None) as [v|f0]; [discriminate|].
    intros H. injection H as ->. apply Hr. reflexivity. }
  unfold is_per_broker_metric.
  destruct (rk_type rk); [| |contradiction]; cbn [rd_kafka_type_eqb] in *;
    destruct n as [|[|[|[|[|[|[|[|n]]]]]]]]; cbn in Hn; try discriminate Hn.
  all: try (destruct n; discriminate Hn).
  all: injection Hn as <-; cbn; split; intros Hp; try discriminate Hp;
       try reflexivity; try discriminate.
  all: try (rewrite rate_value; discriminate).
  all: eapply Hl; [reflexivity|]; assumption.
Qed.

Lemma calculators_and_null_broker_witness :
  pure_calculator calculate_throttle_avg busy_producer None sample_env
    initial_state <> Fault NullDeref /\
  pure_calculator calculate_broker_avg_rtt busy_producer None sample_env
    initial_state = Fault NullDeref.
Proof.
  split.
  - refine (proj1 (calculators_and_null_broker busy_producer 4 _ sample_env
                     initial_state _ eq_refl) eq_refl).
    discriminate.
  - refine (proj2 (calculators_and_null_broker busy_producer 2 _ sample_env
                     initial_state _ eq_refl) eq_refl).
    discriminate.
Defined.

(** ** Resource attributes, by what the accessors yield *)

(** X11. For a producer or a consumer whose accessors all return, the
    builder returns count 0 and no array when none yields a value, count 1
    and the attribute when exactly one does, and accesses memory out of
    bounds when two or more do. *)
Theorem resource_attributes_by_number_yielded (rk : rd_kafka_t)
    (l : list rd_kafka_telemetry_resource_attribute_t) :
  rk_type rk <> RD_KAFKA_TYPE_OTHER ->
  yielded rk (role_attributes rk) = Ok l ->
  resource_attributes rk =
  match l with
  | [] => Ok (0, [])
  | [w] => Ok (1, [Some w])
  | _ :: _ :: _ => Fault OutOfBounds
  end.
Proof.
  intros Hty Hy. destruct l as [|w l].
  - apply resource_attributes_none_yielded. exact Hy.
  - rewrite (resource_attributes_by_yield rk w l Hty Hy).
    destruct l; reflexivity.
Qed.

Lemma resource_attributes_by_number_yielded_witness :
  resource_attributes (consumer_in_group None)
  = Ok (1, [Some (Attr "group_id" "g")]) /\
  resource_attributes producer_with_rack_and_transactional_id
  = Fault OutOfBounds.
Proof.
  split.
  - refine (resource_attributes_by_number_yielded (consumer_in_group None)
              [Attr "group_id" "g"] _ eq_refl).
    discriminate.
  - refine (resource_attributes_by_number_yielded
              producer_with_rack_and_transactional_id
              [Attr "client_rack" "r"; Attr "transactional_id" "t"] _
              eq_refl).
    discriminate.
Defined.

(** X12. The builder dereferences NULL exactly for a consumer that has no
    consumer group handle: [get_member_id] reads [rk->rk_cgrp] without a
    test, and nothing else in the builder can. *)
Theorem resource_attributes_null_deref (rk : rd_kafka_t) :
  resource_attributes rk = Fault NullDeref <->
  rk_type rk = RD_KAFKA_CONSUMER /\ rk_cgrp rk = None.
Proof.
  destruct rk as [ty name [rack gid giid tid] cg bs c dt mm].
  unfold resource_attributes, producer_attributes, consumer_attributes.
  cbn [rk_type rk_cgrp].
  split.
  - destruct ty; [| |discriminate].
    + cbn. unfold get_client_rack. cbn.
      destruct rack as [k|]; [destruct (negb _)|]; destruct tid; cbn;
        discriminate.
    + destruct cg as [[mid]|]; [|intros _; split; reflexivity].
      cbn. unfold get_client_rack, get_member_id. cbn.
      destruct rack as [k|]; [destruct (negb _)|];
        destruct gid, giid; destruct mid as [k2|];
        try destruct (0 <? kstr_len k2); cbn; discriminate.
  - intros [-> ->]. cbn. unfold get_client_rack. cbn.
    destruct rack as [k|]; [destruct (negb _)|]; destruct gid, giid;
      reflexivity.
Qed.

Lemma resource_attributes_null_deref_witness :
  resource_attributes consumer_without_group = Fault NullDeref.
Proof.
  apply (proj2 (resource_attributes_null_deref consumer_without_group)).
  split; reflexivity.
Defined.

(** ** The entries of the tree, one by one *)

Section Entries.

Variable cat : catalog_t.
Variable rk : rd_kafka_t.

Lemma serializeMetricData_entry (id : Z) (rkb : option rd_kafka_broker_t)
    (calc : rd_kafka_telemetry_metric_value_calculator_t)
    (is_per_broker : bool) (now_ns : Z) (e : env) (s s' : mstate)
    (m : Metric) :
  table_get (calculators_of rk) id = Ok calc ->
  serializeMetricData cat rk rkb
    (table_get (RD_KAFKA_TELEMETRY_METRIC_INFO cat rk) id)
    calc is_per_broker now_ns e s = Ok (m, s') ->
  entry_of cat rk (id, rkb) m.
Proof.
  unfold serializeMetricData. intros Hc H.
  inv_step H. inv_step Hm. inv_step H. inv_step H. inv_step Hm1.
  inv_step H. inv_step Hm2. inv_step H.
  exists a, calc, e, s, s0, a0. cbn [fst snd].
  split; [exact Hm|]. split; [exact Hc|]. split; [exact Hm0|].
  unfold kind_of, data_point_of. cbn.
  destruct (mi_type a); cbn; repeat split; reflexivity.
Qed.

Lemma per_broker_nodes_entries (id : Z)
    (calc : rd_kafka_telemetry_metric_value_calculator_t)
    (now_ns total : Z) (brokers : list rd_kafka_broker_t) :
  table_get (calculators_of rk) id = Ok calc ->
  forall nodes e s out s',
    per_broker_nodes cat rk
      (table_get (RD_KAFKA_TELEMETRY_METRIC_INFO cat rk) id)
      calc now_ns total brokers nodes e s = Ok (out, s') ->
    exists new,
      out = nodes ++ new /\
      Forall2 (entry_of cat rk) (map (fun rkb => (id, Some rkb)) brokers) new.
Proof.
  intros Hc. induction brokers as [|b bs IH]; intros nodes e s out s' H.
  - cbn in H. inv_step H. exists []. rewrite app_nil_r.
    split; [reflexivity|constructor].
  - cbn [per_broker_nodes] in H. inv_step H. inv_step Hm. inv_step H.
    pose proof (serializeMetricData_entry _ _ _ _ _ _ _ _ _ Hc Hm0) as He.
    destruct (IH _ _ _ _ _ H) as (new & -> & Hall).
    eexists (_ :: new). rewrite <- app_assoc. cbn [app map].
    split; [reflexivity|]. constructor; [exact He|exact Hall].
Qed.

Lemma metric_nodes_entries (now_ns total : Z) (ids : list Z) :
  forall nodes e s out s',
    metric_nodes cat rk now_ns total ids nodes e s = Ok (out, s') ->
    exists new,
      out = nodes ++ new /\
      Forall2 (entry_of cat rk) (node_sources rk ids) new.
Proof.
  induction ids as [|id rest IH]; intros nodes e s out s' H.
  - cbn in H. inv_step H. exists []. rewrite app_nil_r.
    split; [reflexivity|constructor].
  - cbn [metric_nodes] in H. inv_step H. inv_step Hm.
    fold (calculators_of rk) in Hm.
    unfold node_sources. cbn [flat_map]. fold (node_sources rk rest).
    destruct (is_per_broker_metric rk id) eqn:Hpb.
    + inv_step H.
      destruct (per_broker_nodes_entries id _ _ _ _ Hm _ _ _ _ _ Hm0)
        as (new1 & -> & Ha1).
      destruct (IH _ _ _ _ _ H) as (new2 & -> & Ha2).
      exists (new1 ++ new2). rewrite app_assoc. split; [reflexivity|].
      apply Forall2_app; assumption.
    + inv_step H. inv_step Hm0. inv_step H.
      pose proof (serializeMetricData_entry _ _ _ _ _ _ _ _ _ Hm Hm1) as He.
      destruct (IH _ _ _ _ _ H) as (new2 & -> & Ha2).
      eexists (_ :: new2). rewrite <- app_assoc. cbn [app].
      split; [reflexivity|]. constructor; [exact He|exact Ha2].
Qed.

Lemma build_tree_nodes (e : env) (s s' : mstate) (md : MetricsData) :
  build_tree cat rk e s = Ok (md, s') ->
  exists s0 s1,
    metric_nodes cat rk (wrap64 (uclock e (clock_ticks s) * 1000))
      (total_metrics_count rk) (matched_metrics rk) [] e s0
    = Ok (metric_entries md, s1) /\
    Z.of_nat (List.length (metric_entries md)) = total_metrics_count rk.
Proof.
  unfold build_tree. intros H.
  inv_step H. injection Hm as <- <-.
  inv_step H. inv_step Hm. inv_step H. inv_step Hm0.
  inv_step H. inv_step H. inv_step Hm2.
  unfold metrics_repeated in Hm2.
  destruct (Z.of_nat (List.length a1) =? total_metrics_count rk) eqn:Ht;
    [|discriminate Hm2].
  injection Hm2 as <-. apply Z.eqb_eq in Ht.
  destruct (0 <? total_metrics_count rk) eqn:Hpos; inv_step H.
  - unfold metric_entries. cbn. rewrite !app_nil_r.
    eexists _, _. split; [exact Hm1|exact Ht].
  - apply Z.ltb_ge in Hpos.
    assert (a1 = []) by (destruct a1; [reflexivity|cbn in Ht; lia]).
    subst a1. unfold metric_entries. cbn.
    eexists _, _. split; [exact Hm1|exact Ht].
Qed.



(** X15. Whenever the call returns, with a buffer or with NULL, the
    [total_metrics_count] of the first loop is the number of nodes the
    enabled list expands to; a buffer that is returned holds that many
    metric entries. *)
Theorem returned_call_entry_count (e : env) (s s' : mstate)
    (out : option MetricsData) (rk' : rd_kafka_t) :
  rd_kafka_telemetry_encode_metrics cat rk e s = Ok ((out, rk'), s') ->
  total_metrics_count rk
  = Z.of_nat (expected_nodes rk (matched_metrics rk)) /\
  forall md, out = Some md ->
    List.length (metric_entries md) = expected_nodes rk (matched_metrics rk).
Proof.
  intros H. destruct (build_tree cat rk e s) as [[a s1]|f] eqn:Hb.
  - destruct (build_tree_nodes _ _ _ _ Hb) as (s2 & s3 & _ & Hc).
    destruct (build_tree_entries _ _ _ _ _ _ Hb) as [Hl _].
    split; [rewrite <- Hl, Hc; reflexivity|].
    intros md ->. rewrite (encode_after_build _ _ _ _ _ _ Hb) in H.
    destruct (all_passes_ok e); [|discriminate H].
    injection H as -> _ _. exact Hl.
  - unfold rd_kafka_telemetry_encode_metrics, bind in H.
    rewrite Hb in H. discriminate H.
Qed.

End Entries.



Lemma returned_call_entry_count_witness :
  exists md rk' s',
    rd_kafka_telemetry_encode_metrics sample_catalog two_latencies sample_env
      initial_state = Ok ((Some md, rk'), s') /\
    total_metrics_count two_latencies = 4 /\
    List.length (metric_entries md) = 4%nat.
Proof.
  eexists _, _, _. split; [cbv; reflexivity|].
  destruct (returned_call_entry_count sample_catalog two_latencies
              sample_env initial_state _ _ _ eq_refl) as [Ht Hl].
  split; [exact Ht|exact (Hl _ eq_refl)].
Defined.

(** ** The node count of the first loop *)

Lemma total_count_loop (rk : rd_kafka_t) (n : nat) :
  forall (a : nat) (total : Z),
    0 <= rk_broker_cnt rk < 2 ^ 31 ->
    Z.of_nat (per_broker_positions rk (seq a n)) <= total ->
    total + Z.of_nat n * 2 ^ 31 < 2 ^ 64 ->
    fold_left
      (fun total i =>
         if is_per_broker_metric rk (Z.of_nat i)
         then wrap_size (total + wrap32 (rk_broker_cnt rk - 1))
         else total)
      (seq a n) total
    = total + Z.of_nat (per_broker_positions rk (seq a n))
              * (rk_broker_cnt rk - 1).
Proof.
  change (2 ^ 31) with 2147483648. change (2 ^ 64) with 18446744073709551616.
  unfold per_broker_positions.
  induction n as [|n IH]; intros a total HB Hlo Hhi.
  - cbn. lia.
  - cbn [seq fold_left filter] in Hlo |- *.
    destruct (is_per_broker_metric rk (Z.of_nat a)) eqn:Hpb.
    + cbn [List.length] in Hlo |- *.
      assert (E : wrap_size (total + wrap32 (rk_broker_cnt rk - 1))
                  = total + (rk_broker_cnt rk - 1)).
      { rewrite wrap32_id
          by (unfold in_int32; change (2 ^ 31) with 2147483648; lia).
        unfold wrap_size. apply Z.mod_small.
        change (2 ^ 64) with 18446744073709551616. lia. }
      rewrite E, IH by lia. lia.
    + rewrite IH by lia. reflexivity.
Qed.

Lemma per_broker_positions_ids (rk : rd_kafka_t) (ids : list Z) :
  forall a,
    (forall i id, nth_error ids i = Some id ->
                  is_per_broker_metric rk (Z.of_nat (a + i))
                  = is_per_broker_metric rk id) ->
    per_broker_positions rk (seq a (List.length ids)) = per_broker_ids rk ids.
Proof.
  unfold per_broker_positions, per_broker_ids.
  induction ids as [|id rest IH]; intros a H; [reflexivity|].
  cbn [List.length seq filter].
  rewrite <- (H 0%nat id eq_refl), Nat.add_0_r.
  assert (Hr : List.length
                 (filter (fun i => is_per_broker_metric rk (Z.of_nat i))
                    (seq (S a) (List.length rest)))
               = List.length (filter (is_per_broker_metric rk) rest)).
  { apply IH. intros i x Hx. rewrite <- (H (S i) x Hx).
    f_equal. lia. }
  destruct (is_per_broker_metric rk (Z.of_nat a)); cbn [List.length];
    rewrite Hr; reflexivity.
Qed.

Lemma expected_nodes_count (rk : rd_kafka_t) (ids : list Z) :
  Z.of_nat (expected_nodes rk ids) =
  Z.of_nat (List.length ids)
  + Z.of_nat (per_broker_ids rk ids)
    * (Z.of_nat (List.length (rk_brokers rk)) - 1).
Proof.
  unfold expected_nodes, per_broker_ids, nodes_of_metric.
  induction ids as [|id rest IH]; [reflexivity|].
  cbn [map fold_right filter List.length].
  destruct (is_per_broker_metric rk id); cbn [List.length]; lia.
Qed.

Lemma per_broker_positions_le (rk : rd_kafka_t) (l : list nat) :
  (per_broker_positions rk l <= List.length l)%nat.
Proof. unfold per_broker_positions. apply filter_length_le. Qed.

(** X16. When every position of the enabled list holds a metric that is
    broker-scoped exactly when the enumerator equal to that position is,
    and the broker count of the client is the number of linked brokers,
    the first loop counts exactly the nodes the second loop builds. *)
Theorem total_metrics_count_position_consistent (rk : rd_kafka_t) :
  position_consistent rk ->
  rk_broker_cnt rk = Z.of_nat (List.length (rk_brokers rk)) ->
  rk_broker_cnt rk < 2 ^ 31 ->
  Z.of_nat (List.length (matched_metrics rk)) < 2 ^ 31 ->
  total_metrics_count rk
  = Z.of_nat (expected_nodes rk (matched_metrics rk)).
Proof.
  intros Hpc Hcnt HB HK. unfold total_metrics_count.
  pose proof (per_broker_positions_le rk
                (seq 0 (List.length (matched_metrics rk)))) as Hle.
  rewrite length_seq in Hle.
  change (2 ^ 31) with 2147483648 in *.
  rewrite total_count_loop
    by (change (2 ^ 31) with 2147483648;
        change (2 ^ 64) with 18446744073709551616; lia).
  rewrite (per_broker_positions_ids rk (matched_metrics rk) 0)
    by (intros i id Hi; apply (Hpc i id Hi)).
  rewrite expected_nodes_count, Hcnt. reflexivity.
Qed.

Lemma total_metrics_count_position_consistent_witness :
  total_metrics_count two_latencies = 4.
Proof.
  refine (total_metrics_count_position_consistent two_latencies _ eq_refl
            _ _).
  - intros [|[|[|[|i]]]] id H; cbn in H; try discriminate H;
      injection H as <-; reflexivity.
  - reflexivity.
  - reflexivity.
Defined.

(** ** The heap of one call *)

Lemma holds_ext (h : heap) (p q : block -> Prop) :
  holds h p -> (forall b, p b <-> q b) -> holds h q.
Proof.
  intros [Hn Hp] Hpq. split; [exact Hn|].
  intros b. rewrite Hp. apply Hpq.
Qed.

Lemma holds_malloc (h : heap) (live : block -> Prop) (b : block) :
  holds h live -> ~ live b ->
  holds (rd_malloc b h) (fun x => x = b \/ live x).
Proof.
  intros [Hn Hl] Hb. split.
  - constructor; [rewrite Hl; exact Hb|exact Hn].
  - intros x. cbn. rewrite Hl. split; intros [H|H]; auto.
Qed.

Lemma holds_free (h : heap) (live : block -> Prop) (b : block) :
  holds h live -> live b ->
  exists h', rd_free b h = Ok h' /\ holds h' (fun x => live x /\ x <> b).
Proof.
  intros [Hn Hl] Hb. unfold rd_free.
  destruct (in_dec block_eq_dec b h) as [Hin|Hin];
    [|exfalso; apply Hin, Hl, Hb].
  eexists. split; [reflexivity|]. split.
  - clear Hl Hin. induction Hn as [|x l Hx Hn IH]; cbn; [constructor|].
    destruct (block_eq_dec b x); [exact IH|].
    constructor; [|exact IH].
    intros H. apply in_remove in H. apply Hx, H.
  - intros x. split.
    + intros H. apply in_remove in H as [H1 H2].
      split; [apply Hl, H1|exact H2].
    + intros [H1 H2]. apply in_in_remove; [exact H2|apply Hl, H1].
Qed.

Lemma holds_nil_eq (h : heap) (live : block -> Prop) :
  holds h live -> (forall b, ~ live b) -> h = [].
Proof.
  intros [_ Hl] Hno. destruct h as [|x h]; [reflexivity|].
  exfalso. apply (Hno x), Hl. left. reflexivity.
Qed.

Lemma holds_singleton_eq (h : heap) (live : block -> Prop) (b : block) :
  holds h live -> (forall x, live x <-> x = b) -> h = [b].
Proof.
  intros [Hn Hl] Hb.
  destruct h as [|x h].
  - exfalso. apply (Hl b), Hb. reflexivity.
  - assert (x = b) by (apply Hb, Hl; left; reflexivity). subst x.
    destruct h as [|y h]; [reflexivity|].
    exfalso. assert (y = b) by (apply Hb, Hl; right; left; reflexivity).
    subst y. inversion Hn as [|? ? Hnin _]. apply Hnin. left. reflexivity.
Qed.

Lemma holds_alloc_nodes (built : nat) :
  forall (i : nat) (h : heap) (live : block -> Prop),
    holds h live ->
    (forall j b, (i <= j)%nat -> node_block j b -> ~ live b) ->
    holds (alloc_nodes i built h)
      (fun b => live b \/
                exists j, (i <= j < i + built)%nat /\ node_block j b).
Proof.
  induction built as [|n IH]; intros i h live Hh Hfresh.
  - cbn. apply (holds_ext _ _ _ Hh). intros b. split; [auto|].
    intros [H|(j & Hj & _)]; [exact H|lia].
  - cbn [alloc_nodes].
    assert (H1 : holds (rd_malloc (metric_block i) h)
                   (fun x => x = metric_block i \/ live x)).
    { apply holds_malloc; [exact Hh|].
      apply (Hfresh i); [lia|left; reflexivity]. }
    assert (H2 : holds (rd_malloc (data_point_block i)
                          (rd_malloc (metric_block i) h))
                   (fun x => x = data_point_block i \/
                             (x = metric_block i \/ live x))).
    { apply holds_malloc; [exact H1|].
      intros [H|H]; [discriminate H|].
      revert H. apply (Hfresh i); [lia|right; left; reflexivity]. }
    assert (H3 : holds (rd_malloc (metric_name_block i)
                          (rd_malloc (data_point_block i)
                             (rd_malloc (metric_block i) h)))
                   (fun x => x = metric_name_block i \/
                             (x = data_point_block i \/
                              (x = metric_block i \/ live x)))).
    { apply holds_malloc; [exact H2|].
      intros [H|[H|H]]; [discriminate H|discriminate H|].
      revert H. apply (Hfresh i); [lia|right; right; reflexivity]. }
    eapply holds_ext; [apply (IH (S i) _ _ H3)|].
    + intros j b Hj Hb [H|[H|[H|H]]].
      * subst b. destruct Hb as [Hb|[Hb|Hb]]; inversion Hb; lia.
      * subst b. destruct Hb as [Hb|[Hb|Hb]]; inversion Hb; lia.
      * subst b. destruct Hb as [Hb|[Hb|Hb]]; inversion Hb; lia.
      * revert H. apply (Hfresh j); [lia|exact Hb].
    + intros b. unfold node_block. split.
      * intros [[H|[H|[H|H]]]|(j & Hj & Hb)].
        -- right. exists i. split; [lia|auto].
        -- right. exists i. split; [lia|auto].
        -- right. exists i. split; [lia|auto].
        -- left. exact H.
        -- right. exists j. split; [lia|exact Hb].
      * intros [H|(j & Hj & Hb)]; [left; auto|].
        destruct (Nat.eq_dec j i) as [->|Hne].
        -- left. destruct Hb as [-> | [-> | ->]]; auto.
        -- right. exists j. split; [lia|exact Hb].
Qed.

Lemma holds_free_metrics_loop (built count : nat) :
  forall (i : nat) (h : heap) (live : block -> Prop),
    holds h live ->
    (i + count <= built)%nat ->
    (forall j b, (i <= j < i + count)%nat -> node_block j b -> live b) ->
    exists h',
      free_metrics_loop built i count h = Ok h' /\
      holds h' (fun b => live b /\
                         ~ exists j, (i <= j < i + count)%nat /\
                                     node_block j b).
Proof.
  induction count as [|c IH]; intros i h live Hh Hb Hlive.
  - exists h. split; [reflexivity|].
    apply (holds_ext _ _ _ Hh). intros b. split; [|tauto].
    intros H. split; [exact H|]. intros (j & Hj & _). lia.
  - cbn [free_metrics_loop].
    assert (Hlt : (i <? built)%nat = true) by (apply Nat.ltb_lt; lia).
    rewrite Hlt.
    destruct (holds_free _ _ (data_point_block i) Hh) as (h1 & -> & H1).
    { apply (Hlive i); [lia|right; left; reflexivity]. }
    cbn [rbind].
    destruct (holds_free _ _ (metric_name_block i) H1) as (h2 & -> & H2).
    { split; [|discriminate].
      apply (Hlive i); [lia|right; right; reflexivity]. }
    cbn [rbind].
    destruct (holds_free _ _ (metric_block i) H2) as (h3 & -> & H3).
    { split; [split|]; [|discriminate|discriminate].
      apply (Hlive i); [lia|left; reflexivity]. }
    cbn [rbind].
    destruct (IH (S i) _ _ H3) as (h' & Hf & H').
    + lia.
    + intros j b Hj Hnb. repeat split.
      * apply (Hlive j); [lia|exact Hnb].
      * intros ->. destruct Hnb as [H|[H|H]]; inversion H; lia.
      * intros ->. destruct Hnb as [H|[H|H]]; inversion H; lia.
      * intros ->. destruct Hnb as [H|[H|H]]; inversion H; lia.
    + exists h'. split; [exact Hf|].
      apply (holds_ext _ _ _ H'). intros b. unfold node_block. split.
      * intros [[[[Hl Hd] Hn] Hm] Hno]. split; [exact Hl|].
        intros (j & Hj & Hnb).
        destruct (Nat.eq_dec j i) as [->|Hne].
        -- destruct Hnb as [-> | [-> | ->]]; congruence.
        -- apply Hno. exists j. split; [lia|exact Hnb].
      * intros [Hl Hno]. repeat split.
        -- exact Hl.
        -- intros ->. apply Hno. exists i. split; [lia|auto].
        -- intros ->. apply Hno. exists i. split; [lia|auto].
        -- intros ->. apply Hno. exists i. split; [lia|auto].
        -- intros (j & Hj & Hnb). apply Hno. exists j.
           split; [lia|exact Hnb].
Qed.

Lemma free_metrics_loop_unwritten (built count : nat) :
  forall (i : nat) (h : heap) (live : block -> Prop),
    holds h live ->
    (i <= built < i + count)%nat ->
    (forall j b, (i <= j < built)%nat -> node_block j b -> live b) ->
    free_metrics_loop built i count h = Fault UninitRead.
Proof.
  induction count as [|c IH]; intros i h live Hh Hb Hlive; [lia|].
  cbn [free_metrics_loop].
  destruct (i <? built)%nat eqn:Hlt; [|reflexivity].
  apply Nat.ltb_lt in Hlt.
  destruct (holds_free _ _ (data_point_block i) Hh) as (h1 & -> & H1).
  { apply (Hlive i); [lia|right; left; reflexivity]. }
  cbn [rbind].
  destruct (holds_free _ _ (metric_name_block i) H1) as (h2 & -> & H2).
  { split; [|discriminate].
    apply (Hlive i); [lia|right; right; reflexivity]. }
  cbn [rbind].
  destruct (holds_free _ _ (metric_block i) H2) as (h3 & -> & H3).
  { split; [split|]; [|discriminate|discriminate].
    apply (Hlive i); [lia|left; reflexivity]. }
  cbn [rbind]. apply (IH (S i) _ _ H3); [lia|].
  intros j b Hj Hnb. repeat split.
  - apply (Hlive j); [lia|exact Hnb].
  - intros ->. destruct Hnb as [H|[H|H]]; inversion H; lia.
  - intros ->. destruct Hnb as [H|[H|H]]; inversion H; lia.
  - intros ->. destruct Hnb as [H|[H|H]]; inversion H; lia.
Qed.

Lemma holds_alloc_key_values (count : nat) :
  forall (i : nat) (h : heap) (live : block -> Prop),
    holds h live ->
    (forall j, (i <= j)%nat ->
               ~ live (resource_attributes_key_value_block j)) ->
    holds (alloc_key_values i count h)
      (fun b => live b \/
                exists j, (i <= j < i + count)%nat /\
                          b = resource_attributes_key_value_block j).
Proof.
  induction count as [|n IH]; intros i h live Hh Hfresh.
  - cbn. apply (holds_ext _ _ _ Hh). intros b. split; [auto|].
    intros [H|(j & Hj & _)]; [exact H|lia].
  - cbn [alloc_key_values].
    assert (H1 : holds (rd_malloc (resource_attributes_key_value_block i) h)
                   (fun x => x = resource_attributes_key_value_block i \/
                             live x)).
    { apply holds_malloc; [exact Hh|]. apply Hfresh. lia. }
    eapply holds_ext; [apply (IH (S i) _ _ H1)|].
    + intros j Hj [H|H]; [inversion H; lia|].
      revert H. apply Hfresh. lia.
    + intros b. split.
      * intros [[H|H]|(j & Hj & Hb)].
        -- right. exists i. split; [lia|exact H].
        -- left. exact H.
        -- right. exists j. split; [lia|exact Hb].
      * intros [H|(j & Hj & Hb)]; [left; right; exact H|].
        destruct (Nat.eq_dec j i) as [->|Hne].
        -- left. left. exact Hb.
        -- right. exists j. split; [lia|exact Hb].
Qed.

Lemma holds_free_key_values_loop (count : nat) :
  forall (i : nat) (h : heap) (live : block -> Prop),
    holds h live ->
    (forall j, (i <= j < i + count)%nat ->
               live (resource_attributes_key_value_block j)) ->
    exists h',
      free_key_values_loop i count h = Ok h' /\
      holds h' (fun b => live b /\
                         ~ exists j, (i <= j < i + count)%nat /\
                                     b = resource_attributes_key_value_block j).
Proof.
  induction count as [|c IH]; intros i h live Hh Hlive.
  - exists h. split; [reflexivity|].
    apply (holds_ext _ _ _ Hh). intros b. split; [|tauto].
    intros H. split; [exact H|]. intros (j & Hj & _). lia.
  - cbn [free_key_values_loop].
    destruct (holds_free _ _ (resource_attributes_key_value_block i) Hh)
      as (h1 & -> & H1).
    { apply Hlive. lia. }
    cbn [rbind].
    destruct (IH (S i) _ _ H1) as (h' & Hf & H').
    + intros j Hj. split; [apply Hlive; lia|].
      intros H. inversion H. lia.
    + exists h'. split; [exact Hf|].
      apply (holds_ext _ _ _ H'). intros b. split.
      * intros [[Hl Hd] Hno]. split; [exact Hl|].
        intros (j & Hj & Hb).
        destruct (Nat.eq_dec j i) as [->|Hne]; [congruence|].
        apply Hno. exists j. split; [lia|exact Hb].
      * intros [Hl Hno]. repeat split.
        -- exact Hl.
        -- intros ->. apply Hno. exists i. split; [lia|reflexivity].
        -- intros (j & Hj & Hb). apply Hno. exists j.
           split; [lia|exact Hb].
Qed.

Ltac break_live :=
  repeat match goal with
         | H : _ /\ _ |- _ => destruct H
         | H : _ \/ _ |- _ => destruct H
         | H : exists _, _ |- _ => destruct H
         | H : False |- _ => contradiction
         | H : node_block _ _ |- _ => unfold node_block in H
         end.

(** The heap once the tree is built: the blocks of [allocated]. *)
Lemma holds_allocations (resource_attributes_count : Z) (built : nat) :
  0 <= resource_attributes_count ->
  holds
    (alloc_nodes 0 built
       (rd_malloc metric_names_block
          (rd_malloc datapoint_attributes_key_values_block
             (rd_malloc data_points_block
                (rd_malloc metrics_block
                   (if 0 <? resource_attributes_count
                    then alloc_key_values 0
                           (Z.to_nat resource_attributes_count)
                           (rd_malloc resource_attributes_key_values_block
                              (rd_malloc resource_attributes_struct_block
                                 []))
                    else []))))))
    (allocated resource_attributes_count built).
Proof.
  intros Hrac.
  assert (H0 : holds [] (fun _ => False)).
  { split; [constructor|]. intros b. split; intros []. }
  assert (H1 : holds
                 (if 0 <? resource_attributes_count
                  then alloc_key_values 0
                         (Z.to_nat resource_attributes_count)
                         (rd_malloc resource_attributes_key_values_block
                            (rd_malloc resource_attributes_struct_block []))
                  else [])
                 (fun b =>
                    match b with
                    | resource_attributes_struct_block
                    | resource_attributes_key_values_block =>
                        0 < resource_attributes_count
                    | resource_attributes_key_value_block j =>
                        Z.of_nat j < resource_attributes_count
                    | _ => False
                    end)).
  { destruct (0 <? resource_attributes_count) eqn:Hpos.
    - apply Z.ltb_lt in Hpos.
      eapply holds_ext.
      + apply holds_alloc_key_values.
        * apply holds_malloc; [apply holds_malloc; [exact H0|]|].
          -- intros [].
          -- intros [H|[]]. discriminate H.
        * intros j _ [H|[H|[]]]; discriminate H.
      + intros b. split.
        * intros H. break_live; subst; try lia.
        * destruct b; intros H; try contradiction.
          -- left. right. left. reflexivity.
          -- left. left. reflexivity.
          -- right. exists ind. split; [lia|reflexivity].
    - apply Z.ltb_ge in Hpos. apply (holds_ext _ _ _ H0).
      intros b. split; [intros []|]. destruct b; try tauto; lia. }
  eapply holds_ext.
  - apply holds_alloc_nodes.
    + apply holds_malloc; [apply holds_malloc; [apply holds_malloc;
        [apply holds_malloc; [exact H1|]|]|]|].
      * exact (fun H => H).
      * intros [H|H]; [discriminate H|exact H].
      * intros [H|[H|H]]; [discriminate H|discriminate H|exact H].
      * intros [H|[H|[H|H]]];
          [discriminate H|discriminate H|discriminate H|exact H].
    + intros j b _ Hb H. break_live; subst; try discriminate;
        try contradiction.
  - intros b. unfold allocated. split.
    + intros H. break_live; subst; try exact I; try lia;
        try (destruct b; try contradiction; assumption).
    + destruct b; intros H.
      * left. do 4 right. exact H.
      * left. do 4 right. exact H.
      * left. do 4 right. exact H.
      * left. right. right. right. left. reflexivity.
      * left. right. right. left. reflexivity.
      * left. right. left. reflexivity.
      * left. left. reflexivity.
      * right. exists i. split; [lia|left; reflexivity].
      * right. exists i. split; [lia|right; left; reflexivity].
      * right. exists i. split; [lia|right; right; reflexivity].
      * contradiction.
Qed.

(** The two release functions hand back every block of the tree and leave
    the buffer, if there is one. *)
Lemma holds_release (resource_attributes_count : Z) (built : nat)
    (with_buffer : Prop) (h : heap) :
  0 <= resource_attributes_count ->
  holds h (fun b => allocated resource_attributes_count built b \/
                    (with_buffer /\ b = buffer_block)) ->
  exists h',
    rbind (free_metrics built (Z.of_nat built) h)
      (free_resource_attributes resource_attributes_count) = Ok h' /\
    holds h' (fun b => with_buffer /\ b = buffer_block).
Proof.
  intros Hrac Hh. unfold free_metrics. rewrite Nat2Z.id.
  destruct (holds_free_metrics_loop built built 0 _ _ Hh)
    as (h1 & -> & H1); [lia| |].
  { intros j b Hj Hb. left. destruct Hb as [-> | [-> | ->]]; cbn; lia. }
  cbn [rbind].
  destruct (holds_free _ _ data_points_block H1) as (h2 & -> & H2).
  { split; [left; exact I|]. intros (j & _ & Hb).
    destruct Hb as [Hb|[Hb|Hb]]; discriminate Hb. }
  cbn [rbind].
  destruct (holds_free _ _ metric_names_block H2) as (h3 & -> & H3).
  { split; [split; [left; exact I|]|discriminate].
    intros (j & _ & Hb). destruct Hb as [Hb|[Hb|Hb]]; discriminate Hb. }
  cbn [rbind].
  destruct (holds_free _ _ metrics_block H3) as (h4 & -> & H4).
  { split; [split; [split; [left; exact I|]|discriminate]|discriminate].
    intros (j & _ & Hb). destruct Hb as [Hb|[Hb|Hb]]; discriminate Hb. }
  cbn [rbind].
  destruct (holds_free _ _ datapoint_attributes_key_values_block H4)
    as (h5 & -> & H5).
  { split; [split; [split; [split; [left; exact I|]|discriminate]
                   |discriminate]|discriminate].
    intros (j & _ & Hb). destruct Hb as [Hb|[Hb|Hb]]; discriminate Hb. }
  cbn [rbind]. unfold free_resource_attributes.
  destruct (resource_attributes_count =? 0) eqn:Hz.
  - apply Z.eqb_eq in Hz. exists h5. split; [reflexivity|].
    apply (holds_ext _ _ _ H5). intros b. split.
    + intros H. break_live; [|split; assumption].
      exfalso. destruct b; cbn in *; try lia; try congruence;
        match goal with
        | Hn : ~ (exists _, _) |- _ =>
            apply Hn; eexists; split; [|first [left; reflexivity
                                              |right; left; reflexivity
                                              |right; right; reflexivity]];
            lia
        end.
    + intros [Hw ->]. repeat split; try discriminate.
      * right. split; [exact Hw|reflexivity].
      * intros (j & _ & Hb). destruct Hb as [Hb|[Hb|Hb]]; discriminate Hb.
  - apply Z.eqb_neq in Hz.
    destruct (holds_free_key_values_loop
                (Z.to_nat resource_attributes_count) 0 _ _ H5)
      as (h6 & -> & H6).
    { intros j Hj. repeat split; try discriminate.
      - left. cbn. lia.
      - intros (k & _ & Hb). destruct Hb as [Hb|[Hb|Hb]]; discriminate Hb. }
    cbn [rbind].
    destruct (holds_free _ _ resource_attributes_struct_block H6)
      as (h7 & -> & H7).
    { repeat split; try discriminate.
      - left. cbn. lia.
      - intros (k & _ & Hb). destruct Hb as [Hb|[Hb|Hb]]; discriminate Hb.
      - intros (k & _ & Hb). discriminate Hb. }
    cbn [rbind].
    destruct (holds_free _ _ resource_attributes_key_values_block H7)
      as (h8 & -> & H8).
    { repeat split; try discriminate.
      - left. cbn. lia.
      - intros (k & _ & Hb). destruct Hb as [Hb|[Hb|Hb]]; discriminate Hb.
      - intros (k & _ & Hb). discriminate Hb. }
    exists h8. split; [reflexivity|].
    apply (holds_ext _ _ _ H8). intros b. split.
    + intros H. break_live; [|split; assumption].
      exfalso. destruct b; cbn in *; try lia; try congruence;
        match goal with
        | Hn : ~ (exists _, _ /\ node_block _ _) |- _ =>
            try (apply Hn; eexists; split;
                 [|first [left; reflexivity
                         |right; left; reflexivity
                         |right; right; reflexivity]]; lia)
        end.
      match goal with
      | Hn : ~ (exists _, _ /\ _ = _) |- _ =>
          apply Hn; exists ind; split; [lia|reflexivity]
      end.
    + intros [Hw ->]. repeat split; try discriminate.
      * right. split; [exact Hw|reflexivity].
      * intros (j & _ & Hb). destruct Hb as [Hb|[Hb|Hb]]; discriminate Hb.
      * intros (j & _ & Hb). discriminate Hb.
Qed.

Lemma encode_metrics_heap_released (resource_attributes_count : Z)
    (built : nat) (e : env) :
  0 <= resource_attributes_count ->
  encode_metrics_heap resource_attributes_count built (Z.of_nat built) e
  = Ok (if all_passes_ok e then [buffer_block] else []).
Proof.
  intros Hrac. unfold encode_metrics_heap, all_passes_ok.
  pose proof (holds_allocations resource_attributes_count built Hrac) as Ha.
  cbv zeta.
  replace (if 0 <? resource_attributes_count
           then alloc_key_values 0 (Z.to_nat resource_attributes_count)
                  (rd_malloc resource_attributes_key_values_block
                     (if 0 <? resource_attributes_count
                      then rd_malloc resource_attributes_struct_block []
                      else []))
           else if 0 <? resource_attributes_count
                then rd_malloc resource_attributes_struct_block []
                else [])
    with (if 0 <? resource_attributes_count
          then alloc_key_values 0 (Z.to_nat resource_attributes_count)
                 (rd_malloc resource_attributes_key_values_block
                    (rd_malloc resource_attributes_struct_block []))
          else [])
    by (destruct (0 <? resource_attributes_count); reflexivity).
  set (h := alloc_nodes 0 built _) in *.
  assert (Hfail : rbind (free_metrics built (Z.of_nat built) h)
                    (free_resource_attributes resource_attributes_count)
                  = Ok []).
  { destruct (holds_release resource_attributes_count built False h Hrac)
      as (h' & -> & H').
    - apply (holds_ext _ _ _ Ha). intros b. tauto.
    - f_equal. apply (holds_nil_eq _ _ H'). intros b [[] _]. }
  destruct (size_pass_ok e); cbn [negb andb]; [|exact Hfail].
  destruct (buffer_alloc_ok e); cbn [negb andb]; [|exact Hfail].
  assert (Hb : holds (rd_malloc buffer_block h)
                 (fun x => x = buffer_block \/
                           allocated resource_attributes_count built x)).
  { apply holds_malloc; [exact Ha|]. exact (fun H => H). }
  destruct (write_pass_ok e); cbn [negb].
  - destruct (holds_release resource_attributes_count built True
                (rd_malloc buffer_block h) Hrac) as (h' & Hrel & H').
    + apply (holds_ext _ _ _ Hb). intros b. tauto.
    + assert (h' = [buffer_block])
        by (apply (holds_singleton_eq _ _ _ H'); intros x; tauto).
      subst h'. exact Hrel.
  - destruct (holds_free _ _ buffer_block Hb) as (h1 & -> & H1);
      [left; reflexivity|].
    cbn [rbind].
    destruct (holds_release resource_attributes_count built False h1 Hrac)
      as (h' & Hrel & H').
    + apply (holds_ext _ _ _ H1). intros b. split.
      * intros [[->|H] Hne]; [congruence|left; exact H].
      * intros [H|[[] _]]. split; [right; exact H|].
        intros ->. exact H.
    + assert (h' = []) by (apply (holds_nil_eq _ _ H'); intros b [[] _]).
      subst h'. exact Hrel.
Qed.

(** X17. A call whose tree is built releases, whatever the outcome of the
    passes, every block it allocated for the attributes and the nodes,
    each once; what stays allocated when it returns is the buffer on
    success and nothing on failure. *)
Theorem encode_call_releases_everything (cat : catalog_t) (rk : rd_kafka_t)
    (e : env) (s s1 : mstate) (md : MetricsData) (ra : Z * attr_array) :
  build_tree cat rk e s = Ok (md, s1) ->
  resource_attributes rk = Ok ra ->
  encode_metrics_heap (fst ra) (List.length (metric_entries md))
    (total_metrics_count rk) e
  = Ok (if all_passes_ok e then [buffer_block] else []).
Proof.
  intros Hb Hra.
  destruct (build_tree_nodes _ _ _ _ _ _ Hb) as (s2 & s3 & _ & <-).
  apply encode_metrics_heap_released.
  destruct ra as [count arr]. cbn [fst].
  destruct (resource_attributes_shape _ _ _ Hra) as [[-> _]|[-> _]]; lia.
Qed.

Lemma encode_call_releases_everything_witness :
  exists md s1,
    build_tree sample_catalog two_latencies sample_env initial_state
    = Ok (md, s1) /\
    encode_metrics_heap 0 (List.length (metric_entries md))
      (total_metrics_count two_latencies) sample_env = Ok [buffer_block] /\
    encode_metrics_heap 0 (List.length (metric_entries md))
      (total_metrics_count two_latencies) write_pass_fails = Ok [].
Proof.
  eexists _, _. split; [cbv; reflexivity|]. split.
  - exact (encode_call_releases_everything sample_catalog two_latencies
             sample_env initial_state _ _ (0, []) eq_refl eq_refl).
  - exact (encode_call_releases_everything sample_catalog two_latencies
             write_pass_fails initial_state _ _ (0, []) eq_refl eq_refl).
Defined.

(** X18. When fewer nodes were built than the first loop counted,
    [free_metrics] goes on to the array elements that were never written:
    whatever the outcome of the passes, the release reads an uninitialised
    pointer. *)
Theorem free_metrics_reads_unwritten (resource_attributes_count : Z)
    (built : nat) (total_metrics_count : Z) (e : env) :
  0 <= resource_attributes_count ->
  Z.of_nat built < total_metrics_count ->
  encode_metrics_heap resource_attributes_count built total_metrics_count e
  = Fault UninitRead.
Proof.
  intros Hrac Hlt. unfold encode_metrics_heap.
  pose proof (holds_allocations resource_attributes_count built Hrac) as Ha.
  cbv zeta.
  replace (if 0 <? resource_attributes_count
           then alloc_key_values 0 (Z.to_nat resource_attributes_count)
                  (rd_malloc resource_attributes_key_values_block
                     (if 0 <? resource_attributes_count
                      then rd_malloc resource_attributes_struct_block []
                      else []))
           else if 0 <? resource_attributes_count
                then rd_malloc resource_attributes_struct_block []
                else [])
    with (if 0 <? resource_attributes_count
          then alloc_key_values 0 (Z.to_nat resource_attributes_count)
                 (rd_malloc resource_attributes_key_values_block
                    (rd_malloc resource_attributes_struct_block []))
          else [])
    by (destruct (0 <? resource_attributes_count); reflexivity).
  set (h := alloc_nodes 0 built _) in *.
  assert (G : forall h0 live,
             holds h0 live ->
             (forall b, allocated resource_attributes_count built b ->
                        live b) ->
             rbind (free_metrics built total_metrics_count h0)
               (free_resource_attributes resource_attributes_count)
             = Fault UninitRead).
  { intros h0 live Hh Hlive. unfold free_metrics.
    rewrite (free_metrics_loop_unwritten built
               (Z.to_nat total_metrics_count) 0 h0 live Hh); [reflexivity|lia|].
    intros j b Hj Hb. apply Hlive.
    destruct Hb as [-> | [-> | ->]]; cbn; lia. }
  destruct (size_pass_ok e); cbn [negb];
    [|exact (G _ _ Ha (fun b H => H))].
  destruct (buffer_alloc_ok e); cbn [negb];
    [|exact (G _ _ Ha (fun b H => H))].
  assert (Hb : holds (rd_malloc buffer_block h)
                 (fun x => x = buffer_block \/
                           allocated resource_attributes_count built x)).
  { apply holds_malloc; [exact Ha|]. exact (fun H => H). }
  destruct (write_pass_ok e); cbn [negb].
  - exact (G _ _ Hb (fun b H => or_intror H)).
  - destruct (holds_free _ _ buffer_block Hb) as (h1 & -> & H1);
      [left; reflexivity|].
    cbn [rbind]. apply (G _ _ H1). intros b H.
    split; [right; exact H|]. intros ->. exact H.
Qed.

Lemma free_metrics_reads_unwritten_witness :
  encode_metrics_heap 1 3 5 sample_env = Fault UninitRead.
Proof.
  apply free_metrics_reads_unwritten; [discriminate|reflexivity].
Defined.

(** ** Capture time and next baseline *)

Lemma ticks_grow_ret {A} (a : A) : ticks_grow (ret a).
Proof. intros e s x s' H. apply ret_ok in H as [_ ->]. apply Nat.le_refl. Qed.

Lemma ticks_grow_lift {A} (r : result A) : ticks_grow (lift r).
Proof. intros e s x s' H. apply lift_ok in H as [_ ->]. apply Nat.le_refl. Qed.

Lemma ticks_grow_bind {A B} (m : M A) (k : A -> M B) :
  ticks_grow m -> (forall a, ticks_grow (k a)) -> ticks_grow (bind m k).
Proof.
  intros Hm Hk e s b s' H. apply bind_ok in H as (a & s1 & H1 & H2).
  specialize (Hm _ _ _ _ H1). specialize (Hk _ _ _ _ _ H2). lia.
Qed.

Lemma ticks_grow_uclock : ticks_grow rd_uclock.
Proof. intros e s x s' H. injection H as _ <-. cbn. lia. Qed.

Lemma ticks_grow_calculators (rk : rd_kafka_t) (idx : Z)
    (calc : rd_kafka_telemetry_metric_value_calculator_t) :
  table_get (if rd_kafka_type_eqb (rk_type rk) RD_KAFKA_PRODUCER
             then PRODUCER_METRIC_VALUE_CALCULATORS
             else CONSUMER_METRIC_VALUE_CALCULATORS) idx = Ok calc ->
  forall rk' broker, ticks_grow (calc rk' broker).
Proof.
  intros H rk' broker. apply table_get_In in H.
  assert (Hr : ticks_grow (calculate_connection_creation_rate rk' broker)).
  { intros e s a s' Hc. rewrite rate_value in Hc. cbv zeta in Hc.
    injection Hc as _ <-. cbn. lia. }
  destruct (rd_kafka_type_eqb _ _); cbn in H;
    repeat (destruct H as [<-|H];
            [first [exact Hr | apply ticks_grow_lift]|]);
    contradiction.
Qed.

Lemma ticks_grow_serialize (cat : catalog_t) (rk : rd_kafka_t)
    (rkb : option rd_kafka_broker_t)
    (info : result rd_kafka_telemetry_metric_info_t)
    (calc : rd_kafka_telemetry_metric_value_calculator_t)
    (is_per_broker : bool) (now_ns : Z) :
  (forall rk' broker, ticks_grow (calc rk' broker)) ->
  ticks_grow (serializeMetricData cat rk rkb info calc is_per_broker now_ns).
Proof.
  intros Hc. unfold serializeMetricData.
  apply ticks_grow_bind; [apply ticks_grow_lift|]. intros i.
  apply ticks_grow_bind; [apply Hc|]. intros v.
  apply ticks_grow_bind; [apply ticks_grow_lift|]. intros st.
  apply ticks_grow_bind; [apply ticks_grow_lift|]. intros attrs.
  apply ticks_grow_ret.
Qed.

Lemma ticks_grow_per_broker (cat : catalog_t) (rk : rd_kafka_t)
    (info : result rd_kafka_telemetry_metric_info_t)
    (calc : rd_kafka_telemetry_metric_value_calculator_t)
    (now_ns total : Z) (brokers : list rd_kafka_broker_t) :
  (forall rk' broker, ticks_grow (calc rk' broker)) ->
  forall nodes,
    ticks_grow (per_broker_nodes cat rk info calc now_ns total brokers nodes).
Proof.
  intros Hc. induction brokers as [|b bs IH]; intros nodes; cbn.
  - apply ticks_grow_ret.
  - apply ticks_grow_bind; [apply ticks_grow_lift|]. intros _.
    apply ticks_grow_bind; [apply ticks_grow_serialize; exact Hc|].
    intros m. apply IH.
Qed.

Lemma ticks_grow_metric_nodes (cat : catalog_t) (rk : rd_kafka_t)
    (now_ns total : Z) (ids : list Z) :
  forall nodes, ticks_grow (metric_nodes cat rk now_ns total ids nodes).
Proof.
  induction ids as [|id rest IH]; intros nodes; cbn.
  - apply ticks_grow_ret.
  - intros e s a s' H. apply bind_ok in H as (calc & s1 & Hc & H).
    apply lift_ok in Hc as [Hc ->].
    pose proof (ticks_grow_calculators _ _ _ Hc) as Hg.
    destruct (is_per_broker_metric rk id).
    + apply bind_ok in H as (nodes' & s2 & Hp & H).
      pose proof (ticks_grow_per_broker _ _ _ _ _ _ _ Hg _ _ _ _ _ Hp).
      pose proof (IH _ _ _ _ _ H). lia.
    + apply bind_ok in H as (u & s2 & Hu & H).
      apply lift_ok in Hu as [_ ->].
      apply bind_ok in H as (m & s3 & Hs & H).
      pose proof (ticks_grow_serialize _ _ _ _ _ _ _ Hg _ _ _ _ Hs).
      pose proof (IH _ _ _ _ _ H). lia.
Qed.

Lemma build_tree_ticks (cat : catalog_t) (rk : rd_kafka_t) (e : env)
    (s s1 : mstate) (md : MetricsData) :
  build_tree cat rk e s = Ok (md, s1) ->
  (clock_ticks s < clock_ticks s1)%nat.
Proof.
  intros H. destruct (build_tree_nodes _ _ _ _ _ _ H) as (s2 & s3 & Hn & _).
  unfold build_tree in H.
  apply bind_ok in H as (now_us & t1 & Hu & H).
  injection Hu as _ <-.
  apply bind_ok in H as (ra & t2 & Hra & H). apply lift_ok in Hra as [_ ->].
  apply bind_ok in H as (kv & t3 & Hkv & H). apply lift_ok in Hkv as [_ ->].
  apply bind_ok in H as (nodes & t4 & Hnodes & H).
  pose proof (ticks_grow_metric_nodes _ _ _ _ _ _ _ _ _ _ Hnodes) as Hg.
  cbn [clock_ticks] in Hg.
  apply bind_ok in H as (ms & t5 & Hms & H). apply lift_ok in Hms as [_ ->].
  destruct (0 <? total_metrics_count rk);
    apply ret_ok in H as [_ ->]; lia.
Qed.

Lemma reset_from_In_nth (e : env) (brokers : list rd_kafka_broker_t) :
  forall (t : nat) (b' : rd_kafka_broker_t),
    In b' (reset_from e t brokers) ->
    exists i b, (i < List.length brokers)%nat /\
                b' = reset_broker (wrap64 (uclock e (t + i) * 1000)) b.
Proof.
  induction brokers as [|b bs IH]; intros t b' H; [contradiction|].
  cbn in H. destruct H as [<-|H].
  - exists 0%nat, b. rewrite Nat.add_0_r. split; [cbn; lia|reflexivity].
  - destruct (IH _ _ H) as (i & b0 & Hi & ->).
    exists (S i), b0. rewrite Nat.add_succ_r. split; [cbn; lia|reflexivity].
Qed.

(** X19. With a clock that does not go back during the call, the baseline
    timestamp [ts_last] a successful call leaves in every broker is not
    earlier than the capture time of the entries of the buffer it returns:
    the next window starts where this one was captured, or later. *)
Theorem baseline_not_before_capture (cat : catalog_t) (rk rk' : rd_kafka_t)
    (e : env) (s s' : mstate) (md : MetricsData) :
  rd_kafka_telemetry_encode_metrics cat rk e s = Ok ((Some md, rk'), s') ->
  monotone_clock e (clock_ticks s') ->
  forall m b',
    In m (metric_entries md) -> In b' (rk_brokers rk') ->
    time_unix_nano (data_point_of m) <= h_ts_last (rkb_c_historic b').
Proof.
  intros H [Hmono Hrange] m b' Hm Hb'.
  destruct (build_tree cat rk e s) as [[a s1]|f] eqn:Hb.
  - rewrite (encode_after_build _ _ _ _ _ _ Hb) in H.
    destruct (all_passes_ok e); [|discriminate H].
    injection H as -> <- <-.
    destruct (build_tree_entries _ _ _ _ _ _ Hb) as [_ Hall].
    rewrite Forall_forall in Hall.
    destruct (Hall m Hm) as (id & info & b & _ & _ & _ & _ & -> & _).
    cbn [rk_brokers set_rk_brokers] in Hb'.
    destruct (reset_from_In_nth _ _ _ _ Hb') as (i & b0 & Hi & ->).
    cbn [rkb_c_historic reset_broker h_ts_last].
    cbn [clock_ticks] in Hmono, Hrange.
    pose proof (build_tree_ticks _ _ _ _ _ _ Hb) as Ht.
    pose proof (Hmono (clock_ticks s) (clock_ticks s1 + i)%nat) as Hle.
    pose proof (Hrange (clock_ticks s)) as R1.
    pose proof (Hrange (clock_ticks s1 + i)%nat) as R2.
    rewrite !wrap64_id by (unfold in_int64; lia). lia.
  - unfold rd_kafka_telemetry_encode_metrics, bind in H.
    rewrite Hb in H. discriminate H.
Qed.

Lemma baseline_not_before_capture_witness :
  exists md rk' s',
    rd_kafka_telemetry_encode_metrics sample_catalog two_latencies sample_env
      initial_state = Ok ((Some md, rk'), s') /\
    forall m b',
      In m (metric_entries md) -> In b' (rk_brokers rk') ->
      time_unix_nano (data_point_of m) <= h_ts_last (rkb_c_historic b').
Proof.
  eexists _, _, _. split; [cbv; reflexivity|].
  refine (baseline_not_before_capture sample_catalog two_latencies _
            sample_env initial_state _ _ eq_refl _).
  cbn [clock_ticks]. split.
  - intros i j Hij _. unfold sample_env. cbn [uclock]. lia.
  - intros i Hi. cbn in Hi. unfold sample_env. cbn [uclock].
    change (2 ^ 63) with 9223372036854775808. lia.
Defined.

(** ** Two calls in a row *)

Lemma partitions_delta_sum_reset (e : env)
    (brokers : list rd_kafka_broker_t) :
  forall t, partitions_delta_sum (reset_from e t brokers) = 0.
Proof.
  induction brokers as [|b bs IH]; intros t; [reflexivity|].
  unfold partitions_delta_sum in *. cbn [reset_from map fold_right].
  rewrite IH. cbn. lia.
Qed.

Lemma encode_success_built (cat : catalog_t) (rk rk' : rd_kafka_t) (e : env)
    (s s' : mstate) (md : MetricsData) :
  rd_kafka_telemetry_encode_metrics cat rk e s = Ok ((Some md, rk'), s') ->
  exists s1,
    build_tree cat rk e s = Ok (md, s1) /\
    rk' = set_rk_brokers rk (reset_from e (clock_ticks s1) (rk_brokers rk)).
Proof.
  intros H. destruct (build_tree cat rk e s) as [[a s1]|f] eqn:Hb.
  - rewrite (encode_after_build _ _ _ _ _ _ Hb) in H.
    destruct (all_passes_ok e); [|discriminate H].
    injection H as -> <- _. exists s1. split; reflexivity.
  - unfold rd_kafka_telemetry_encode_metrics, bind in H.
    rewrite Hb in H. discriminate H.
Qed.

Lemma Forall2_impl_In {A B} (P Q : A -> B -> Prop) (l1 : list A)
    (l2 : list B) :
  Forall2 P l1 l2 ->
  (forall a b, In a l1 -> P a b -> Q a b) ->
  Forall2 Q l1 l2.
Proof.
  induction 1 as [|a b l1 l2 Hab _ IH]; intros Himp; constructor.
  - apply Himp; [left; reflexivity|exact Hab].
  - apply IH. intros x y Hx. apply Himp. right. exact Hx.
Qed.

Lemma node_sources_In (rk : rd_kafka_t) (ids : list Z) (id : Z)
    (rkb : option rd_kafka_broker_t) :
  In (id, rkb) (node_sources rk ids) ->
  match rkb with
  | Some b => is_per_broker_metric rk id = true /\ In b (rk_brokers rk)
  | None => is_per_broker_metric rk id = false
  end.
Proof.
  unfold node_sources. intros H. apply in_flat_map in H as (x & _ & H).
  destruct (is_per_broker_metric rk x) eqn:Hpb.
  - apply in_map_iff in H as (b & Hb & Hin). injection Hb as -> <-.
    split; [exact Hpb|exact Hin].
  - destruct H as [H|[]]. injection H as -> <-. exact Hpb.
Qed.

Lemma entry_after_reset (cat : catalog_t) (rk : rd_kafka_t) (e : env)
    (t : nat) (ids : list Z) (src : Z * option rd_kafka_broker_t)
    (m : Metric) :
  let rk' := set_rk_brokers rk (reset_from e t (rk_brokers rk)) in
  In src (node_sources rk' ids) ->
  entry_of cat rk' src m ->
  nothing_new rk' (fst src) (dp_value (data_point_of m)).
Proof.
  intros rk' Hin
    (info & calc & e0 & s0 & s1 & value & _ & Hc & Hcalc & _ & _ & _ & Hv & _).
  rewrite Hv. clear Hv. destruct src as [id rkb]. cbn [fst snd] in *.
  apply node_sources_In in Hin.
  unfold calculators_of in Hc. subst rk'.
  cbn [rk_type set_rk_brokers] in Hc.
  unfold nothing_new; repeat split; intros ->.
  - assert (calc = calculate_connection_creation_rate) as ->.
    { destruct (rd_kafka_type_eqb _ _); cbn in Hc; injection Hc as Hc;
        symmetry; exact Hc. }
    rewrite rate_value in Hcalc. cbv zeta in Hcalc.
    cbn [rk_brokers set_rk_brokers] in Hcalc.
    rewrite delta_sum_reset in Hcalc. injection Hcalc as <- _.
    eexists. split; [reflexivity|].
    destruct (0 <? _); [|reflexivity]. unfold Qdiv. apply Qmult_0_l.
  - intros Hd.
    assert (calc = pure_calculator calculate_connection_creation_total) as ->.
    { destruct (rd_kafka_type_eqb _ _); cbn in Hc; injection Hc as Hc;
        symmetry; exact Hc. }
    unfold pure_calculator in Hcalc;
      apply lift_ok in Hcalc as [Hcalc _].
    unfold calculate_connection_creation_total in Hcalc.
    cbn [delta_temporality rk_brokers set_rk_brokers] in Hcalc, Hd.
    rewrite Hd in Hcalc. cbn [negb] in Hcalc.
    change 0 with (wrap64 0) in Hcalc at 1.
    rewrite total_loop_delta, delta_sum_reset in Hcalc.
    injection Hcalc as <-. reflexivity.
  - assert (calc = pure_calculator calculate_broker_avg_rtt) as ->.
    { destruct (rd_kafka_type_eqb _ _); cbn in Hc; injection Hc as Hc;
        symmetry; exact Hc. }
    unfold pure_calculator in Hcalc;
      apply lift_ok in Hcalc as [Hcalc _].
    destruct rkb as [b|]; [|discriminate Hcalc].
    destruct Hin as [_ Hin]. cbn [rk_brokers set_rk_brokers] in Hin.
    destruct (reset_from_In _ _ _ _ Hin) as (n & b0 & _ & ->).
    rewrite broker_avg_rtt_no_new_observation in Hcalc by (cbn; lia).
    injection Hcalc as <-. reflexivity.
  - destruct (rd_kafka_type_eqb _ _); cbn in Hc; injection Hc as <-;
      unfold pure_calculator in Hcalc;
      apply lift_ok in Hcalc as [Hcalc _].
    + unfold calculate_throttle_avg in Hcalc.
      cbn [rk_brokers rk_broker_cnt set_rk_brokers] in Hcalc.
      rewrite sum_of_averages_no_new in Hcalc
        by (apply reset_from_no_new; intros; cbn; lia).
      cbn [rbind] in Hcalc. unfold div64 in Hcalc.
      destruct (rk_broker_cnt rk =? 0); [discriminate Hcalc|].
      cbn in Hcalc. injection Hcalc as <-. reflexivity.
    + unfold calculate_consumer_assigned_partitions in Hcalc.
      change 0 with (wrap32 0) in Hcalc at 1.
      rewrite assigned_partitions_loop in Hcalc.
      cbn [rk_brokers set_rk_brokers] in Hcalc.
      rewrite partitions_delta_sum_reset in Hcalc.
      injection Hcalc as <-. reflexivity.
  - destruct (rd_kafka_type_eqb _ _); cbn in Hc; [|discriminate Hc].
    injection Hc as <-. unfold pure_calculator in Hcalc;
      apply lift_ok in Hcalc as [Hcalc _].
    unfold calculate_queue_time_avg in Hcalc.
    cbn [rk_brokers rk_broker_cnt set_rk_brokers] in Hcalc.
    rewrite sum_of_averages_no_new in Hcalc
      by (apply reset_from_no_new; intros; cbn; lia).
    cbn [rbind] in Hcalc. unfold div64 in Hcalc.
    destruct (rk_broker_cnt rk =? 0); [discriminate Hcalc|].
    cbn in Hcalc. injection Hcalc as <-. reflexivity.
Qed.

(** X20. A call that follows a successful call on the client it left,
    with nothing observed in between, reports nothing new: in the order of
    the enabled list, every connection rate, every total in delta mode,
    every average latency, throttle time and queue time and every
    assigned-partition count of the second buffer is zero. *)
Theorem second_call_reports_nothing_new (cat : catalog_t)
    (rk rk' rk'' : rd_kafka_t) (e e' : env) (s s' s2 s3 : mstate)
    (md md' : MetricsData) :
  rd_kafka_telemetry_encode_metrics cat rk e s = Ok ((Some md, rk'), s') ->
  rd_kafka_telemetry_encode_metrics cat rk' e' s2
  = Ok ((Some md', rk''), s3) ->
  Forall2 (fun src m =>
             nothing_new rk' (fst src) (dp_value (data_point_of m)))
          (node_sources rk' (matched_metrics rk')) (metric_entries md').
Proof.
  intros H1 H2.
  destruct (encode_success_built _ _ _ _ _ _ _ H1) as (s1 & _ & ->).
  destruct (encode_success_built _ _ _ _ _ _ _ H2) as (s4 & Hb & _).
  destruct (build_tree_nodes _ _ _ _ _ _ Hb) as (t0 & t1 & Hn & _).
  destruct (metric_nodes_entries _ _ _ _ _ _ _ _ _ _ Hn)
    as (new & Heq & Hall).
  cbn [app] in Heq. rewrite Heq.
  apply (Forall2_impl_In _ _ _ _ Hall).
  intros src m Hin He. exact (entry_after_reset _ _ _ _ _ _ _ Hin He).
Qed.

Lemma second_call_reports_nothing_new_witness :
  exists md rk' s' md' rk'' s3,
    rd_kafka_telemetry_encode_metrics sample_catalog two_latencies sample_env
      initial_state = Ok ((Some md, rk'), s') /\
    rd_kafka_telemetry_encode_metrics sample_catalog rk' sample_env s'
    = Ok ((Some md', rk''), s3) /\
    List.length (metric_entries md') = 4%nat /\
    Forall2 (fun src m =>
               nothing_new rk' (fst src) (dp_value (data_point_of m)))
            (node_sources rk' (matched_metrics rk')) (metric_entries md').
Proof.
  eexists _, _, _, _, _, _. split; [cbv; reflexivity|].
  split; [cbv; reflexivity|]. split; [reflexivity|].
  exact (second_call_reports_nothing_new sample_catalog two_latencies _ _
           sample_env sample_env initial_state _ (MState 4 1) _ _ _
           eq_refl eq_refl).
Defined.
